(** * infrasys: time-series storage, metadata bookkeeping and component associations

    A shallow embedding of
      - [infrasys/in_memory_time_series_storage.py]
      - [infrasys/chronify_time_series_storage.py]
      - [infrasys/time_series_manager.py]
      - [infrasys/component_associations.py]
      - [infrasys/models.py]
    Python objects become records, [dict]s that are iterated become
    insertion-ordered association lists, the other [dict]s become [gmap]s, and a
    method that mutates state or raises becomes a computation in a state-and-error
    monad in which the state survives a raised exception, as it does in Python.

    The modules these files import but that are not among the sources (the
    time-series models, the metadata store, the columnar backend, the id
    allocator) are modelled from the specification and marked as such; the
    chronify engine and [get_range] are parameters ([Externals]). *)

From Stdlib Require Import ZArith List Bool Lia Ascii.
From stdpp Require Import base option list gmap strings pretty.

Open Scope string_scope.
Open Scope Z_scope.

(** ** Exceptions and results *)

Inductive exn : Type :=
| ISNotStored
| ISOperationNotAllowed
| ISAlreadyAttached
| NotImplementedError
| ValueError
| KeyError
| TypeError
| AssertionError
| AttributeError
| Exception      (* the bare [Exception("Bug: ...")] of the chronify backend *)
| EngineError    (* whatever the chronify engine itself raises *)
| OverflowError. (* sqlite3: "Python int too large to convert to SQLite INTEGER" *)

Inductive result (A : Type) : Type :=
| Ok (a : A)
| Raise (e : exn).
Arguments Ok {A} a.
Arguments Raise {A} e.

Definition is_ok {A} (r : result A) : bool :=
  match r with Ok _ => true | Raise _ => false end.

(** ** The state-and-error monad *)

Definition M (S A : Type) : Type := S -> result A * S.

Definition ret {S A} (a : A) : M S A := fun s => (Ok a, s).
Definition raise {S A} (e : exn) : M S A := fun s => (Raise e, s).
Definition bind {S A B} (c : M S A) (k : A -> M S B) : M S B :=
  fun s => match c s with
           | (Ok a, s') => k a s'
           | (Raise e, s') => (Raise e, s')
           end.
Definition get_st {S} : M S S := fun s => (Ok s, s).
Definition gets {S A} (f : S -> A) : M S A := fun s => (Ok (f s), s).
Definition put_st {S} (s : S) : M S unit := fun _ => (Ok tt, s).
Definition modify {S} (f : S -> S) : M S unit := fun s => (Ok tt, f s).
Definition lift_result {S A} (r : result A) : M S A := fun s => (r, s).

Notation "x <~ c ;; k" := (bind c (fun x => k))
  (at level 20, c at level 99, k at level 200, only parsing).
Notation "' pat <~ c ;; k" := (bind c (fun x => match x with pat => k end))
  (at level 20, pat pattern, c at level 99, k at level 200, only parsing).
Notation "c ;; k" := (bind c (fun _ => k))
  (at level 100, k at level 200, right associativity, only parsing).

(** A Python [for x in l: body(x)]. *)
Fixpoint for_each {S A} (body : A -> M S unit) (l : list A) : M S unit :=
  match l with
  | [] => ret tt
  | x :: l' => body x ;; for_each body l'
  end.

(** Run a computation on one side of a pair of states. *)
Definition on_fst {S T A} (c : M S A) : M (S * T) A :=
  fun st => let '(r, s') := c (fst st) in (r, (s', snd st)).
Definition on_snd {S T A} (c : M T A) : M (S * T) A :=
  fun st => let '(r, t') := c (snd st) in (r, (fst st, t')).

(** ** Python values and dictionaries *)

Inductive pyval : Type :=
| PyNone
| PyBool (b : bool)
| PyInt (z : Z)
| PyStr (s : string).

#[global] Instance pyval_eq_dec : EqDecision pyval.
Proof. solve_decision. Defined.

(** Truth value of an object in a condition. *)
Definition truthy (v : pyval) : bool :=
  match v with
  | PyNone => false
  | PyBool b => b
  | PyInt z => negb (z =? 0)
  | PyStr s => negb (String.eqb s "")
  end.

(** A [dict] with integer keys whose iteration order (insertion order) is
    observable: an association list without repeated keys. *)
Section PyDict.
Context {V : Type}.

Fixpoint dict_get (k : Z) (d : list (Z * V)) : option V :=
  match d with
  | [] => None
  | (k', v) :: d' => if k' =? k then Some v else dict_get k d'
  end.

Definition dict_contains (k : Z) (d : list (Z * V)) : bool :=
  match dict_get k d with Some _ => true | None => false end.

(** [d[k] = v]: replaces in place, or appends a new key at the end. *)
Fixpoint dict_set (k : Z) (v : V) (d : list (Z * V)) : list (Z * V) :=
  match d with
  | [] => [(k, v)]
  | (k', v') :: d' =>
      if k' =? k then (k, v) :: d' else (k', v') :: dict_set k v d'
  end.

(** The dictionary left by [d.pop(k, None)]. *)
Definition dict_del (k : Z) (d : list (Z * V)) : list (Z * V) :=
  List.filter (fun kv => negb (fst kv =? k)) d.

Definition dict_values (d : list (Z * V)) : list V := map snd d.
Definition dict_keys (d : list (Z * V)) : list Z := map fst d.
End PyDict.

(** ** Time-series models *)

(** A numpy array of samples, or a [pint.Quantity] wrapping one. *)
Inductive ndarray : Type :=
| NDArray (values : list Z)
| Quantity (values : list Z) (units : string).

Definition magnitude (a : ndarray) : list Z :=
  match a with NDArray v => v | Quantity v _ => v end.
Definition units_of (a : ndarray) : option string :=
  match a with NDArray _ => None | Quantity _ u => Some u end.
Definition len (a : ndarray) : nat := length (magnitude a).

(** [a[i : i + n]]: a slice never raises, it stops at the end of the array. *)
Definition slice (a : ndarray) (i n : nat) : ndarray :=
  match a with
  | NDArray v => NDArray (take n (drop i v))
  | Quantity v u => Quantity (take n (drop i v)) u
  end.

(** Modelled from the spec: [infrasys.time_series_models] is not among the
    sources. Section 3 gives a TimeSeries its [id] (absent until the allocator
    assigns one), [variable_name], [resolution], [initial_time], [data] and
    [normalization]; its length is the length of [data]. *)
Record SingleTimeSeries : Type := mkSingleTimeSeries {
  sts_id : option Z;
  sts_variable_name : string;
  sts_resolution : Z;
  sts_initial_time : Z;
  sts_data : ndarray;
  sts_normalization : option string;
}.

(** [TimeSeriesData] is the abstract base; [SingleTimeSeries] is the subclass the
    sources name, any other subclass is kept opaque. *)
Inductive TimeSeriesData : Type :=
| Single (s : SingleTimeSeries)
| OtherTimeSeries (oid : option Z).

Definition ts_id (t : TimeSeriesData) : option Z :=
  match t with Single s => sts_id s | OtherTimeSeries oid => oid end.

(** [time_series.id = k] *)
Definition set_id (t : TimeSeriesData) (k : Z) : TimeSeriesData :=
  match t with
  | Single s =>
      Single (mkSingleTimeSeries (Some k) (sts_variable_name s) (sts_resolution s)
                (sts_initial_time s) (sts_data s) (sts_normalization s))
  | OtherTimeSeries _ => OtherTimeSeries (Some k)
  end.

(** Modelled from the spec: the metadata record of section 3 and 4.2, a binding
    to the physical array ([time_series_id]) with the variable name, the type
    discriminator, the time axis of the array and the user attributes.
    [md_single] tells a [SingleTimeSeriesMetadata] from any other metadata
    class. *)
Record TimeSeriesMetadata : Type := mkTimeSeriesMetadata {
  md_single : bool;
  time_series_id : Z;
  md_variable_name : string;
  md_type : string;
  md_initial_time : Z;
  md_resolution : Z;
  md_length : nat;
  user_attributes : list (string * pyval);
  quantity_metadata : option string;
  md_normalization : option string;
}.

(** Modelled from the spec: [from_data], "the type's own metadata constructor".
    The metadata copies the series' id and time axis; a series that has no id
    yet cannot be described (the id field of the metadata is an integer). *)
Definition from_data (t : TimeSeriesData) (attrs : list (string * pyval))
  : result TimeSeriesMetadata :=
  match t with
  | Single s =>
      match sts_id s with
      | Some k =>
          Ok (mkTimeSeriesMetadata true k (sts_variable_name s) "SingleTimeSeries"
                (sts_initial_time s) (sts_resolution s) (len (sts_data s)) attrs
                (units_of (sts_data s)) (sts_normalization s))
      | None => Raise ValueError
      end
  | OtherTimeSeries oid =>
      match oid with
      | Some k =>
          Ok (mkTimeSeriesMetadata false k "" "TimeSeriesData" 0 0 0 attrs None None)
      | None => Raise ValueError
      end
  end.

(** Modelled from the spec: [get_range], section 4.1 "Range resolution": the
    result begins at [start_time] when given, and has [length] samples when
    given; both default to the metadata's own initial time and length. *)
Definition get_range_spec (md : TimeSeriesMetadata)
    (start_time : option Z) (length : option nat) : result (nat * nat) :=
  let index :=
    match start_time with
    | None => 0%nat
    | Some t => Z.to_nat ((t - md_initial_time md) / md_resolution md)
    end in
  Ok (index, match length with Some n => n | None => md_length md end).

(** The same range with the bounds checked against the metadata's length. *)
Definition get_range_checked (md : TimeSeriesMetadata)
    (start_time : option Z) (length : option nat) : result (nat * nat) :=
  match get_range_spec md start_time length with
  | Ok (index, n) =>
      if (index + n <=? md_length md)%nat then Ok (index, n) else Raise ValueError
  | Raise e => Raise e
  end.

(** ** The file system and the chronify engine *)

(** One row of the chronify table [time_series (id, timestamp, value)]. *)
Record Row : Type := mkRow {
  row_id : option Z;
  row_timestamp : Z;
  row_value : Z;
}.

(** What a path holds: a database file of the embedded engine, or a directory
    of columnar files, one per physical time-series id. *)
Inductive node : Type :=
| DbFile (rows : list Row)
| Dir (files : gmap Z (list Z)).

(** The world outside the Python heap: the disk, the counter that names the
    next temporary file, and the paths registered with [atexit]. *)
Record World : Type := mkWorld {
  disk : gmap string node;
  tmp_seq : nat;
  atexit : list string;
}.

Definition db_rows (w : World) (path : string) : list Row :=
  match disk w !! path with Some (DbFile rows) => rows | _ => [] end.

Definition dir_files (w : World) (path : string) : gmap Z (list Z) :=
  match disk w !! path with Some (Dir files) => files | _ => ∅ end.

Definition write_node (path : string) (n : node) : M World unit :=
  modify (fun w => mkWorld (<[path := n]> (disk w)) (tmp_seq w) (atexit w)).

(** [NamedTemporaryFile(dir=..., suffix=...)] / [mkdtemp]: a name not handed
    out before; without [dir] the system's temporary directory is used. *)
Definition temp_name (dir : option string) (suffix : string) : M World string :=
  fun w =>
    (Ok (default "/tmp" dir +:+ "/tmp" +:+ pretty (tmp_seq w) +:+ suffix),
     mkWorld (disk w) (S (tmp_seq w)) (atexit w)).

Definition atexit_register (path : string) : M World unit :=
  modify (fun w => mkWorld (disk w) (tmp_seq w) (atexit w ++ [path])).

(** [ORDER BY timestamp] *)
Fixpoint insert_by_timestamp (r : Row) (l : list Row) : list Row :=
  match l with
  | [] => [r]
  | r' :: l' =>
      if row_timestamp r <? row_timestamp r' then r :: r' :: l'
      else r' :: insert_by_timestamp r l'
  end.

Definition order_by_timestamp (l : list Row) : list Row :=
  foldr insert_by_timestamp [] l.

Definition row_has_id (k : Z) (r : Row) : bool :=
  match row_id r with Some k' => k' =? k | None => false end.

Definition same_point (r r' : Row) : bool :=
  match row_id r, row_id r' with
  | Some k, Some k' => (k =? k') && (row_timestamp r =? row_timestamp r')
  | _, _ => false
  end.

(** What the sources leave outside: the chronify engine and the range
    resolution of the metadata class. The backends and the manager are stated
    for any such environment.
    - chronify is an external package. Its [Store] is modelled as the SQL table
      of section 4.1; [strict] leaves open whether the engine rejects an
      ingestion that repeats a stored (id, timestamp) point and a deletion that
      matches no row ([true]), or runs the plain SQL statement ([false]).
    - [get_range] is [metadata.get_range] of [infrasys.time_series_models],
      which is not among the sources. *)
Class Externals : Type := mkExternals {
  strict : bool;
  get_range : TimeSeriesMetadata -> option Z -> option nat -> result (nat * nat);
}.

(** *** chronify's [Store] *)

Module Store.
(** A handle on a store: the engine and the database file. *)
Record t : Type := mk {
  engine_name : string;
  file_path : string;
}.

(** [Store(engine_name=..., file_path=...)]: opens the database, creating the
    file when there is none. *)
Definition open (engine : string) (path : string) : M World t :=
  w <~ get_st ;;
  match disk w !! path with
  | Some (DbFile _) => ret (mk engine path)
  | Some (Dir _) => raise EngineError
  | None => write_node path (DbFile []) ;; ret (mk engine path)
  end.

Definition ingest_table `{Externals} (store : t) (df : list Row) : M World unit :=
  w <~ get_st ;;
  let table := db_rows w (file_path store) in
  if strict && existsb (fun r => existsb (same_point r) table) df
  then raise EngineError
  else write_node (file_path store) (DbFile (table ++ df)).

Definition delete_rows `{Externals} (store : t) (k : Z) : M World unit :=
  w <~ get_st ;;
  let table := db_rows w (file_path store) in
  if strict && negb (existsb (row_has_id k) table)
  then raise EngineError
  else write_node (file_path store)
         (DbFile (List.filter (fun r => negb (row_has_id k r)) table)).

(** [SELECT value FROM time_series WHERE id = ? [AND timestamp >= ?]
     ORDER BY timestamp [LIMIT n]] *)
Definition read_raw_query (store : t) (k : Z)
    (start_time : option Z) (limit : option nat) : M World (list Z) :=
  w <~ get_st ;;
  let table := db_rows w (file_path store) in
  let selected :=
    List.filter (fun r => row_has_id k r
                          && match start_time with
                             | Some t => t <=? row_timestamp r
                             | None => true
                             end) table in
  let ordered := order_by_timestamp selected in
  ret (map row_value
         (match limit with Some n => take n ordered | None => ordered end)).

Definition backup (store : t) (dst : string) : M World unit :=
  w <~ get_st ;;
  write_node dst (DbFile (db_rows w (file_path store))).
End Store.

(** *** [ChronifyTimeSeriesStorage] *)

(** Modelled from the spec: [make_timestamps], the implicit time axis that
    start time, resolution and length define (section 4.1). *)
Definition make_timestamps (s : SingleTimeSeries) : list Z :=
  map (fun i => sts_initial_time s + Z.of_nat i * sts_resolution s)
      (seq 0 (len (sts_data s))).

Module ChronifyTimeSeriesStorage.
Record t : Type := mk { _store : Store.t }.

Definition create_with_temp_directory
    (base_directory : option string) (engine : string) : M World t :=
  dst_file <~ temp_name base_directory ".db" ;;
  atexit_register dst_file ;;
  store <~ Store.open engine dst_file ;;
  ret (mk store).

Definition from_file_to_tmp_file
    (src_file : string) (dst_dir : option string) (engine : string)
  : M World t :=
  dst_file <~ temp_name dst_dir ".db" ;;
  orig_store <~ Store.open engine src_file ;;
  Store.backup orig_store dst_file ;;
  new_store <~ Store.open engine dst_file ;;
  atexit_register dst_file ;;
  ret (mk new_store).

Definition from_file (path : string) (engine : string) : M World t :=
  store <~ Store.open engine path ;;
  ret (mk store).

Definition get_engine_name (self : t) : string :=
  Store.engine_name (_store self).

Definition _to_dataframe (s : SingleTimeSeries) : list Row :=
  zip_with (fun t v => mkRow (sts_id s) t v)
           (make_timestamps s) (magnitude (sts_data s)).

Definition add_time_series `{Externals} (self : t)
    (metadata : TimeSeriesMetadata) (time_series : TimeSeriesData)
  : M World unit :=
  match time_series with
  | Single s => Store.ingest_table (_store self) (_to_dataframe s)
  | OtherTimeSeries _ => raise NotImplementedError
  end.

Definition _get_single_time_series `{Externals} (self : t)
    (metadata : TimeSeriesMetadata)
    (start_time : option Z) (length : option nat)
  : M World SingleTimeSeries :=
  '(_, required_len) <~ lift_result (get_range metadata start_time length) ;;
  let limit := match length with None => None | Some _ => Some required_len end in
  df <~ Store.read_raw_query (_store self) (time_series_id metadata)
          start_time limit ;;
  if negb (Nat.eqb (List.length df) required_len) then raise Exception
  else
    let np_array :=
      match quantity_metadata metadata with
      | Some u => Quantity df u
      | None => NDArray df
      end in
    ret (mkSingleTimeSeries
           (Some (time_series_id metadata))
           (md_variable_name metadata)
           (md_resolution metadata)
           (match start_time with
            | Some t => t
            | None => md_initial_time metadata
            end)
           np_array
           (md_normalization metadata)).

Definition get_time_series `{Externals} (self : t)
    (metadata : TimeSeriesMetadata)
    (start_time : option Z) (length : option nat)
  : M World TimeSeriesData :=
  if md_single metadata
  then s <~ _get_single_time_series self metadata start_time length ;;
       ret (Single s)
  else raise NotImplementedError.

Definition remove_time_series `{Externals} (self : t) (time_series_id : Z)
  : M World unit :=
  Store.delete_rows (_store self) time_series_id.

Definition serialize (self : t)
    (data : gmap string pyval) (dst : string) (src : option string)
  : M World (gmap string pyval) :=
  path <~ temp_name (Some dst) ".db" ;;
  Store.backup (_store self) path ;;
  ret (<["engine_name" := PyStr (Store.engine_name (_store self))]>
         (<["time_series_storage_type" := PyStr "ChronifyTimeSeriesStorage"]>
            (<["filename" := PyStr path]> data))).
End ChronifyTimeSeriesStorage.

(** *** [ArrowTimeSeriesStorage] *)

(** Modelled from the spec: [infrasys.arrow_storage] is not among the sources.
    Sections 4.1 and 6: one directory holding one columnar file per physical
    id; add is idempotent per id; get and remove fail with NotStored when the
    id is absent; serialization copies the directory. *)
Module ArrowTimeSeriesStorage.
(** Modelled from the spec: the store is its directory. *)
Record t : Type := mk { _ts_directory : string }.

(** Modelled from the spec: opens a permanent directory, creating it when
    there is none. *)
Definition create_with_permanent_directory (directory : string) : M World t :=
  w <~ get_st ;;
  match disk w !! directory with
  | Some (Dir _) => ret (mk directory)
  | Some (DbFile _) => raise ValueError
  | None => write_node directory (Dir ∅) ;; ret (mk directory)
  end.

(** Modelled from the spec: a fresh temporary directory, registered for
    deletion at exit. *)
Definition create_with_temp_directory (base_directory : option string)
  : M World t :=
  directory <~ temp_name base_directory "" ;;
  write_node directory (Dir ∅) ;;
  atexit_register directory ;;
  ret (mk directory).

(** Modelled from the spec: file-backed backends return their directory. *)
Definition get_time_series_directory (self : t) : string := _ts_directory self.

(** Modelled from the spec: one columnar file per physical id, written unless
    the directory already has one (idempotent add). *)
Definition add_time_series (self : t)
    (metadata : TimeSeriesMetadata) (time_series : TimeSeriesData)
  : M World unit :=
  match time_series with
  | Single s =>
      w <~ get_st ;;
      let files := dir_files w (_ts_directory self) in
      match files !! time_series_id metadata with
      | Some _ => ret tt
      | None =>
          write_node (_ts_directory self)
            (Dir (<[time_series_id metadata := magnitude (sts_data s)]> files))
      end
  | OtherTimeSeries _ => raise NotImplementedError
  end.

(** Modelled from the spec: NotStored when the id is absent, else the
    requested range of the stored samples. *)
Definition get_time_series `{Externals} (self : t)
    (metadata : TimeSeriesMetadata)
    (start_time : option Z) (length : option nat)
  : M World TimeSeriesData :=
  w <~ get_st ;;
  match dir_files w (_ts_directory self) !! time_series_id metadata with
  | None => raise ISNotStored
  | Some values =>
      if md_single metadata then
        '(index, n) <~ lift_result (get_range metadata start_time length) ;;
        let rows := take n (drop index values) in
        ret (Single (mkSingleTimeSeries
               (Some (time_series_id metadata))
               (md_variable_name metadata)
               (md_resolution metadata)
               (match start_time with
                | Some t => t
                | None => md_initial_time metadata
                end)
               (match quantity_metadata metadata with
                | Some u => Quantity rows u
                | None => NDArray rows
                end)
               (md_normalization metadata)))
      else raise NotImplementedError
  end.

(** Modelled from the spec: deletes the file; NotStored when absent. *)
Definition remove_time_series (self : t) (time_series_id : Z) : M World unit :=
  w <~ get_st ;;
  let files := dir_files w (_ts_directory self) in
  match files !! time_series_id with
  | None => raise ISNotStored
  | Some _ => write_node (_ts_directory self) (Dir (delete time_series_id files))
  end.

(** Modelled from the spec: serialization copies the directory.
    Copying a directory tree onto an existing one: the files of [src] are
    written over those of [dst]. *)
Definition serialize (self : t)
    (data : gmap string pyval) (dst : string) (src : option string)
  : M World (gmap string pyval) :=
  w <~ get_st ;;
  let src_dir := default (_ts_directory self) src in
  write_node dst (Dir (dir_files w src_dir ∪ dir_files w dst)) ;;
  ret (<["time_series_storage_type" := PyStr "ArrowTimeSeriesStorage"]> data).
End ArrowTimeSeriesStorage.

(** *** [InMemoryTimeSeriesStorage] *)

Module InMemoryTimeSeriesStorage.
Record t : Type := mk {
  _arrays : list (Z * TimeSeriesData);   (* time series ID, not metadata ID *)
}.

Definition __init__ : t := mk [].

Definition get_time_series_directory (self : t) : option string := None.

Definition add_time_series
    (metadata : TimeSeriesMetadata) (time_series : TimeSeriesData)
  : M t unit :=
  self <~ get_st ;;
  if negb (dict_contains (time_series_id metadata) (_arrays self))
  then put_st (mk (dict_set (time_series_id metadata) time_series (_arrays self)))
  else ret tt.

Definition _get_single_time_series `{Externals}
    (metadata : TimeSeriesMetadata)
    (start_time : option Z) (length : option nat)
  : M t SingleTimeSeries :=
  self <~ get_st ;;
  match dict_get (time_series_id metadata) (_arrays self) with
  | None => raise KeyError
  | Some (OtherTimeSeries _) => raise AssertionError
  | Some (Single base_ts) =>
      match start_time, length with
      | None, None => ret base_ts
      | _, _ =>
          '(index, length) <~ lift_result (get_range metadata start_time length) ;;
          ret (mkSingleTimeSeries
                 (Some (time_series_id metadata))
                 (sts_variable_name base_ts)
                 (sts_resolution base_ts)
                 (match start_time with
                  | Some t => t
                  | None => sts_initial_time base_ts
                  end)
                 (slice (sts_data base_ts) index length)
                 (md_normalization metadata))
      end
  end.

Definition get_time_series `{Externals}
    (metadata : TimeSeriesMetadata)
    (start_time : option Z) (length : option nat)
  : M t TimeSeriesData :=
  self <~ get_st ;;
  match dict_get (time_series_id metadata) (_arrays self) with
  | None => raise ISNotStored
  | Some _ =>
      if md_single metadata
      then s <~ _get_single_time_series metadata start_time length ;;
           ret (Single s)
      else raise NotImplementedError
  end.

(** [self._arrays.pop(time_series_id, None)], then the check of what was
    popped. *)
Definition remove_time_series (time_series_id : Z) : M t unit :=
  self <~ get_st ;;
  let time_series := dict_get time_series_id (_arrays self) in
  put_st (mk (dict_del time_series_id (_arrays self))) ;;
  match time_series with
  | None => raise ISNotStored
  | Some _ => ret tt
  end.

Definition serialize (self : t)
    (data : gmap string pyval) (dst : string) (_src : option string)
  : M World (gmap string pyval) :=
  let base_directory := dst in
  storage <~ ArrowTimeSeriesStorage.create_with_permanent_directory base_directory ;;
  for_each (fun ts =>
              metadata <~ lift_result (from_data ts []) ;;
              ArrowTimeSeriesStorage.add_time_series storage metadata ts)
           (dict_values (_arrays self)) ;;
  ret (<["time_series_storage_type" := PyStr "ArrowTimeSeriesStorage"]> data).
End InMemoryTimeSeriesStorage.

(** *** [TimeSeriesStorageBase]: the backend held by a manager *)

Module TimeSeriesStorageBase.
Inductive t : Type :=
| InMemory (s : InMemoryTimeSeriesStorage.t)
| Chronify (s : ChronifyTimeSeriesStorage.t)
| Arrow (s : ArrowTimeSeriesStorage.t).

(** Method dispatch: the in-memory backend changes its own object, the other
    two change the disk. *)
Definition dispatch {A}
    (in_memory : M InMemoryTimeSeriesStorage.t A)
    (chronify : ChronifyTimeSeriesStorage.t -> M World A)
    (arrow : ArrowTimeSeriesStorage.t -> M World A) : M (t * World) A :=
  fun st =>
    match fst st with
    | InMemory s => let '(r, s') := in_memory s in (r, (InMemory s', snd st))
    | Chronify s => let '(r, w') := chronify s (snd st) in (r, (Chronify s, w'))
    | Arrow s => let '(r, w') := arrow s (snd st) in (r, (Arrow s, w'))
    end.

Definition add_time_series `{Externals}
    (metadata : TimeSeriesMetadata) (time_series : TimeSeriesData)
  : M (t * World) unit :=
  dispatch
    (InMemoryTimeSeriesStorage.add_time_series metadata time_series)
    (fun s => ChronifyTimeSeriesStorage.add_time_series s metadata time_series)
    (fun s => ArrowTimeSeriesStorage.add_time_series s metadata time_series).

Definition get_time_series `{Externals} (metadata : TimeSeriesMetadata)
    (start_time : option Z) (length : option nat)
  : M (t * World) TimeSeriesData :=
  dispatch
    (InMemoryTimeSeriesStorage.get_time_series metadata start_time length)
    (fun s => ChronifyTimeSeriesStorage.get_time_series s metadata start_time length)
    (fun s => ArrowTimeSeriesStorage.get_time_series s metadata start_time length).

Definition remove_time_series `{Externals} (time_series_id : Z)
  : M (t * World) unit :=
  dispatch
    (InMemoryTimeSeriesStorage.remove_time_series time_series_id)
    (fun s => ChronifyTimeSeriesStorage.remove_time_series s time_series_id)
    (fun s => ArrowTimeSeriesStorage.remove_time_series s time_series_id).

Definition serialize (data : gmap string pyval) (dst : string)
    (src : option string) : M (t * World) (gmap string pyval) :=
  fun st =>
    let '(r, w') :=
      match fst st with
      | InMemory s => InMemoryTimeSeriesStorage.serialize s data dst src (snd st)
      | Chronify s => ChronifyTimeSeriesStorage.serialize s data dst src (snd st)
      | Arrow s => ArrowTimeSeriesStorage.serialize s data dst src (snd st)
      end in
    (r, (fst st, w')).

(** Whether an array with physical id [k] is physically stored. *)
Definition stored (s : t) (w : World) (k : Z) : bool :=
  match s with
  | InMemory s => dict_contains k (InMemoryTimeSeriesStorage._arrays s)
  | Chronify s =>
      existsb (row_has_id k)
        (db_rows w (Store.file_path (ChronifyTimeSeriesStorage._store s)))
  | Arrow s =>
      bool_decide (is_Some (dir_files w (ArrowTimeSeriesStorage._ts_directory s) !! k))
  end.
End TimeSeriesStorageBase.

(** ** Components *)

(** A component is an object with an optional integer [id], a class and its
    declared fields. A field holds another component, a list, a dictionary, a
    tuple, a plain value, or an object that is not a component but has an
    [id] of its own: an instance of another class derived from
    [InfraSysBaseModelWithIdentifers], whose [id] is an optional integer
    ([models.py], l.32). *)
#[local] Unset Elimination Schemes.
Inductive Component : Type :=
| mkComponent (id : option Z) (type_name : string) (fields : list (string * value))
with value : Type :=
| VComponent (c : Component)
| VList (items : list value)
| VDict (entries : list (string * value))
| VTuple (items : list value)
| VPlain (v : pyval)
| VIdentified (id : option Z) (type_name : string).
#[local] Set Elimination Schemes.

Definition id_of (c : Component) : option Z :=
  match c with mkComponent id _ _ => id end.
Definition type_name_of (c : Component) : string :=
  match c with mkComponent _ type_name _ => type_name end.
Definition model_fields (c : Component) : list (string * value) :=
  match c with mkComponent _ _ fields => fields end.

(** SQL equality of a column with a bound integer: NULL equals nothing. *)
Definition sql_eq (column : option Z) (param : Z) : bool :=
  match column with Some v => v =? param | None => false end.

(** SQLite holds integers in 64 bits, signed: [sqlite3] raises [OverflowError]
    when a Python [int] outside that range is bound to a parameter. [None] is
    bound as NULL. *)
Definition sqlite_integer (k : Z) : bool := (- 2 ^ 63 <=? k) && (k <? 2 ^ 63).

Definition bindable (param : option Z) : bool :=
  match param with Some k => sqlite_integer k | None => true end.

(** ** The identifier allocator *)

(** Modelled from the spec: [infrasys.id_manager] is not among the sources.
    Section 2: it issues unique, monotonically increasing integer ids. *)
Module IDManager.
(** Modelled from the spec: the allocator is its next id. *)
Record t : Type := mk { _next_id : Z }.

(** Modelled from the spec: issues the next id; ids increase by one. *)
Definition get_next_id : M t Z :=
  self <~ get_st ;;
  put_st (mk (_next_id self + 1)) ;;
  ret (_next_id self).
End IDManager.

(** ** The metadata index *)

(** Modelled from the spec: [infrasys.time_series_metadata_store] is not among
    the sources. Section 4.2: a table of metadata rows, one per owning entity,
    each with the owner's reference and the metadata (physical id, variable
    name, type discriminator, attributes). The rows live in the connection the
    store is built on. [add] refuses a series whose variable name and user
    attributes match one already attached to one of the components, as the
    docstring of [TimeSeriesManager.add] records. *)
Module TimeSeriesMetadataStore.
(** Modelled from the spec: a row holds the owner's reference and the
    metadata. *)
Record MetadataRow : Type := mkRow {
  owner_id : option Z;
  owner_type : string;
  metadata : TimeSeriesMetadata;
}.

(** Modelled from the spec: the rows live in the connection. *)
Record t : Type := mk { _con : list MetadataRow }.

(** Modelled from the spec: the store over a connection. *)
Definition __init__ (con : list MetadataRow) (initialize : bool) : t := mk con.

(** Modelled from the spec: the owning-entity filter. *)
Definition owned_by (components : list Component) (row : MetadataRow) : bool :=
  existsb (fun c => match id_of c with
                    | Some k => sql_eq (owner_id row) k
                    | None => false
                    end) components.

(** Modelled from the spec: an exact key/value pair of the attributes. *)
Definition has_attribute (md : TimeSeriesMetadata) (kv : string * pyval) : bool :=
  existsb (fun kv' => bool_decide (kv' = kv)) (user_attributes md).

(** Modelled from the spec: the filter semantics of section 4.2.
    The filter of [get_metadata], [list_metadata] and [remove]: an optional
    variable name, an optional type and exact key/value pairs. *)
Definition matches (variable_name : option string)
    (time_series_type : option string) (attrs : list (string * pyval))
    (md : TimeSeriesMetadata) : bool :=
  match variable_name with
  | Some n => String.eqb n (md_variable_name md)
  | None => true
  end
  && match time_series_type with
     | Some ty => String.eqb ty (md_type md)
     | None => true
     end
  && forallb (has_attribute md) attrs.

(** Modelled from the spec: a row of one of the entities that passes the
    filter. *)
Definition selected (components : list Component)
    (variable_name : option string) (time_series_type : option string)
    (attrs : list (string * pyval)) (row : MetadataRow) : bool :=
  owned_by components row
  && matches variable_name time_series_type attrs (metadata row).

(** Modelled from the spec: the collision test of [add], in the words of the
    docstring of [TimeSeriesManager.add]: the same variable name and the same
    user attributes. *)
Definition same_series (md md' : TimeSeriesMetadata) : bool :=
  String.eqb (md_variable_name md) (md_variable_name md')
  && forallb (has_attribute md') (user_attributes md)
  && forallb (has_attribute md) (user_attributes md').

(** Modelled from the spec: inserts one row per entity. It raises
    [ISAlreadyAttached], as the docstring of [TimeSeriesManager.add] records,
    when the variable name and user attributes match a series already attached
    to one of the components. *)
Definition add (md : TimeSeriesMetadata) (components : list Component)
  : M t unit :=
  self <~ get_st ;;
  if existsb (fun row => owned_by components row && same_series md (metadata row))
             (_con self)
  then raise ISAlreadyAttached
  else put_st (mk (_con self
                ++ map (fun c => mkRow (id_of c) (type_name_of c) md)
                       components)).

(** Modelled from the spec: whether any row references the physical id. *)
Definition has_time_series (self : t) (time_series_id' : Z) : bool :=
  existsb (fun row => time_series_id (metadata row) =? time_series_id')
          (_con self).

(** Modelled from the spec: all matching rows, in insertion order. *)
Definition list_metadata (self : t) (component : Component)
    (variable_name time_series_type : option string)
    (attrs : list (string * pyval)) : list TimeSeriesMetadata :=
  map metadata
      (List.filter (selected [component] variable_name time_series_type attrs)
                   (_con self)).

(** Modelled from the spec: whether a row matches. *)
Definition has_time_series_metadata (self : t) (component : Component)
    (variable_name time_series_type : option string)
    (attrs : list (string * pyval)) : bool :=
  match list_metadata self component variable_name time_series_type attrs with
  | [] => false
  | _ => true
  end.

(** Modelled from the spec: exactly one match, else NotStored (none) or
    OperationNotAllowed (several). *)
Definition get_metadata (self : t) (component : Component)
    (variable_name time_series_type : option string)
    (attrs : list (string * pyval)) : result TimeSeriesMetadata :=
  match list_metadata self component variable_name time_series_type attrs with
  | [] => Raise ISNotStored
  | [md] => Ok md
  | _ => Raise ISOperationNotAllowed
  end.

(** Modelled from the spec: fails with NotStored if nothing matched.
    Deletes the matching rows and returns the set of physical ids they
    referenced. *)
Definition remove (components : list Component)
    (variable_name time_series_type : option string)
    (attrs : list (string * pyval)) : M t (list Z) :=
  self <~ get_st ;;
  let hit := selected components variable_name time_series_type attrs in
  match List.filter hit (_con self) with
  | [] => raise ISNotStored
  | rows =>
      put_st (mk (List.filter (fun row => negb (hit row)) (_con self))) ;;
      ret (remove_dups (map (fun row => time_series_id (metadata row)) rows))
  end.

(** Modelled from the spec: the reference-counting gate.
    The ids among [time_series_ids] that no row references any more. *)
Definition list_missing_time_series (self : t) (time_series_ids : list Z)
  : list Z :=
  List.filter (fun k => negb (has_time_series self k)) time_series_ids.
End TimeSeriesMetadataStore.

(** ** The storage manager *)

Definition TIME_SERIES_KWARGS : gmap string pyval :=
  <["time_series_in_memory" := PyBool false]>
  (<["time_series_read_only" := PyBool false]>
  (<["time_series_directory" := PyNone]>
  (<["time_series_use_chronify" := PyBool false]>
  (<["time_series_engine_name" := PyStr "duckdb"]> ∅)))).

Definition _process_time_series_kwarg (key : string) (kwargs : gmap string pyval)
  : pyval :=
  default (default PyNone (TIME_SERIES_KWARGS !! key)) (kwargs !! key).

(** [d[key]] on a descriptor. *)
Definition getitem (d : gmap string pyval) (key : string) : result pyval :=
  match d !! key with Some v => Ok v | None => Raise KeyError end.

(** A value used where a string or a path is required. *)
Definition as_str (v : pyval) : result string :=
  match v with PyStr s => Ok s | _ => Raise TypeError end.

Definition as_optional_path (v : pyval) : option string :=
  match v with PyStr s => Some s | _ => None end.

(** [Path(parent) / name] *)
Definition path_join (parent name : string) : string := parent +:+ "/" +:+ name.

(** The first argument of [add]: a time series, or any other object. *)
Inductive pyobject : Type :=
| TimeSeries (time_series : TimeSeriesData)
| NotTimeSeries.

Module TimeSeriesManager.
Record t : Type := mk {
  _id_manager : IDManager.t;
  _read_only : pyval;
  _storage : TimeSeriesStorageBase.t;
  _metadata_store : TimeSeriesMetadataStore.t;
}.

(** Computations on one attribute of the manager. *)
Definition with_storage {A} (c : M (TimeSeriesStorageBase.t * World) A)
  : M (t * World) A :=
  fun st =>
    let self := fst st in
    let '(r, (s', w')) := c (_storage self, snd st) in
    (r, (mk (_id_manager self) (_read_only self) s' (_metadata_store self), w')).

Definition with_metadata_store {A} (c : M TimeSeriesMetadataStore.t A)
  : M (t * World) A :=
  fun st =>
    let self := fst st in
    let '(r, md') := c (_metadata_store self) in
    (r, (mk (_id_manager self) (_read_only self) (_storage self) md', snd st)).

Definition with_id_manager {A} (c : M IDManager.t A) : M (t * World) A :=
  fun st =>
    let self := fst st in
    let '(r, ids') := c (_id_manager self) in
    (r, (mk ids' (_read_only self) (_storage self) (_metadata_store self), snd st)).

Definition __init__ (con : list TimeSeriesMetadataStore.MetadataRow)
    (id_manager : IDManager.t) (storage : option TimeSeriesStorageBase.t)
    (initialize : bool) (kwargs : gmap string pyval) : M World t :=
  let base_directory :=
    as_optional_path (_process_time_series_kwarg "time_series_directory" kwargs) in
  let read_only := _process_time_series_kwarg "time_series_read_only" kwargs in
  storage' <~
    match storage with
    | Some storage => ret storage
    | None =>
        if truthy (_process_time_series_kwarg "time_series_in_memory" kwargs)
        then ret (TimeSeriesStorageBase.InMemory InMemoryTimeSeriesStorage.__init__)
        else if truthy (_process_time_series_kwarg "time_series_use_chronify" kwargs)
        then
          engine <~ lift_result
            (as_str (_process_time_series_kwarg "time_series_engine_name" kwargs)) ;;
          s <~ ChronifyTimeSeriesStorage.create_with_temp_directory
                 base_directory engine ;;
          ret (TimeSeriesStorageBase.Chronify s)
        else
          s <~ ArrowTimeSeriesStorage.create_with_temp_directory base_directory ;;
          ret (TimeSeriesStorageBase.Arrow s)
    end ;;
  ret (mk id_manager read_only storage'
          (TimeSeriesMetadataStore.__init__ con initialize)).

Definition _handle_read_only : M (t * World) unit :=
  st <~ get_st ;;
  if truthy (_read_only (fst st)) then raise ISOperationNotAllowed else ret tt.

(** [add]: a time series, the components it is attached to and the user
    attributes. The argument object is part of the state, because [add]
    assigns to its [id]. *)
Definition add `{Externals} (components : list Component)
    (user_attributes : list (string * pyval))
  : M (pyobject * (t * World)) unit :=
  on_snd _handle_read_only ;;
  match components with
  | [] => raise ISOperationNotAllowed
  | _ :: _ =>
      obj <~ gets fst ;;
      match obj with
      | NotTimeSeries => raise ValueError
      | TimeSeries time_series =>
          time_series <~
            match ts_id time_series with
            | None =>
                k <~ on_snd (with_id_manager IDManager.get_next_id) ;;
                on_fst (put_st (TimeSeries (set_id time_series k))) ;;
                ret (set_id time_series k)
            | Some _ => ret time_series
            end ;;
          metadata <~ lift_result (from_data time_series user_attributes) ;;
          st <~ gets snd ;;
          (if negb (from_option
                      (TimeSeriesMetadataStore.has_time_series (_metadata_store (fst st)))
                      false (ts_id time_series))
           then on_snd (with_storage
                          (TimeSeriesStorageBase.add_time_series metadata time_series))
           else ret tt) ;;
          on_snd (with_metadata_store
                    (TimeSeriesMetadataStore.add metadata components))
      end
  end.

Definition _get_by_metadata `{Externals} (metadata : TimeSeriesMetadata)
    (start_time : option Z) (length : option nat)
  : M (t * World) TimeSeriesData :=
  with_storage (TimeSeriesStorageBase.get_time_series metadata start_time length).

Definition get `{Externals} (component : Component)
    (variable_name : option string) (time_series_type : string)
    (start_time : option Z) (length : option nat)
    (user_attributes : list (string * pyval))
  : M (t * World) TimeSeriesData :=
  st <~ get_st ;;
  metadata <~ lift_result
    (TimeSeriesMetadataStore.get_metadata (_metadata_store (fst st)) component
       variable_name (Some time_series_type) user_attributes) ;;
  _get_by_metadata metadata start_time length.

Definition has_time_series (self : t) (component : Component)
    (variable_name : option string) (time_series_type : string)
    (user_attributes : list (string * pyval)) : bool :=
  TimeSeriesMetadataStore.has_time_series_metadata (_metadata_store self)
    component variable_name (Some time_series_type) user_attributes.

Definition list_time_series_metadata (self : t) (component : Component)
    (variable_name : option string) (time_series_type : string)
    (user_attributes : list (string * pyval)) : list TimeSeriesMetadata :=
  TimeSeriesMetadataStore.list_metadata (_metadata_store self)
    component variable_name (Some time_series_type) user_attributes.

(** [remove]: the components, then the filters. *)
Definition remove `{Externals} (components : list Component)
    (variable_name : option string) (time_series_type : string)
    (user_attributes : list (string * pyval)) : M (t * World) unit :=
  _handle_read_only ;;
  time_series_ids <~ with_metadata_store
    (TimeSeriesMetadataStore.remove components variable_name
       (Some time_series_type) user_attributes) ;;
  st <~ get_st ;;
  let missing_ids :=
    TimeSeriesMetadataStore.list_missing_time_series
      (_metadata_store (fst st)) time_series_ids in
  for_each (fun ts_id =>
              with_storage (TimeSeriesStorageBase.remove_time_series ts_id))
           missing_ids.

Definition copy : M (t * World) unit :=
  _handle_read_only ;;
  raise NotImplementedError.

Definition serialize (data : gmap string pyval) (dst : string)
    (src : option string) : M (t * World) (gmap string pyval) :=
  with_storage (TimeSeriesStorageBase.serialize data dst src).

Definition deserialize (con : list TimeSeriesMetadataStore.MetadataRow)
    (id_manager : IDManager.t) (data : gmap string pyval)
    (parent_dir : string) (kwargs : gmap string pyval) : M World t :=
  if truthy (_process_time_series_kwarg "time_series_in_memory" kwargs)
  then raise ISOperationNotAllowed
  else
    directory <~ lift_result (getitem data "directory") ;;
    directory <~ lift_result (as_str directory) ;;
    let time_series_dir := path_join parent_dir directory in
    storage_type <~ lift_result (getitem data "time_series_storage_type") ;;
    storage <~
      (if bool_decide (storage_type = PyStr "ChronifyTimeSeriesStorage") then
         filename <~ lift_result (getitem data "filename") ;;
         engine <~ lift_result (getitem data "engine_name") ;;
         filename <~ lift_result (as_str filename) ;;
         engine <~ lift_result (as_str engine) ;;
         s <~ (if truthy (_process_time_series_kwarg "time_series_read_only" kwargs)
               then ChronifyTimeSeriesStorage.from_file filename engine
               else ChronifyTimeSeriesStorage.from_file_to_tmp_file
                      filename (Some time_series_dir) engine) ;;
         ret (TimeSeriesStorageBase.Chronify s)
       else if bool_decide (storage_type = PyStr "ArrowTimeSeriesStorage") then
         s <~ (if truthy (_process_time_series_kwarg "time_series_read_only" kwargs)
               then ArrowTimeSeriesStorage.create_with_permanent_directory
                      time_series_dir
               else
                 storage <~ ArrowTimeSeriesStorage.create_with_temp_directory None ;;
                 ArrowTimeSeriesStorage.serialize storage ∅
                   (ArrowTimeSeriesStorage.get_time_series_directory storage)
                   (Some time_series_dir) ;;
                 ret storage) ;;
         ret (TimeSeriesStorageBase.Arrow s)
       else raise NotImplementedError) ;;
    __init__ con id_manager (Some storage) false kwargs.
(** [[self._get_by_metadata(x, ...) for x in metadata]]: the reads in order;
    the first exception ends the comprehension. *)
Fixpoint get_each `{Externals} (metadata : list TimeSeriesMetadata)
    (start_time : option Z) (length : option nat)
  : M (t * World) (list TimeSeriesData) :=
  match metadata with
  | [] => ret []
  | x :: rest =>
      ts <~ _get_by_metadata x start_time length ;;
      tss <~ get_each rest start_time length ;;
      ret (ts :: tss)
  end.

Definition list_time_series `{Externals} (component : Component)
    (variable_name : option string) (time_series_type : string)
    (start_time : option Z) (length : option nat)
    (user_attributes : list (string * pyval))
  : M (t * World) (list TimeSeriesData) :=
  st <~ get_st ;;
  let metadata :=
    list_time_series_metadata (fst st) component variable_name time_series_type
      user_attributes in
  get_each metadata start_time length.

Definition get_engine_name (self : t) : option string :=
  match _storage self with
  | TimeSeriesStorageBase.Chronify s =>
      Some (ChronifyTimeSeriesStorage.get_engine_name s)
  | _ => None
  end.

Definition uses_chronify (self : t) : bool :=
  match _storage self with
  | TimeSeriesStorageBase.Chronify _ => true
  | _ => false
  end.
End TimeSeriesManager.

(** ** The association index *)

Module ComponentAssociations.
(** A row of the table [component_associations]; [id] is the integer primary
    key that SQLite assigns on insertion. *)
Record AssociationRow : Type := mkRow {
  id : Z;
  component_id : option Z;
  component_type : string;
  attached_component_id : option Z;
  attached_component_type : string;
}.

(** The in-memory database: the rows of the table, in insertion order. *)
Record t : Type := mk { _con : list AssociationRow }.

Definition __init__ : t := mk [].

(** A row as [_make_row] builds it, the primary key still [None]. *)
Definition new_row : Type := (option Z * string * option Z * string)%type.

(** [attached_component.id] and [type(attached_component).__name__] are read
    off the attached object, whatever its class: a component and any other
    object with an [id] give a row; a list, a dictionary, a tuple or a plain
    value has no attribute [id]. *)
Definition _make_row (component : Component) (attached_component : value)
  : result new_row :=
  match attached_component with
  | VComponent a =>
      Ok (id_of component, type_name_of component, id_of a, type_name_of a)
  | VIdentified id type_name =>
      Ok (id_of component, type_name_of component, id, type_name)
  | _ => Raise AttributeError
  end.

(** [isinstance(val, Component)] *)
Definition is_component (val : value) : bool :=
  match val with VComponent _ => true | _ => false end.

(** Appends, in order, the results of [f] on the elements of [l]; the first
    exception ends the loop. *)
Fixpoint collect {A B} (f : A -> result (list B)) (l : list A)
  : result (list B) :=
  match l with
  | [] => Ok []
  | x :: l' =>
      match f x with
      | Raise e => Raise e
      | Ok ys =>
          match collect f l' with
          | Raise e => Raise e
          | Ok zs => Ok (ys ++ zs)%list
          end
      end
  end.

Definition append_row (component : Component) (attached_component : value)
  : result (list new_row) :=
  match _make_row component attached_component with
  | Ok row => Ok [row]
  | Raise e => Raise e
  end.

(** The rows one field contributes. *)
Definition field_rows (component : Component) (val : value)
  : result (list new_row) :=
  match val with
  | VComponent _ => append_row component val
  | VList (first :: rest) =>
      if is_component first
      then collect (append_row component) (first :: rest)
      else Ok []
  | _ => Ok []
  end.

Definition next_key (table : list AssociationRow) : Z :=
  1 + foldr (fun row acc => Z.max (id row) acc) 0 table.

(** [executemany("INSERT ...")]: the rows are inserted one after the other,
    each with the next primary key; a row with an id that SQLite cannot hold
    raises [OverflowError] and ends the statement, the rows before it having
    been inserted. *)
Fixpoint insert_all (rows : list new_row) : M (list AssociationRow) unit :=
  match rows with
  | [] => ret tt
  | (cid, cty, aid, aty) :: rows' =>
      if bindable cid && bindable aid
      then modify (fun table => (table ++ [mkRow (next_key table) cid cty aid aty])%list) ;;
           insert_all rows'
      else raise OverflowError
  end.

(** [try: cur.executemany(query, rows) finally: self._con.commit()]: what was
    inserted before an exception is committed. *)
Definition _insert_rows (rows : list new_row) : M t unit :=
  fun self =>
    let '(r, table) := insert_all rows (_con self) in
    (r, mk table).

Definition add (components : list Component) : M t unit :=
  rows <~ lift_result
    (collect (fun component =>
                collect (fun field => field_rows component (snd field))
                        (model_fields component))
             components) ;;
  match rows with
  | [] => ret tt
  | _ :: _ => _insert_rows rows
  end.

Definition clear : M t unit := put_st (mk []).

Definition list_child_components (component : Component)
    (component_type' : option string) : M t (list (option Z)) :=
  match id_of component with
  | None => raise AssertionError
  | Some cid =>
      if negb (sqlite_integer cid) then raise OverflowError else
      self <~ get_st ;;
      ret (map attached_component_id
             (List.filter
                (fun row =>
                   sql_eq (component_id row) cid
                   && match component_type' with
                      | Some ty => String.eqb (attached_component_type row) ty
                      | None => true
                      end)
                (_con self)))
  end.

Definition list_parent_components (component : Component)
    (component_type' : option string) : M t (list (option Z)) :=
  match id_of component with
  | None => raise AssertionError
  | Some cid =>
      if negb (sqlite_integer cid) then raise OverflowError else
      self <~ get_st ;;
      ret (map component_id
             (List.filter
                (fun row =>
                   sql_eq (attached_component_id row) cid
                   && match component_type' with
                      | Some ty => String.eqb (component_type row) ty
                      | None => true
                      end)
                (_con self)))
  end.

Definition remove (component : Component) : M t unit :=
  if negb (bindable (id_of component)) then raise OverflowError else
  self <~ get_st ;;
  put_st (mk (List.filter
                (fun row =>
                   negb (match id_of component with
                         | Some cid => sql_eq (component_id row) cid
                                       || sql_eq (attached_component_id row) cid
                         | None => false
                         end))
                (_con self))).
End ComponentAssociations.

(** ** Labels ([infrasys/models.py]) *)

(** [str(x)], and [x] formatted in an f-string. *)
Definition py_str (v : pyval) : string :=
  match v with
  | PyNone => "None"
  | PyBool true => "True"
  | PyBool false => "False"
  | PyInt z => pretty z
  | PyStr s => s
  end.

Definition make_label (class_name : string) (name : pyval) : string :=
  class_name +:+ "." +:+ py_str name.

(** [s.split(sep, maxsplit=1)] for a separator of one character: the text
    before the first separator and the text after it, or [s] alone. *)
Fixpoint split_once (sep : Ascii.ascii) (s : string) : list string :=
  match s with
  | EmptyString => [EmptyString]
  | String a s' =>
      if Ascii.eqb a sep then [EmptyString; s']
      else match split_once sep s' with
           | [] => [String a EmptyString]
           | first :: rest => String a first :: rest
           end
  end.

(** [int] is Python's [int] on a string, [None] where it raises [ValueError];
    the label functions are stated for any such reading of numerals. The
    returned name is the string, or the integer it reads as. *)
Definition get_class_and_name_from_label (int : string -> option Z)
    (label : string) : result (string * (string + Z)) :=
  match split_once "."%char label with
  | [class_name; name] =>
      let name_or_id :=
        match int name with
        | Some k => inr k
        | None => inl name
        end in
      Ok (class_name, name_or_id)
  | _ => Raise ValueError
  end.

Module InfraSysBaseModelWithIdentifers.
(** An object of a class derived from the base model: its class name, its
    [name] attribute when the class has one (a plain value), and its [id]. *)
Record t : Type := mk {
  __class__ : string;
  name : option pyval;
  id : option Z;
}.

Definition example : result t := Raise NotImplementedError.

Definition label (self : t) : string :=
  let class_name := __class__ self in
  let name :=
    let attribute := default (PyStr "") (name self) in
    if truthy attribute then attribute
    else PyStr (py_str (from_option PyInt PyNone (id self))) in
  make_label class_name name.
End InfraSysBaseModelWithIdentifers.

(** Whether a character occurs in a string. *)
Fixpoint occurs (c : Ascii.ascii) (s : string) : bool :=
  match s with
  | EmptyString => false
  | String a s' => Ascii.eqb a c || occurs c s'
  end.

(** [int] on a plain decimal numeral, with an optional minus sign. *)
Definition digit_of (a : Ascii.ascii) : option Z :=
  let n := Z.of_N (Ascii.N_of_ascii a) in
  if (48 <=? n) && (n <=? 57) then Some (n - 48) else None.

Fixpoint digits_value (acc : Z) (s : string) : option Z :=
  match s with
  | EmptyString => Some acc
  | String a s' =>
      match digit_of a with
      | Some d => digits_value (10 * acc + d) s'
      | None => None
      end
  end.

Definition int_of_decimal (s : string) : option Z :=
  match s with
  | EmptyString => None
  | String "-"%char EmptyString => None
  | String "-"%char s' => option_map Z.opp (digits_value 0 s')
  | _ => digits_value 0 s
  end.

(** ** Observations on a manager *)

(** Whether the manager's backend physically stores an array under id [k]. *)
Definition physically_stored (m : TimeSeriesManager.t) (w : World) (k : Z) : bool :=
  TimeSeriesStorageBase.stored (TimeSeriesManager._storage m) w k.

(** Whether some metadata row of the manager references physical id [k]. *)
Definition referenced (m : TimeSeriesManager.t) (k : Z) : bool :=
  TimeSeriesMetadataStore.has_time_series (TimeSeriesManager._metadata_store m) k.

(** The metadata rows of the manager. *)
Definition metadata_rows (m : TimeSeriesManager.t)
  : list TimeSeriesMetadataStore.MetadataRow :=
  TimeSeriesMetadataStore._con (TimeSeriesManager._metadata_store m).

(** Whether a manager is in read-only mode. *)
Definition read_only (m : TimeSeriesManager.t) : bool :=
  truthy (TimeSeriesManager._read_only m).

(** The index is consistent with the backend when every referenced array is
    physically stored. *)
Definition consistent (m : TimeSeriesManager.t) (w : World) : Prop :=
  ∀ k, referenced m k = true → physically_stored m w k = true.

(** ** Environments and sample objects used in the examples *)

(** The engine runs plain SQL; ranges are resolved as the spec words them. *)
Definition lenient : Externals := mkExternals false get_range_spec.
(** The engine rejects repeated points and deletions that match nothing. *)
Definition rejecting : Externals := mkExternals true get_range_spec.
(** As [lenient] and [rejecting], with the range checked against the metadata. *)
Definition lenient_checked : Externals := mkExternals false get_range_checked.
Definition rejecting_checked : Externals := mkExternals true get_range_checked.

Definition empty_world : World := mkWorld ∅ 0 [].

(** A series of three samples at 0, 60 and 120 with physical id 1. *)
Definition load_series : SingleTimeSeries :=
  mkSingleTimeSeries (Some 1) "load" 60 0 (NDArray [10; 20; 30]) None.

Definition load_metadata : TimeSeriesMetadata :=
  mkTimeSeriesMetadata true 1 "load" "SingleTimeSeries" 0 60 3 [] None None.

(** Metadata that has drifted from the stored array: it records 5 samples. *)
Definition drifted_metadata : TimeSeriesMetadata :=
  mkTimeSeriesMetadata true 1 "load" "SingleTimeSeries" 0 60 5 [] None None.

Definition sample_store : ChronifyTimeSeriesStorage.t :=
  ChronifyTimeSeriesStorage.mk (Store.mk "duckdb" "series.db").

Definition generator : Component := mkComponent (Some 10) "Generator" [].
Definition bus : Component := mkComponent (Some 20) "Bus" [].

(** Two metadata rows, one per component, share the physical array 1, held by
    an in-memory backend of a writable manager. *)
Definition shared_manager : TimeSeriesManager.t :=
  TimeSeriesManager.mk
    (IDManager.mk 2)
    (PyBool false)
    (TimeSeriesStorageBase.InMemory
       (InMemoryTimeSeriesStorage.mk [(1, Single load_series)]))
    (TimeSeriesMetadataStore.mk
       [TimeSeriesMetadataStore.mkRow (Some 10) "Generator" load_metadata;
        TimeSeriesMetadataStore.mkRow (Some 20) "Bus" load_metadata]).

(** The same manager in read-only mode. *)
Definition frozen_manager : TimeSeriesManager.t :=
  TimeSeriesManager.mk
    (TimeSeriesManager._id_manager shared_manager)
    (PyBool true)
    (TimeSeriesManager._storage shared_manager)
    (TimeSeriesManager._metadata_store shared_manager).

(** A series with its id erased: what [add] must leave as it found it. *)
Definition erase_id (t : TimeSeriesData) : TimeSeriesData :=
  match t with
  | Single s =>
      Single (mkSingleTimeSeries None (sts_variable_name s) (sts_resolution s)
                (sts_initial_time s) (sts_data s) (sts_normalization s))
  | OtherTimeSeries _ => OtherTimeSeries None
  end.

(** A series that has no id yet. *)
Definition fresh_series : TimeSeriesData :=
  Single (mkSingleTimeSeries None "wind" 60 0 (NDArray [1; 2]) None).

(** The manager [deserialize] returns over a backend it has just built: the
    allocator and the connection it was given, the read-only flag of the
    keyword arguments, and no other state. *)
Definition manager_over (con : list TimeSeriesMetadataStore.MetadataRow)
    (id_manager : IDManager.t) (kwargs : gmap string pyval)
    (storage : TimeSeriesStorageBase.t) : TimeSeriesManager.t :=
  TimeSeriesManager.mk id_manager
    (_process_time_series_kwarg "time_series_read_only" kwargs)
    storage
    (TimeSeriesMetadataStore.__init__ con false).

(** The outcome of a backend constructor, turned into the outcome of
    [deserialize]. *)
Definition built {A} (wrap : A -> TimeSeriesStorageBase.t)
    (con : list TimeSeriesMetadataStore.MetadataRow)
    (id_manager : IDManager.t) (kwargs : gmap string pyval)
    (outcome : result A * World) : result TimeSeriesManager.t * World :=
  match outcome with
  | (Ok s, w') => (Ok (manager_over con id_manager kwargs (wrap s)), w')
  | (Raise e, w') => (Raise e, w')
  end.



(** A disk with a chronify snapshot and a columnar snapshot. *)
Definition snapshot_world : World :=
  mkWorld
    (<["snapshot.db" := DbFile (ChronifyTimeSeriesStorage._to_dataframe load_series)]>
     (<["sys/time_series" := Dir (<[1 := [10; 20; 30]]> ∅)]> ∅))
    0 [].

(** The samples a columnar file holds for a series. *)
Definition payload (t : TimeSeriesData) : list Z :=
  match t with
  | Single s => magnitude (sts_data s)
  | OtherTimeSeries _ => []
  end.

(** An in-memory backend holding two series. *)
Definition two_series : InMemoryTimeSeriesStorage.t :=
  InMemoryTimeSeriesStorage.mk
    [(1, Single load_series);
     (2, Single (mkSingleTimeSeries (Some 2) "wind" 60 0 (Quantity [1; 2] "MW") None))].

(** ** The edges the association index is meant to hold *)

Definition as_component (v : value) : option Component :=
  match v with VComponent c => Some c | _ => None end.

(** Section 4.3 in its own words: a field contributes its value when that is a
    single sub-entity, and its items when it is a non-empty sequence made of
    sub-entities only; a map, a tuple, a nested structure, a plain value, an
    empty sequence or a sequence of anything else contributes nothing. *)
Definition field_edges (v : value) : list Component :=
  match v with
  | VComponent a => [a]
  | VList items =>
      if forallb ComponentAssociations.is_component items
      then omap as_component items
      else []
  | _ => []
  end.

Definition edge_row (owner attached : Component) : ComponentAssociations.new_row :=
  (id_of owner, type_name_of owner, id_of attached, type_name_of attached).

(** One row per (owner, attachee) pair, owners and fields in order. *)
Definition expected_rows (components : list Component)
  : list ComponentAssociations.new_row :=
  flat_map (fun c => flat_map (fun field => map (edge_row c) (field_edges (snd field)))
                              (model_fields c))
           components.

(** A stored row without its primary key. *)
Definition edge_of (row : ComponentAssociations.AssociationRow)
  : ComponentAssociations.new_row :=
  (ComponentAssociations.component_id row, ComponentAssociations.component_type row,
   ComponentAssociations.attached_component_id row,
   ComponentAssociations.attached_component_type row).

(** Whether an edge row belongs to owner [cid] and passes the type filter. *)
Definition is_child_edge (cid : Z) (component_type : option string)
    (row : ComponentAssociations.new_row) : bool :=
  let '(owner, _, _, attached_type) := row in
  sql_eq owner cid
  && match component_type with
     | Some ty => String.eqb attached_type ty
     | None => true
     end.

Definition attached_id (row : ComponentAssociations.new_row) : option Z :=
  let '(_, _, attached, _) := row in attached.

(** A list field that starts with a component holds components only. *)
Definition uniform (v : value) : bool :=
  match v with
  | VList (first :: rest) =>
      if ComponentAssociations.is_component first
      then forallb ComponentAssociations.is_component rest
      else true
  | _ => true
  end.

(** Whether an object has an attribute [id]. *)
Definition has_id (v : value) : bool :=
  match v with
  | VComponent _ | VIdentified _ _ => true
  | _ => false
  end.

(** A list field that starts with a component holds only objects that have an
    [id]. *)
Definition attachable (v : value) : bool :=
  match v with
  | VList (first :: rest) =>
      if ComponentAssociations.is_component first
      then forallb has_id rest
      else true
  | _ => true
  end.

Definition all_attachable (components : list Component) : bool :=
  forallb (fun c => forallb (fun field => attachable (snd field)) (model_fields c))
          components.

(** The [id] and the class name of an object that has an [id]. *)
Definition attachment (v : value) : option (option Z * string) :=
  match v with
  | VComponent a => Some (id_of a, type_name_of a)
  | VIdentified id type_name => Some (id, type_name)
  | _ => None
  end.

(** The objects that the code attaches for a field: the value when it is a
    component, the items with an [id] when it is a list that starts with a
    component. *)
Definition field_attachments (v : value) : list (option Z * string) :=
  match v with
  | VComponent a => [(id_of a, type_name_of a)]
  | VList (first :: rest) =>
      if ComponentAssociations.is_component first
      then omap attachment (first :: rest)
      else []
  | _ => []
  end.

Definition attached_row (owner : Component) (attached : option Z * string)
  : ComponentAssociations.new_row :=
  (id_of owner, type_name_of owner, fst attached, snd attached).

(** The rows that [add] builds, owners and fields in order. *)
Definition built_rows (components : list Component)
  : list ComponentAssociations.new_row :=
  flat_map (fun c => flat_map (fun field => map (attached_row c)
                                              (field_attachments (snd field)))
                              (model_fields c))
           components.

(** Whether SQLite can hold the two ids of a row. *)
Definition bindable_row (row : ComponentAssociations.new_row) : bool :=
  let '(owner, _, attached, _) := row in bindable owner && bindable attached.

(** The rows before the first one that SQLite cannot hold. *)
Fixpoint bindable_prefix (rows : list ComponentAssociations.new_row)
  : list ComponentAssociations.new_row :=
  match rows with
  | [] => []
  | row :: rows' => if bindable_row row then row :: bindable_prefix rows' else []
  end.

(** A small graph: a generator on a bus, and a substation that holds buses in a
    list, in a dictionary, in a tuple, in a nested list, and an empty list. *)
Definition bus1 : Component := mkComponent (Some 1) "Bus" [].
Definition bus2 : Component := mkComponent (Some 2) "Bus" [].
Definition gen3 : Component :=
  mkComponent (Some 3) "Generator"
    [("name", VPlain (PyStr "g3")); ("bus", VComponent bus1)].
Definition substation4 : Component :=
  mkComponent (Some 4) "Substation"
    [("buses", VList [VComponent bus1; VComponent bus2]);
     ("by_name", VDict [("a", VComponent bus1)]);
     ("pair", VTuple [VComponent bus2]);
     ("spares", VList []);
     ("nested", VList [VList [VComponent bus1]]);
     ("main", VComponent gen3)].

(** A depot whose list starts with a bus and holds a number. *)
Definition depot5 : Component :=
  mkComponent (Some 5) "Depot" [("buses", VList [VComponent bus1; VPlain (PyInt 7)])].

(** A writable manager over an empty chronify backend, and two series named
    "load" that have no id yet. *)
Definition chronify_manager : TimeSeriesManager.t :=
  TimeSeriesManager.mk (IDManager.mk 1) (PyBool false)
    (TimeSeriesStorageBase.Chronify sample_store) (TimeSeriesMetadataStore.mk []).
Definition first_load : TimeSeriesData :=
  Single (mkSingleTimeSeries None "load" 60 0 (NDArray [10; 20; 30]) None).
Definition second_load : TimeSeriesData :=
  Single (mkSingleTimeSeries None "load" 60 0 (NDArray [1; 2; 3]) None).

(** A chronify database that holds a series of three samples under id 2, on
    the time axis of [load_series], and nothing under id 1. *)
Definition wind_series : SingleTimeSeries :=
  mkSingleTimeSeries (Some 2) "wind" 60 0 (NDArray [1; 2; 3]) None.
Definition wind_world : World :=
  mkWorld (<["series.db" := DbFile (ChronifyTimeSeriesStorage._to_dataframe wind_series)]> ∅)
    0 [].

(** The disk of [snapshot_world] with a directory to export to. *)
Definition export_world : World :=
  mkWorld (<["out" := Dir ∅]> (disk snapshot_world)) 0 [].

(** ** The rows of a series *)

(** The rows of the samples [vs] of a series with physical id [k], initial
    time [t0] and resolution [res], the first sample at position [j] of the
    time axis. *)
Definition frame (k t0 res : Z) (j : nat) (vs : list Z) : list Row :=
  zip_with (fun t v => mkRow (Some k) t v)
           (map (fun i => t0 + Z.of_nat i * res) (seq j (length vs))) vs.

(** ** Sequences of calls on a manager *)

(** A call of [add] or of [remove]. *)
Inductive operation : Type :=
| Add (time_series : TimeSeriesData) (components : list Component)
      (user_attributes : list (string * pyval))
| Remove (components : list Component) (variable_name : option string)
         (time_series_type : string) (user_attributes : list (string * pyval)).

(** The manager and the disk after a call, whether it returned or raised. *)
Definition perform `{Externals} (st : TimeSeriesManager.t * World) (op : operation)
  : TimeSeriesManager.t * World :=
  match op with
  | Add time_series components user_attributes =>
      snd (snd (TimeSeriesManager.add components user_attributes
                  (TimeSeries time_series, st)))
  | Remove components variable_name time_series_type user_attributes =>
      snd (TimeSeriesManager.remove components variable_name time_series_type
             user_attributes st)
  end.

Definition perform_all `{Externals} (ops : list operation)
    (st : TimeSeriesManager.t * World) : TimeSeriesManager.t * World :=
  fold_left perform ops st.

(** Whether a call adds a series without samples. *)
Definition adds_no_samples (op : operation) : bool :=
  match op with
  | Add time_series _ _ => match payload time_series with [] => true | _ => false end
  | Remove _ _ _ _ => false
  end.

(** * Properties *)

(** ** Dictionaries *)

Section dict_facts.
Context {V : Type}.
Implicit Types (d : list (Z * V)) (k j : Z) (v : V).

Lemma dict_get_set_eq k v d : dict_get k (dict_set k v d) = Some v.
Proof.
  induction d as [|[k' v'] d IH]; simpl.
  - by rewrite Z.eqb_refl.
  - destruct (k' =? k) eqn:Hk; simpl.
    + by rewrite Z.eqb_refl.
    + by rewrite Hk.
Qed.

Lemma dict_get_set_ne k j v d :
  j ≠ k → dict_get j (dict_set k v d) = dict_get j d.
Proof.
  intros Hne. induction d as [|[k' v'] d IH]; simpl.
  - by destruct (Z.eqb_spec k j); [congruence|].
  - destruct (Z.eqb_spec k' k) as [->|Hk]; simpl.
    + by destruct (Z.eqb_spec k j); [congruence|].
    + by rewrite IH.
Qed.

Lemma dict_get_del_eq k d : dict_get k (dict_del k d) = None.
Proof.
  induction d as [|[k' v'] d IH]; [done|].
  unfold dict_del in *. simpl.
  destruct (Z.eqb_spec k' k) as [->|Hk]; simpl; [done|].
  by destruct (Z.eqb_spec k' k).
Qed.

Lemma dict_get_del_ne k j d :
  j ≠ k → dict_get j (dict_del k d) = dict_get j d.
Proof.
  intros Hne. induction d as [|[k' v'] d IH]; [done|].
  unfold dict_del in *. simpl.
  destruct (Z.eqb_spec k' k) as [->|Hk]; simpl.
  - by destruct (Z.eqb_spec k j); [congruence|].
  - by rewrite IH.
Qed.

Lemma dict_del_absent k d : dict_get k d = None → dict_del k d = d.
Proof.
  induction d as [|[k' v'] d IH]; [done|].
  unfold dict_del in *. simpl.
  destruct (Z.eqb_spec k' k) as [->|Hk]; simpl; [done|].
  intros Hd. by rewrite IH.
Qed.

Lemma dict_contains_set k j v d :
  dict_contains j (dict_set k v d) = (j =? k) || dict_contains j d.
Proof.
  unfold dict_contains. destruct (Z.eqb_spec j k) as [->|Hne]; simpl.
  - by rewrite dict_get_set_eq.
  - by rewrite dict_get_set_ne.
Qed.

Lemma dict_contains_del k j d :
  dict_contains j (dict_del k d) = negb (j =? k) && dict_contains j d.
Proof.
  unfold dict_contains. destruct (Z.eqb_spec j k) as [->|Hne]; simpl.
  - by rewrite dict_get_del_eq.
  - by rewrite dict_get_del_ne.
Qed.
End dict_facts.

(** ** The in-memory backend *)

(** Adding under a physical id that is already held changes nothing and raises
    nothing. *)
Lemma in_memory_add_existing metadata time_series self :
  dict_contains (time_series_id metadata) (InMemoryTimeSeriesStorage._arrays self) = true →
  InMemoryTimeSeriesStorage.add_time_series metadata time_series self = (Ok tt, self).
Proof.
  intros Hin. unfold InMemoryTimeSeriesStorage.add_time_series, bind, get_st.
  by rewrite Hin.
Qed.

(** Adding under a fresh physical id stores the object under that id. *)
Lemma in_memory_add_fresh metadata time_series self :
  dict_contains (time_series_id metadata) (InMemoryTimeSeriesStorage._arrays self) = false →
  ∃ self',
    InMemoryTimeSeriesStorage.add_time_series metadata time_series self = (Ok tt, self')
    ∧ dict_get (time_series_id metadata) (InMemoryTimeSeriesStorage._arrays self')
      = Some time_series.
Proof.
  intros Hin. unfold InMemoryTimeSeriesStorage.add_time_series, bind, get_st.
  rewrite Hin. simpl. eexists; split; [done|]. apply dict_get_set_eq.
Qed.

(** Two adds under one physical id: the second is a no-op, whatever it carries. *)
Lemma in_memory_add_twice metadata metadata' time_series time_series' self :
  time_series_id metadata' = time_series_id metadata →
  ∀ self1, InMemoryTimeSeriesStorage.add_time_series metadata time_series self
             = (Ok tt, self1) →
  InMemoryTimeSeriesStorage.add_time_series metadata' time_series' self1
    = (Ok tt, self1).
Proof.
  intros Hid self1 H1. apply in_memory_add_existing. rewrite Hid.
  revert H1. unfold InMemoryTimeSeriesStorage.add_time_series, bind, get_st.
  destruct (dict_contains _ _) eqn:Hin; simpl; intros [= <-]; [done|].
  simpl. by rewrite dict_contains_set, Z.eqb_refl.
Qed.

(** Removal of a held id deletes it and nothing else; removal of an id that is
    not held raises [ISNotStored] and leaves the dictionary as it was. *)
Lemma in_memory_remove_stored k self :
  dict_contains k (InMemoryTimeSeriesStorage._arrays self) = true →
  InMemoryTimeSeriesStorage.remove_time_series k self
  = (Ok tt, InMemoryTimeSeriesStorage.mk
              (dict_del k (InMemoryTimeSeriesStorage._arrays self))).
Proof.
  unfold dict_contains, InMemoryTimeSeriesStorage.remove_time_series, bind, get_st.
  by destruct (dict_get k _).
Qed.

Lemma in_memory_remove_absent k self :
  dict_contains k (InMemoryTimeSeriesStorage._arrays self) = false →
  InMemoryTimeSeriesStorage.remove_time_series k self = (Raise ISNotStored, self).
Proof.
  unfold dict_contains, InMemoryTimeSeriesStorage.remove_time_series, bind, get_st.
  destruct (dict_get k _) eqn:Hget; [done|]. intros _. simpl.
  rewrite dict_del_absent by done. by destruct self.
Qed.

(** Whatever [get_range] answers, the in-memory backend returns the slice of the
    held array at that range and checks nothing more. *)
Lemma in_memory_get_is_a_slice `{Externals} metadata start_time n self base_ts index m :
  dict_get (time_series_id metadata) (InMemoryTimeSeriesStorage._arrays self)
    = Some (Single base_ts) →
  get_range metadata start_time (Some n) = Ok (index, m) →
  ∃ s, InMemoryTimeSeriesStorage._get_single_time_series metadata start_time (Some n) self
         = (Ok s, self)
       ∧ sts_data s = slice (sts_data base_ts) index m
       ∧ sts_initial_time s = default (sts_initial_time base_ts) start_time.
Proof.
  intros Hget Hrange.
  unfold InMemoryTimeSeriesStorage._get_single_time_series, bind, get_st, lift_result.
  rewrite Hget. destruct start_time; rewrite Hrange; simpl; eauto.
Qed.

Lemma len_slice a i n : len (slice a i n) = Nat.min n (len a - i).
Proof.
  destruct a; unfold len; simpl; by rewrite length_take, length_drop.
Qed.

(** In range, the slice has exactly the requested number of samples. *)
Lemma in_memory_get_in_range `{Externals} metadata start_time n self base_ts index :
  dict_get (time_series_id metadata) (InMemoryTimeSeriesStorage._arrays self)
    = Some (Single base_ts) →
  get_range metadata start_time (Some n) = Ok (index, n) →
  (index + n ≤ len (sts_data base_ts))%nat →
  ∃ s, InMemoryTimeSeriesStorage._get_single_time_series metadata start_time (Some n) self
         = (Ok s, self)
       ∧ len (sts_data s) = n.
Proof.
  intros Hget Hrange Hle.
  destruct (in_memory_get_is_a_slice _ _ _ _ _ _ _ Hget Hrange) as (s & Hs & Hdata & _).
  exists s. split; [done|]. rewrite Hdata, len_slice. lia.
Qed.

(** ** The chronify backend *)

(** The backend reads nothing but the query result and compares its row count
    with the length [get_range] computed: a different count raises the bare
    [Exception], an equal count gives a series of exactly that many samples
    starting at the requested time. *)
Lemma chronify_get_checks_row_count `{Externals} self metadata start_time length w index n :
  get_range metadata start_time length = Ok (index, n) →
  let limit := match length with None => None | Some _ => Some n end in
  let '(r, w') :=
    ChronifyTimeSeriesStorage._get_single_time_series self metadata start_time length w in
  let rows := fst (Store.read_raw_query (ChronifyTimeSeriesStorage._store self)
                     (time_series_id metadata) start_time limit w) in
  w' = w
  ∧ ∃ df, rows = Ok df
    ∧ (List.length df ≠ n → r = Raise Exception)
    ∧ (List.length df = n →
       ∃ s, r = Ok s
            ∧ magnitude (sts_data s) = df
            ∧ len (sts_data s) = n
            ∧ sts_initial_time s = default (md_initial_time metadata) start_time).
Proof.
  intros Hrange.
  unfold ChronifyTimeSeriesStorage._get_single_time_series, Store.read_raw_query,
    bind, get_st, lift_result, ret, raise.
  rewrite Hrange. simpl.
  match goal with |- context [negb (List.length ?df =? n)%nat] => set (rows := df) end.
  destruct (Nat.eqb_spec (List.length rows) n) as [Hn|Hn]; simpl.
  - split; [done|]. exists rows. split; [done|]. split; [done|]. intros _.
    eexists. split; [done|]. simpl.
    destruct (quantity_metadata metadata), start_time; unfold len; simpl; auto.
  - split; [done|]. exists rows. split; [done|]. split; [done|]. done.
Qed.

(** The chronify backend never answers [ISNotStored] to a removal. *)
Lemma chronify_remove_never_not_stored `{Externals} self k w :
  fst (ChronifyTimeSeriesStorage.remove_time_series self k w) ≠ Raise ISNotStored.
Proof.
  unfold ChronifyTimeSeriesStorage.remove_time_series, Store.delete_rows,
    bind, get_st, raise, write_node, modify.
  simpl. by destruct (strict && _).
Qed.

(** An add to the chronify backend always reaches the engine: for a series
    with at least one sample it is never both silent and without effect. *)
Lemma chronify_add_never_a_no_op `{Externals} self metadata s w :
  magnitude (sts_data s) ≠ [] →
  ChronifyTimeSeriesStorage.add_time_series self metadata (Single s) w ≠ (Ok tt, w).
Proof.
  intros Hdata.
  unfold ChronifyTimeSeriesStorage.add_time_series, Store.ingest_table,
    bind, get_st, raise, write_node, modify.
  simpl. destruct (strict && _); [done|].
  intros [= Hw].
  assert (Hrows : db_rows w (Store.file_path (ChronifyTimeSeriesStorage._store self))
                  = (db_rows w (Store.file_path (ChronifyTimeSeriesStorage._store self))
                     ++ ChronifyTimeSeriesStorage._to_dataframe s)%list).
  { rewrite <- Hw at 1. unfold db_rows at 1. simpl. by rewrite lookup_insert_eq. }
  apply (f_equal List.length) in Hrows. rewrite length_app in Hrows.
  unfold ChronifyTimeSeriesStorage._to_dataframe, make_timestamps, len in Hrows.
  rewrite length_zip_with, length_map, length_seq in Hrows.
  destruct (magnitude (sts_data s)); [done|]. simpl in Hrows. lia.
Qed.

(** *** The backend contract on concrete stores *)

(** C2: the in-memory backend holds three samples under physical id 1 and the
    metadata handed to it records five. A read of five samples returns the
    three that exist, with no error, in every environment: the in-memory
    backend has no row-count check of the kind the chronify backend has. *)
Theorem in_memory_get_returns_truncated_data :
  let self := InMemoryTimeSeriesStorage.mk [(1, Single load_series)] in
  let truncated :=
    Single (mkSingleTimeSeries (Some 1) "load" 60 0 (NDArray [10; 20; 30]) None) in
  get_range_checked drifted_metadata None (Some 5%nat) = Ok (0%nat, 5%nat)
  ∧ InMemoryTimeSeriesStorage.get_time_series (H := lenient)
      drifted_metadata None (Some 5%nat) self = (Ok truncated, self)
  ∧ InMemoryTimeSeriesStorage.get_time_series (H := lenient_checked)
      drifted_metadata None (Some 5%nat) self = (Ok truncated, self)
  ∧ InMemoryTimeSeriesStorage.get_time_series (H := rejecting_checked)
      drifted_metadata None (Some 5%nat) self = (Ok truncated, self).
Proof. repeat split; reflexivity. Qed.

(** C3: the same series is added twice to a chronify backend. The second add
    reaches the engine again: a lenient engine stores the three rows a second
    time, a rejecting engine raises its own error. Neither is a silent no-op. *)
Theorem chronify_add_twice_ingests_twice :
  let add E := ChronifyTimeSeriesStorage.add_time_series (H := E)
                 sample_store load_metadata (Single load_series) in
  fst (add lenient empty_world) = Ok tt
  ∧ List.length (db_rows (snd (add lenient empty_world)) "series.db") = 3%nat
  ∧ fst (add lenient (snd (add lenient empty_world))) = Ok tt
  ∧ List.length
      (db_rows (snd (add lenient (snd (add lenient empty_world)))) "series.db")
    = 6%nat
  ∧ fst (add rejecting empty_world) = Ok tt
  ∧ fst (add rejecting (snd (add rejecting empty_world))) = Raise EngineError.
Proof. repeat split; vm_compute; reflexivity. Qed.

(** The same through the manager. A second series named "load" is added to a
    component that already has one: the backend stores it, then the metadata
    index refuses the row. The caller adds it again under other attributes: no
    row references its id, so the backend is called again and now holds the
    array twice; a read of it fails on the row count. *)
Lemma chronify_manager_retry_stores_twice :
  let step1 := TimeSeriesManager.add (H := lenient) [generator] []
                 (TimeSeries first_load, (chronify_manager, empty_world)) in
  let step2 := TimeSeriesManager.add (H := lenient) [generator] []
                 (TimeSeries second_load, snd (snd step1)) in
  let step3 := TimeSeriesManager.add (H := lenient) [generator] [("scenario", PyStr "b")]
                 (snd step2) in
  fst step1 = Ok tt
  ∧ fst step2 = Raise ISAlreadyAttached
  ∧ fst step3 = Ok tt
  ∧ List.length (List.filter (row_has_id 2) (db_rows (snd (snd (snd step3))) "series.db"))
    = 6%nat
  ∧ fst (TimeSeriesManager.get (H := lenient) generator (Some "load") "SingleTimeSeries"
           None None [("scenario", PyStr "b")] (snd (snd step3)))
    = Raise Exception.
Proof. repeat split; vm_compute; reflexivity. Qed.

(** C6: a removal of physical id 7 from a chronify backend that stores nothing
    under that id. The backend hands the call to the engine: a lenient engine
    returns normally, a rejecting engine raises its own error. [ISNotStored] is
    raised in neither case. *)
Theorem chronify_remove_absent_is_not_not_stored :
  let remove E := ChronifyTimeSeriesStorage.remove_time_series (H := E)
                    sample_store 7 in
  TimeSeriesStorageBase.stored
    (TimeSeriesStorageBase.Chronify sample_store) empty_world 7 = false
  ∧ fst (remove lenient empty_world) = Ok tt
  ∧ fst (remove rejecting empty_world) = Raise EngineError.
Proof. repeat split; vm_compute; reflexivity. Qed.

(** ** Physical removal *)

Lemma existsb_row_filter_ne k j (rows : list Row) :
  j ≠ k →
  existsb (row_has_id j) (List.filter (fun r => negb (row_has_id k r)) rows)
  = existsb (row_has_id j) rows.
Proof.
  intros Hne. induction rows as [|r rows IH]; [done|]. simpl.
  destruct (row_has_id k r) eqn:Hk; simpl; rewrite IH; [|done].
  replace (row_has_id j r) with false; [done|].
  unfold row_has_id in *. destruct (row_id r) as [i|]; [|done].
  apply Z.eqb_eq in Hk. subst i. symmetry. by apply Z.eqb_neq.
Qed.

Lemma existsb_row_filter_eq k (rows : list Row) :
  existsb (row_has_id k) (List.filter (fun r => negb (row_has_id k r)) rows) = false.
Proof.
  induction rows as [|r rows IH]; [done|]. simpl.
  destruct (row_has_id k r) eqn:Hk; simpl; [done|]. by rewrite Hk.
Qed.

Lemma db_rows_write path rows w :
  db_rows (snd (write_node path (DbFile rows) w)) path = rows.
Proof. unfold db_rows, write_node, modify. simpl. by rewrite lookup_insert_eq. Qed.

Lemma dir_files_write path files w :
  dir_files (snd (write_node path (Dir files) w)) path = files.
Proof. unfold dir_files, write_node, modify. simpl. by rewrite lookup_insert_eq. Qed.

(** One backend removal, for the three backends at once: the other ids are
    untouched, a successful removal leaves the id absent, a failed one leaves
    everything as it was, and the removal of a stored id succeeds. *)
Lemma storage_remove_spec `{Externals} k s w :
  ∃ r s' w',
    TimeSeriesStorageBase.remove_time_series k (s, w) = (r, (s', w'))
    ∧ (∀ j, j ≠ k → TimeSeriesStorageBase.stored s' w' j
                     = TimeSeriesStorageBase.stored s w j)
    ∧ (r = Ok tt → TimeSeriesStorageBase.stored s' w' k = false)
    ∧ (r ≠ Ok tt → ∀ j, TimeSeriesStorageBase.stored s' w' j
                         = TimeSeriesStorageBase.stored s w j)
    ∧ (TimeSeriesStorageBase.stored s w k = true → r = Ok tt).
Proof.
  unfold TimeSeriesStorageBase.remove_time_series, TimeSeriesStorageBase.dispatch.
  destruct s as [s|s|s]; simpl.
  - (* in memory *)
    destruct (dict_contains k (InMemoryTimeSeriesStorage._arrays s)) eqn:Hin.
    + rewrite in_memory_remove_stored by done.
      do 3 eexists. split; [done|]. simpl. repeat split.
      * intros j Hj. rewrite dict_contains_del.
        by destruct (Z.eqb_spec j k); [congruence|].
      * intros _. by rewrite dict_contains_del, Z.eqb_refl.
      * done.
    + rewrite in_memory_remove_absent by done.
      do 3 eexists. split; [done|]. simpl. repeat split; try done.
  - (* chronify *)
    unfold ChronifyTimeSeriesStorage.remove_time_series, Store.delete_rows, bind, get_st.
    simpl.
    set (path := Store.file_path (ChronifyTimeSeriesStorage._store s)).
    destruct (strict && negb (existsb (row_has_id k) (db_rows w path))) eqn:Hs.
    + do 3 eexists. split; [done|]. simpl. fold path. repeat split; try done.
      apply andb_true_iff in Hs as [_ Hs]. apply negb_true_iff in Hs.
      rewrite Hs. done.
    + do 3 eexists. split; [unfold write_node, modify; simpl; done|]. simpl. fold path.
      pose proof (db_rows_write path
        (List.filter (fun r => negb (row_has_id k r)) (db_rows w path)) w) as Hw.
      unfold write_node, modify in Hw. simpl in Hw. rewrite Hw.
      repeat split; try done.
      * intros j Hj. by apply existsb_row_filter_ne.
      * intros _. apply existsb_row_filter_eq.
  - (* arrow *)
    unfold ArrowTimeSeriesStorage.remove_time_series, bind, get_st. simpl.
    set (dir := ArrowTimeSeriesStorage._ts_directory s).
    destruct (dir_files w dir !! k) as [values|] eqn:Hk.
    + do 3 eexists. split; [unfold write_node, modify; simpl; done|]. simpl. fold dir.
      pose proof (dir_files_write dir (delete k (dir_files w dir)) w) as Hw.
      unfold write_node, modify in Hw. simpl in Hw. rewrite Hw.
      repeat split; try done.
      * intros j Hj. by rewrite lookup_delete_ne.
      * intros _. rewrite lookup_delete_eq. apply bool_decide_eq_false.
        by intros [? ?].
    + do 3 eexists. split; [done|]. simpl. fold dir. repeat split; try done.
Qed.

(** The loop of [TimeSeriesManager.remove] over a list of ids without repeats. *)
Lemma remove_loop_spec `{Externals} (l : list Z) :
  NoDup l →
  ∀ m w, ∃ r m' w',
    for_each (fun ts_id => TimeSeriesManager.with_storage
                             (TimeSeriesStorageBase.remove_time_series ts_id))
             l (m, w) = (r, (m', w'))
    ∧ TimeSeriesManager._metadata_store m' = TimeSeriesManager._metadata_store m
    ∧ TimeSeriesManager._id_manager m' = TimeSeriesManager._id_manager m
    ∧ TimeSeriesManager._read_only m' = TimeSeriesManager._read_only m
    ∧ (∀ j, j ∉ l → physically_stored m' w' j = physically_stored m w j)
    ∧ (∀ j, physically_stored m' w' j = true → physically_stored m w j = true)
    ∧ (r = Ok tt → ∀ j, j ∈ l → physically_stored m' w' j = false)
    ∧ ((∀ j, j ∈ l → physically_stored m w j = true) → r = Ok tt).
Proof.
  induction l as [|k l IH]; intros Hnd m w.
  - exists (Ok tt), m, w. simpl. unfold ret. repeat split; try done.
    intros _ j Hj. by apply elem_of_nil in Hj.
  - apply NoDup_cons in Hnd as [Hk Hnd].
    destruct (storage_remove_spec k (TimeSeriesManager._storage m) w)
      as (r1 & s1 & w1 & Hrun & Hother & Hgone & Hfail & Hok).
    simpl. unfold bind at 1. unfold TimeSeriesManager.with_storage at 1. simpl.
    rewrite Hrun.
    set (m1 := TimeSeriesManager.mk _ _ s1 _).
    assert (Hmono1 : ∀ j, physically_stored m1 w1 j = true → physically_stored m w j = true).
    { intros j. unfold physically_stored. simpl. destruct (decide (j = k)) as [->|Hj].
      - destruct r1 as [[]|e].
        + rewrite Hgone by done. done.
        + by rewrite Hfail.
      - by rewrite Hother. }
    destruct r1 as [[]|e].
    + destruct (IH Hnd m1 w1) as (r & m' & w' & Hloop & Hmd & Hids & Hro & Hout & Hmono & Hall & Hsucc).
      exists r, m', w'. split; [done|]. repeat split; try done.
      * intros j Hj. apply not_elem_of_cons in Hj as [Hjk Hj].
        rewrite Hout by done. unfold physically_stored. simpl. by apply Hother.
      * intros j Hj. apply Hmono1, Hmono, Hj.
      * intros Hr j Hj. apply elem_of_cons in Hj as [->|Hj]; [|by apply Hall].
        destruct (physically_stored m' w' k) eqn:Hst; [|done].
        apply Hmono in Hst. unfold physically_stored in Hst. simpl in Hst.
        rewrite Hgone in Hst; done.
      * intros Hstored. apply Hsucc. intros j Hj.
        unfold physically_stored. simpl. rewrite Hother.
        -- apply Hstored. by apply elem_of_cons; right.
        -- intros ->. done.
    + exists (Raise e), m1, w1. split; [done|]. repeat split; try done.
      * intros j Hj. unfold physically_stored. simpl. by apply Hfail.
      * intros Hstored. exfalso.
        assert (Raise e = Ok tt) as Heq; [|done].
        apply Hok. apply (Hstored k). by apply elem_of_cons; left.
Qed.

(** ** The metadata index *)

Lemma metadata_remove_spec components variable_name time_series_type attrs md :
  let hit := TimeSeriesMetadataStore.selected components variable_name
               time_series_type attrs in
  match TimeSeriesMetadataStore.remove components variable_name
          time_series_type attrs md with
  | (Ok ids, md1) =>
      TimeSeriesMetadataStore._con md1
      = List.filter (fun row => negb (hit row)) (TimeSeriesMetadataStore._con md)
      ∧ NoDup ids
      ∧ ∀ k, k ∈ ids ↔ ∃ row, row ∈ TimeSeriesMetadataStore._con md
                              ∧ hit row = true
                              ∧ time_series_id (TimeSeriesMetadataStore.metadata row) = k
  | (Raise e, md1) =>
      e = ISNotStored ∧ md1 = md
      ∧ ∀ row, row ∈ TimeSeriesMetadataStore._con md → hit row = false
  end.
Proof.
  intros hit.
  unfold TimeSeriesMetadataStore.remove, bind, get_st, put_st, ret, raise. fold hit.
  destruct (List.filter hit (TimeSeriesMetadataStore._con md)) as [|row0 rows] eqn:Hf.
  - repeat split; try done. intros row Hrow.
    destruct (hit row) eqn:Hhit; [|done].
    assert (In row (List.filter hit (TimeSeriesMetadataStore._con md))) as Hin.
    { apply filter_In. split; [by apply list_elem_of_In|done]. }
    rewrite Hf in Hin. destruct Hin.
  - cbv beta iota. split; [done|]. split; [apply NoDup_remove_dups|].
    intros k. rewrite elem_of_remove_dups, list_elem_of_fmap. rewrite <- Hf.
    split.
    + intros (row & -> & Hrow). exists row.
      apply list_elem_of_In, filter_In in Hrow as [Hrow Hhit].
      by rewrite list_elem_of_In.
    + intros (row & Hrow & Hhit & <-). exists row. split; [done|].
      apply list_elem_of_In, filter_In. by rewrite <- list_elem_of_In.
Qed.

Lemma has_time_series_true md k :
  TimeSeriesMetadataStore.has_time_series md k = true
  ↔ ∃ row, row ∈ TimeSeriesMetadataStore._con md
           ∧ time_series_id (TimeSeriesMetadataStore.metadata row) = k.
Proof.
  unfold TimeSeriesMetadataStore.has_time_series. rewrite existsb_exists.
  split; intros (row & Hrow & Hk); exists row.
  - split; [by apply list_elem_of_In|by apply Z.eqb_eq].
  - split; [by apply list_elem_of_In|by apply Z.eqb_eq].
Qed.

Lemma list_missing_spec md ids k :
  k ∈ TimeSeriesMetadataStore.list_missing_time_series md ids
  ↔ k ∈ ids ∧ TimeSeriesMetadataStore.has_time_series md k = false.
Proof.
  unfold TimeSeriesMetadataStore.list_missing_time_series.
  rewrite !list_elem_of_In, filter_In, negb_true_iff. done.
Qed.

Lemma list_missing_NoDup md ids :
  NoDup ids → NoDup (TimeSeriesMetadataStore.list_missing_time_series md ids).
Proof.
  intros Hnd. unfold TimeSeriesMetadataStore.list_missing_time_series.
  apply NoDup_ListNoDup, List.NoDup_filter, NoDup_ListNoDup, Hnd.
Qed.

(** ** The storage manager: removal *)

(** C1: [TimeSeriesManager.remove] deletes the matching metadata rows, asks the
    metadata index which of the touched physical ids have no reference left,
    and removes exactly those from the backend. Hence, for every outcome of the
    call: an array that disappears was referenced by a deleted row and has no
    reference left; an array that a surviving row references stays; nothing
    appears. The ids handed to the backend form a list without repeats, so on
    success every array whose last reference was removed is deleted, once. On a
    writable manager whose referenced arrays are all stored, and with at least
    one matching row, the call succeeds. *)
Theorem remove_deletes_only_unreferenced_arrays `{Externals}
    components variable_name time_series_type user_attributes m w r m' w' :
  TimeSeriesManager.remove components variable_name time_series_type
    user_attributes (m, w) = (r, (m', w')) →
  let hit := TimeSeriesMetadataStore.selected components variable_name
               (Some time_series_type) user_attributes in
  let touched k :=
    ∃ row, row ∈ metadata_rows m ∧ hit row = true
           ∧ time_series_id (TimeSeriesMetadataStore.metadata row) = k in
  (∀ k, physically_stored m w k = true → physically_stored m' w' k = false →
        touched k ∧ referenced m' k = false)
  ∧ (∀ k, referenced m' k = true →
          physically_stored m' w' k = physically_stored m w k)
  ∧ (∀ k, physically_stored m' w' k = true → physically_stored m w k = true)
  ∧ (r = Ok tt →
     metadata_rows m' = List.filter (fun row => negb (hit row)) (metadata_rows m)
     ∧ ∀ k, touched k → referenced m' k = false → physically_stored m' w' k = false)
  ∧ (∀ ids md1,
       TimeSeriesMetadataStore.remove components variable_name
         (Some time_series_type) user_attributes
         (TimeSeriesManager._metadata_store m) = (Ok ids, md1) →
       let missing_ids := TimeSeriesMetadataStore.list_missing_time_series md1 ids in
       NoDup missing_ids
       ∧ ∀ k, k ∈ missing_ids
              ↔ touched k ∧ TimeSeriesMetadataStore.has_time_series md1 k = false)
  ∧ (read_only m = false →
     (∃ row, row ∈ metadata_rows m ∧ hit row = true) →
     (∀ k, referenced m k = true → physically_stored m w k = true) →
     r = Ok tt).
Proof.
  intros Hrun hit touched.
  pose proof (metadata_remove_spec components variable_name (Some time_series_type)
                user_attributes (TimeSeriesManager._metadata_store m)) as Hmd.
  fold hit in Hmd.
  assert (Hfifth : ∀ ids md1,
       TimeSeriesMetadataStore.remove components variable_name
         (Some time_series_type) user_attributes
         (TimeSeriesManager._metadata_store m) = (Ok ids, md1) →
       NoDup (TimeSeriesMetadataStore.list_missing_time_series md1 ids)
       ∧ ∀ k, k ∈ TimeSeriesMetadataStore.list_missing_time_series md1 ids
              ↔ touched k ∧ TimeSeriesMetadataStore.has_time_series md1 k = false).
  { intros ids md1 Heq. rewrite Heq in Hmd. destruct Hmd as (_ & Hnd & Hids).
    split; [by apply list_missing_NoDup|].
    intros k. rewrite list_missing_spec, Hids. done. }
  revert Hrun.
  unfold TimeSeriesManager.remove, TimeSeriesManager._handle_read_only.
  unfold bind at 1. unfold bind at 1. unfold get_st at 1. cbn [fst snd].
  unfold read_only.
  destruct (truthy (TimeSeriesManager._read_only m)) eqn:Hro.
  { (* read-only: nothing happens *)
    unfold raise. intros [= <- <- <-].
    refine (conj _ (conj _ (conj _ (conj _ (conj Hfifth _))))); try done.
    intros k H1 H2. congruence. }
  unfold ret at 1. unfold bind at 1.
  unfold TimeSeriesManager.with_metadata_store at 1. cbn [fst snd].
  destruct (TimeSeriesMetadataStore.remove _ _ _ _ _) as [[ids|e] md1] eqn:Hrem.
  2:{ (* no row matches: nothing happens *)
    destruct Hmd as (-> & -> & Hnone). intros [= <- <- <-].
    destruct m; simpl.
    refine (conj _ (conj _ (conj _ (conj _ (conj Hfifth _))))); try done.
    - intros k H1 H2. unfold physically_stored in *. simpl in *. congruence.
    - intros _ [row [Hrow Hhit]]. rewrite Hnone in Hhit; [done|exact Hrow]. }
  destruct Hmd as (Hcon & Hnd & Hids).
  destruct (Hfifth ids md1 eq_refl) as [Hndm Hmissing].
  unfold bind at 1. unfold get_st at 1. cbn [fst snd].
  set (m1 := TimeSeriesManager.mk _ _ _ md1).
  destruct (remove_loop_spec _ Hndm m1 w)
    as (r2 & m2 & w2 & Hloop & Hmd2 & _ & _ & Hout & Hmono & Hall & Hsucc).
  change (TimeSeriesManager._metadata_store m1) with md1 in *.
  rewrite Hloop. intros [= <- <- <-].
  assert (Hphys1 : ∀ k, physically_stored m1 w k = physically_stored m w k) by done.
  assert (Href2 : ∀ k, referenced m2 k = TimeSeriesMetadataStore.has_time_series md1 k).
  { intros k. unfold referenced. by rewrite Hmd2. }
  refine (conj _ (conj _ (conj _ (conj _ (conj Hfifth _))))).
  - intros k H1 H2.
    destruct (decide (k ∈ TimeSeriesMetadataStore.list_missing_time_series md1 ids)) as [Hk|Hk].
    + apply Hmissing in Hk as [? ?]. by rewrite Href2.
    + rewrite Hout, Hphys1 in H2 by done. congruence.
  - intros k Hk. rewrite Hout, Hphys1; [done|].
    intros Hin. apply Hmissing in Hin as [_ Hin]. rewrite Href2 in Hk. congruence.
  - intros k Hk. rewrite <- Hphys1. by apply Hmono.
  - intros Hr. split.
    + unfold metadata_rows. by rewrite Hmd2, Hcon.
    + intros k Htouched Hk. apply Hall; [done|]. apply Hmissing.
      rewrite <- Href2. done.
  - intros _ _ Hstored. apply Hsucc. intros k Hk.
    rewrite Hphys1. apply Hstored. apply Hmissing in Hk as [(row & Hrow & _ & Hid) _].
    apply has_time_series_true. by exists row.
Qed.

(** Reference-counted deletion on [shared_manager]: removing the series from
    one of the two components keeps the array, removing it from both deletes
    it. *)
Lemma remove_deletes_only_unreferenced_arrays_witness :
  let one := TimeSeriesManager.remove (H := lenient) [generator] None
               "SingleTimeSeries" [] (shared_manager, empty_world) in
  let both := TimeSeriesManager.remove (H := lenient) [generator; bus] None
                "SingleTimeSeries" [] (shared_manager, empty_world) in
  (fst one = Ok tt
   ∧ physically_stored (fst (snd one)) (snd (snd one)) 1 = true)
  ∧ (fst both = Ok tt
     ∧ physically_stored (fst (snd both)) (snd (snd both)) 1 = false).
Proof.
  intros one both.
  pose proof (remove_deletes_only_unreferenced_arrays (H := lenient) [generator] None
                "SingleTimeSeries" [] shared_manager empty_world
                (fst one) (fst (snd one)) (snd (snd one)) eq_refl)
    as (_ & Hkeep & _ & _ & _ & Hok1).
  pose proof (remove_deletes_only_unreferenced_arrays (H := lenient) [generator; bus] None
                "SingleTimeSeries" [] shared_manager empty_world
                (fst both) (fst (snd both)) (snd (snd both)) eq_refl)
    as (_ & _ & _ & Hgone & _ & Hok2).
  assert (Hconsistent : ∀ k, referenced shared_manager k = true →
                             physically_stored shared_manager empty_world k = true).
  { intros k Hk. apply has_time_series_true in Hk as (row & Hrow & <-).
    simpl in Hrow. repeat (apply elem_of_cons in Hrow as [->|Hrow]; [reflexivity|]).
    by apply elem_of_nil in Hrow. }
  assert (Hrow : TimeSeriesMetadataStore.mkRow (Some 10) "Generator" load_metadata
                 ∈ metadata_rows shared_manager) by apply list_elem_of_here.
  assert (one.1 = Ok tt) as Hone.
  { apply Hok1; [reflexivity| |exact Hconsistent]. eexists. split; [exact Hrow|reflexivity]. }
  assert (both.1 = Ok tt) as Hboth.
  { apply Hok2; [reflexivity| |exact Hconsistent]. eexists. split; [exact Hrow|reflexivity]. }
  split; split; [exact Hone| |exact Hboth|].
  - rewrite Hkeep; reflexivity.
  - apply (Hgone Hboth); [|reflexivity].
    eexists. split; [exact Hrow|]. split; reflexivity.
Defined.

(** ** The storage manager: add *)

Lemma handle_read_only_run m w :
  TimeSeriesManager._handle_read_only (m, w)
  = (if read_only m then Raise ISOperationNotAllowed else Ok tt, (m, w)).
Proof.
  unfold TimeSeriesManager._handle_read_only, read_only, bind, get_st, raise, ret.
  simpl. by destruct (truthy _).
Qed.

Lemma add_read_only `{Externals} obj components attrs m w :
  read_only m = true →
  TimeSeriesManager.add components attrs (obj, (m, w))
  = (Raise ISOperationNotAllowed, (obj, (m, w))).
Proof.
  intros Hro. unfold TimeSeriesManager.add, bind at 1, on_snd at 1. cbn [fst snd].
  by rewrite handle_read_only_run, Hro.
Qed.

Lemma remove_read_only `{Externals} components variable_name time_series_type attrs m w :
  read_only m = true →
  TimeSeriesManager.remove components variable_name time_series_type attrs (m, w)
  = (Raise ISOperationNotAllowed, (m, w)).
Proof.
  intros Hro. unfold TimeSeriesManager.remove, bind at 1.
  by rewrite handle_read_only_run, Hro.
Qed.

Lemma add_no_components `{Externals} obj attrs m w :
  read_only m = false →
  TimeSeriesManager.add [] attrs (obj, (m, w))
  = (Raise ISOperationNotAllowed, (obj, (m, w))).
Proof.
  intros Hro. unfold TimeSeriesManager.add, bind at 1, on_snd at 1. cbn [fst snd].
  by rewrite handle_read_only_run, Hro.
Qed.

Lemma add_not_time_series `{Externals} c components attrs m w :
  read_only m = false →
  TimeSeriesManager.add (c :: components) attrs (NotTimeSeries, (m, w))
  = (Raise ValueError, (NotTimeSeries, (m, w))).
Proof.
  intros Hro. unfold TimeSeriesManager.add, bind at 1, on_snd at 1. cbn [fst snd].
  by rewrite handle_read_only_run, Hro.
Qed.

(** C4, counterexample: on a writable manager, with one component, a value that
    is not a time series makes [add] raise [ValueError], not
    [ISOperationNotAllowed]. *)
Lemma add_of_other_value_raises_ValueError :
  fst (TimeSeriesManager.add (H := lenient) [generator] []
         (NotTimeSeries, (shared_manager, empty_world))) = Raise ValueError
  ∧ fst (TimeSeriesManager.add (H := lenient) [generator] []
           (NotTimeSeries, (shared_manager, empty_world)))
    ≠ Raise ISOperationNotAllowed.
Proof. split; [reflexivity|discriminate]. Qed.

(** C4, amended: [add] fails with [ISOperationNotAllowed] in read-only mode or
    when no component is given, and with [ValueError] when the value is not a
    time series; [remove] fails with [ISOperationNotAllowed] in read-only mode.
    In each of these cases nothing is touched: the argument, the allocator, the
    metadata index, the backend and the disk are as before. *)
Theorem add_and_remove_guards `{Externals} :
  (∀ obj components attrs m w,
     read_only m = true →
     TimeSeriesManager.add components attrs (obj, (m, w))
     = (Raise ISOperationNotAllowed, (obj, (m, w))))
  ∧ (∀ components variable_name time_series_type attrs m w,
       read_only m = true →
       TimeSeriesManager.remove components variable_name time_series_type attrs (m, w)
       = (Raise ISOperationNotAllowed, (m, w)))
  ∧ (∀ obj attrs m w,
       read_only m = false →
       TimeSeriesManager.add [] attrs (obj, (m, w))
       = (Raise ISOperationNotAllowed, (obj, (m, w))))
  ∧ (∀ c components attrs m w,
       read_only m = false →
       TimeSeriesManager.add (c :: components) attrs (NotTimeSeries, (m, w))
       = (Raise ValueError, (NotTimeSeries, (m, w)))).
Proof.
  split; [|split; [|split]].
  - intros obj components attrs m w. apply add_read_only.
  - intros components variable_name time_series_type attrs m w. apply remove_read_only.
  - intros obj attrs m w. apply add_no_components.
  - intros c components attrs m w. apply add_not_time_series.
Qed.

(** The guards at work on a read-only manager and on a writable one. *)
Lemma add_and_remove_guards_witness :
  TimeSeriesManager.add (H := lenient) [generator] []
    (TimeSeries fresh_series, (frozen_manager, empty_world))
  = (Raise ISOperationNotAllowed, (TimeSeries fresh_series, (frozen_manager, empty_world)))
  ∧ TimeSeriesManager.remove (H := lenient) [generator] None "SingleTimeSeries" []
      (frozen_manager, empty_world)
    = (Raise ISOperationNotAllowed, (frozen_manager, empty_world))
  ∧ TimeSeriesManager.add (H := lenient) [] []
      (TimeSeries fresh_series, (shared_manager, empty_world))
    = (Raise ISOperationNotAllowed, (TimeSeries fresh_series, (shared_manager, empty_world)))
  ∧ TimeSeriesManager.add (H := lenient) [generator] []
      (NotTimeSeries, (shared_manager, empty_world))
    = (Raise ValueError, (NotTimeSeries, (shared_manager, empty_world))).
Proof.
  destruct (add_and_remove_guards (H := lenient)) as (Hadd & Hremove & Hnone & Hother).
  split; [|split; [|split]].
  - apply Hadd. reflexivity.
  - apply Hremove. reflexivity.
  - apply Hnone. reflexivity.
  - apply Hother. reflexivity.
Defined.

Lemma from_data_id t attrs metadata :
  from_data t attrs = Ok metadata → ts_id t = Some (time_series_id metadata).
Proof.
  destruct t as [s|[k|]]; simpl; [destruct (sts_id s)| |]; intros [= <-]; done.
Qed.

Lemma ts_id_set_id t k : ts_id (set_id t k) = Some k.
Proof. by destruct t. Qed.

Lemma erase_id_set_id t k : erase_id (set_id t k) = erase_id t.
Proof. by destruct t. Qed.

(** [add] on a writable manager, with at least one component and a time
    series: the id assignment, then the metadata, the gated backend add and the
    registration of the rows. *)
Lemma add_run `{Externals} c components attrs time_series m w :
  read_only m = false →
  TimeSeriesManager.add (c :: components) attrs (TimeSeries time_series, (m, w))
  = let ids := TimeSeriesManager._id_manager m in
    let '(ts1, ids1) :=
      match ts_id time_series with
      | None => (set_id time_series (IDManager._next_id ids),
                 IDManager.mk (IDManager._next_id ids + 1))
      | Some _ => (time_series, ids)
      end in
    let ro := TimeSeriesManager._read_only m in
    let md := TimeSeriesManager._metadata_store m in
    match from_data ts1 attrs with
    | Raise e =>
        (Raise e, (TimeSeries ts1,
                   (TimeSeriesManager.mk ids1 ro (TimeSeriesManager._storage m) md, w)))
    | Ok metadata =>
        let '(r2, (s2, w2)) :=
          if negb (TimeSeriesMetadataStore.has_time_series md (time_series_id metadata))
          then TimeSeriesStorageBase.add_time_series metadata ts1
                 (TimeSeriesManager._storage m, w)
          else (Ok tt, (TimeSeriesManager._storage m, w)) in
        match r2 with
        | Raise e => (Raise e, (TimeSeries ts1, (TimeSeriesManager.mk ids1 ro s2 md, w2)))
        | Ok _ =>
            let '(r3, md3) :=
              TimeSeriesMetadataStore.add metadata (c :: components) md in
            (r3, (TimeSeries ts1, (TimeSeriesManager.mk ids1 ro s2 md3, w2)))
        end
    end.
Proof.
  intros Hro.
  unfold TimeSeriesManager.add, bind at 1, on_snd at 1. cbn [fst snd].
  rewrite handle_read_only_run, Hro.
  unfold IDManager.get_next_id.
  unfold bind, gets, on_snd, on_fst, lift_result, ret, put_st, get_st,
    TimeSeriesManager.with_id_manager, TimeSeriesManager.with_storage,
    TimeSeriesManager.with_metadata_store.
  cbn [fst snd].
  destruct m as [ids ro s md]. cbn [TimeSeriesManager._id_manager
    TimeSeriesManager._read_only TimeSeriesManager._storage
    TimeSeriesManager._metadata_store].
  destruct (ts_id time_series) as [k|] eqn:Hid; cbn [fst snd].
  - destruct (from_data time_series attrs) as [metadata|e] eqn:Hmd; [|done].
    cbn [fst snd TimeSeriesManager._metadata_store].
    rewrite Hid. apply from_data_id in Hmd. rewrite Hid in Hmd. injection Hmd as ->.
    cbn [from_option].
    destruct (negb _); cbn [fst snd].
    + destruct (TimeSeriesStorageBase.add_time_series _ _ _) as [[[]|e] [s2 w2]];
        cbn [fst snd]; [|done].
      by destruct (TimeSeriesMetadataStore.add _ _ _) as [r3 md3].
    + by destruct (TimeSeriesMetadataStore.add _ _ _) as [r3 md3].
  - destruct (from_data (set_id time_series _) attrs) as [metadata|e] eqn:Hmd; [|done].
    cbn [fst snd TimeSeriesManager._metadata_store].
    apply from_data_id in Hmd. rewrite Hmd. cbn [from_option].
    destruct (negb _); cbn [fst snd].
    + destruct (TimeSeriesStorageBase.add_time_series _ _ _) as [[[]|e] [s2 w2]];
        cbn [fst snd]; [|done].
      by destruct (TimeSeriesMetadataStore.add _ _ _) as [r3 md3].
    + by destruct (TimeSeriesMetadataStore.add _ _ _) as [r3 md3].
Qed.

(** C5: when [add] succeeds, the argument is a time series described by the
    metadata [from_data] computes; one metadata row per given component is
    appended to the index, whether or not the backend was called; the backend
    and the disk are untouched when a row already referenced the physical id
    at the time of the call, and otherwise they are what the backend's own
    [add_time_series] made of them. *)
Theorem add_stores_once_and_always_registers `{Externals}
    components attrs obj m w obj' m' w' :
  TimeSeriesManager.add components attrs (obj, (m, w)) = (Ok tt, (obj', (m', w'))) →
  ∃ time_series metadata,
    obj' = TimeSeries time_series
    ∧ from_data time_series attrs = Ok metadata
    ∧ metadata_rows m'
      = (metadata_rows m
         ++ map (fun c => TimeSeriesMetadataStore.mkRow (id_of c) (type_name_of c) metadata)
                components)%list
    ∧ (referenced m (time_series_id metadata) = true →
       TimeSeriesManager._storage m' = TimeSeriesManager._storage m ∧ w' = w)
    ∧ (referenced m (time_series_id metadata) = false →
       TimeSeriesStorageBase.add_time_series metadata time_series
         (TimeSeriesManager._storage m, w)
       = (Ok tt, (TimeSeriesManager._storage m', w'))).
Proof.
  intros Hrun.
  destruct (read_only m) eqn:Hro.
  { rewrite add_read_only in Hrun by done. discriminate. }
  destruct components as [|c components].
  { rewrite add_no_components in Hrun by done. discriminate. }
  destruct obj as [time_series|].
  2:{ rewrite add_not_time_series in Hrun by done. discriminate. }
  rewrite add_run in Hrun by done. cbv zeta in Hrun.
  destruct (match ts_id time_series with
            | Some _ => _ | None => _ end) as [ts1 ids1].
  destruct (from_data ts1 attrs) as [metadata|e] eqn:Hmd; [|discriminate].
  exists ts1, metadata. unfold referenced, metadata_rows.
  destruct (TimeSeriesMetadataStore.has_time_series _ _) eqn:Hhas; simpl in Hrun.
  - unfold TimeSeriesMetadataStore.add, bind, get_st, put_st, raise in Hrun.
    destruct (existsb _ _); [discriminate|].
    injection Hrun as <- <- <-. simpl. repeat split; try done.
  - destruct (TimeSeriesStorageBase.add_time_series _ _ _) as [[[]|e] [s2 w2]];
      [|discriminate].
    unfold TimeSeriesMetadataStore.add, bind, get_st, put_st, raise in Hrun.
    destruct (existsb _ _); [discriminate|].
    injection Hrun as <- <- <-. simpl. repeat split; try done.
Qed.

(** An already stored series is attached once more, under new attributes: the
    rows grow by one and the backend is not called. *)
Lemma add_stores_once_and_always_registers_witness :
  let run := TimeSeriesManager.add (H := lenient) [generator] [("scenario", PyStr "high")]
               (TimeSeries (Single load_series), (shared_manager, empty_world)) in
  fst run = Ok tt
  ∧ TimeSeriesManager._storage (fst (snd (snd run)))
    = TimeSeriesManager._storage shared_manager
  ∧ List.length (metadata_rows (fst (snd (snd run)))) = 3%nat.
Proof.
  intros run.
  destruct (add_stores_once_and_always_registers (H := lenient)
              [generator] [("scenario", PyStr "high")]
              (TimeSeries (Single load_series)) shared_manager empty_world
              (fst (snd run)) (fst (snd (snd run))) (snd (snd (snd run))) eq_refl)
    as (time_series & metadata & Hobj & Hmd & Hrows & Hskip & _).
  injection Hobj as <-. injection Hmd as <-.
  split; [reflexivity|]. split.
  - apply Hskip. reflexivity.
  - rewrite Hrows. reflexivity.
Defined.

(** C10: on a call that passes the guards of [add] (writable manager, at least
    one component, a time series), whatever happens afterwards: an argument
    without id receives the id the allocator issues, every other field keeps
    its value, and on success the new rows reference the array under that id;
    an argument that has an id is left as it is and the allocator is not
    consulted. *)
Theorem add_assigns_id_in_place `{Externals}
    c components attrs time_series m w r obj' m' w' :
  read_only m = false →
  TimeSeriesManager.add (c :: components) attrs (TimeSeries time_series, (m, w))
  = (r, (obj', (m', w'))) →
  match ts_id time_series with
  | None =>
      ∃ k, IDManager.get_next_id (TimeSeriesManager._id_manager m)
           = (Ok k, TimeSeriesManager._id_manager m')
           ∧ obj' = TimeSeries (set_id time_series k)
           ∧ ts_id (set_id time_series k) = Some k
           ∧ erase_id (set_id time_series k) = erase_id time_series
           ∧ (r = Ok tt → referenced m' k = true)
  | Some _ =>
      obj' = TimeSeries time_series
      ∧ TimeSeriesManager._id_manager m' = TimeSeriesManager._id_manager m
  end.
Proof.
  intros Hro Hrun. rewrite add_run in Hrun by done. cbv zeta in Hrun.
  destruct (ts_id time_series) as [k|] eqn:Hid.
  - destruct (from_data time_series attrs) as [metadata|e].
    + destruct (if negb _ then _ else _) as [[[]|e] [s2 w2]].
      * destruct (TimeSeriesMetadataStore.add _ _ _) as [r3 md3].
        by injection Hrun as <- <- <- <-.
      * by injection Hrun as <- <- <- <-.
    + by injection Hrun as <- <- <- <-.
  - set (k := IDManager._next_id (TimeSeriesManager._id_manager m)) in *.
    exists k.
    assert (Hissue : ∀ m1, TimeSeriesManager._id_manager m1 = IDManager.mk (k + 1) →
              IDManager.get_next_id (TimeSeriesManager._id_manager m)
              = (Ok k, TimeSeriesManager._id_manager m1)).
    { intros m1 ->. reflexivity. }
    destruct (from_data (set_id time_series k) attrs) as [metadata|e] eqn:Hmd.
    + apply from_data_id in Hmd. rewrite ts_id_set_id in Hmd. injection Hmd as Hk.
      destruct (if negb _ then _ else _) as [[[]|e] [s2 w2]].
      * unfold TimeSeriesMetadataStore.add, bind, get_st, put_st, raise in Hrun.
        destruct (existsb _ _); injection Hrun as <- <- <- <-.
        -- split; [by apply Hissue|].
           repeat split; auto using ts_id_set_id, erase_id_set_id. discriminate.
        -- split; [by apply Hissue|].
           repeat split; auto using ts_id_set_id, erase_id_set_id.
           intros _. apply has_time_series_true. eexists. split.
           ++ simpl. apply elem_of_app. right. apply list_elem_of_here.
           ++ simpl. congruence.
      * injection Hrun as <- <- <- <-. split; [by apply Hissue|].
        repeat split; auto using ts_id_set_id, erase_id_set_id. discriminate.
    + injection Hrun as <- <- <- <-. split; [by apply Hissue|].
      repeat split; auto using ts_id_set_id, erase_id_set_id. discriminate.
Qed.

(** A series without id is added to a writable manager whose allocator stands
    at 2: the argument leaves with id 2 and the allocator stands at 3. A series
    that carries id 1 leaves unchanged, and so does the allocator. *)
Lemma add_assigns_id_in_place_witness :
  let fresh := TimeSeriesManager.add (H := lenient) [bus] []
                 (TimeSeries fresh_series, (shared_manager, empty_world)) in
  let known := TimeSeriesManager.add (H := lenient) [generator] [("scenario", PyStr "high")]
                 (TimeSeries (Single load_series), (shared_manager, empty_world)) in
  (fst (snd fresh) = TimeSeries (set_id fresh_series 2)
   ∧ TimeSeriesManager._id_manager (fst (snd (snd fresh))) = IDManager.mk 3)
  ∧ (fst (snd known) = TimeSeries (Single load_series)
     ∧ TimeSeriesManager._id_manager (fst (snd (snd known))) = IDManager.mk 2).
Proof.
  intros fresh known. split.
  - destruct (add_assigns_id_in_place (H := lenient) bus [] [] fresh_series
                shared_manager empty_world (fst fresh) (fst (snd fresh))
                (fst (snd (snd fresh))) (snd (snd (snd fresh))) eq_refl eq_refl)
      as (k & Hissue & Hobj & _).
    vm_compute in Hissue. injection Hissue as <-. split; [exact Hobj|reflexivity].
  - exact (add_assigns_id_in_place (H := lenient) generator []
             [("scenario", PyStr "high")] (Single load_series)
             shared_manager empty_world (fst known) (fst (snd known))
             (fst (snd (snd known))) (snd (snd (snd known))) eq_refl eq_refl).
Defined.

(** ** The storage manager: deserialization *)





(** ** The in-memory backend: serialization *)

(** The loop of [InMemoryTimeSeriesStorage.serialize]: each held series is
    handed once to the columnar store, which writes its file unless the
    directory already has one for that id. *)
Lemma serialize_loop storage (arrays : list (Z * TimeSeriesData)) :
  (∀ k ts, (k, ts) ∈ arrays → ∃ s, ts = Single s ∧ sts_id s = Some k) →
  ∀ w, ∃ w',
    for_each (fun ts =>
                metadata <~ lift_result (from_data ts []) ;;
                ArrowTimeSeriesStorage.add_time_series storage metadata ts)
             (dict_values arrays) w = (Ok tt, w')
    ∧ (∀ k, dir_files w' (ArrowTimeSeriesStorage._ts_directory storage) !! k
            = match dir_files w (ArrowTimeSeriesStorage._ts_directory storage) !! k with
              | Some v => Some v
              | None => payload <$> dict_get k arrays
              end)
    ∧ (∀ p, p ≠ ArrowTimeSeriesStorage._ts_directory storage →
            disk w' !! p = disk w !! p).
Proof.
  set (dir := ArrowTimeSeriesStorage._ts_directory storage).
  induction arrays as [|[k0 ts0] arrays IH]; intros Hwf w.
  - exists w. simpl. unfold ret. split; [done|]. split; [|done].
    intros k. by destruct (dir_files w dir !! k).
  - destruct (Hwf k0 ts0) as (s0 & -> & Hid); [apply list_elem_of_here|].
    assert (Hwf' : ∀ k ts, (k, ts) ∈ arrays → ∃ s, ts = Single s ∧ sts_id s = Some k).
    { intros k ts Hin. apply Hwf. by apply elem_of_cons; right. }
    simpl. unfold bind at 1. unfold bind at 1, lift_result at 1. simpl. rewrite Hid.
    unfold ArrowTimeSeriesStorage.add_time_series, bind at 1, get_st at 1.
    cbn [time_series_id]. fold dir.
    destruct (dir_files w dir !! k0) as [v0|] eqn:Hk0.
    + unfold ret at 1.
      destruct (IH Hwf' w) as (w' & Hrun & Hfiles & Hdisk).
      exists w'. split; [done|]. split; [|done].
      intros k. rewrite Hfiles. destruct (Z.eqb_spec k0 k) as [->|Hne].
      * by rewrite Hk0.
      * done.
    + unfold write_node at 1, modify at 1.
      set (w1 := mkWorld _ (tmp_seq w) (atexit w)).
      assert (Hw1 : dir_files w1 dir = <[k0 := magnitude (sts_data s0)]> (dir_files w dir)).
      { unfold dir_files at 1. simpl. by rewrite lookup_insert_eq. }
      assert (Hdisk1 : ∀ p, p ≠ dir → disk w1 !! p = disk w !! p).
      { intros p Hp. simpl. by rewrite lookup_insert_ne. }
      destruct (IH Hwf' w1) as (w' & Hrun & Hfiles & Hdisk).
      exists w'. split; [done|]. split.
      * intros k. rewrite Hfiles, Hw1. destruct (Z.eqb_spec k0 k) as [->|Hne].
        -- by rewrite lookup_insert_eq, Hk0.
        -- by rewrite lookup_insert_ne.
      * intros p Hp. rewrite Hdisk, Hdisk1; done.
Qed.

(** C8: [InMemoryTimeSeriesStorage.serialize] opens a columnar store on the
    destination directory, adds every held series to it and records
    ["ArrowTimeSeriesStorage"] as the storage kind. Provided that the
    destination is not a database file, that every held object is a
    [SingleTimeSeries] carrying the id it is held under, and that a file the
    destination already has for a held id holds that series: the call
    succeeds, the destination holds one columnar file per held id with the
    samples of that series, the files it had for other ids stay, and no other
    path of the disk changes. *)
Theorem in_memory_serialize_transcodes self data dst src w :
  (∀ rows, disk w !! dst ≠ Some (DbFile rows)) →
  (∀ k ts, (k, ts) ∈ InMemoryTimeSeriesStorage._arrays self →
           ∃ s, ts = Single s ∧ sts_id s = Some k) →
  (∀ k ts, dict_get k (InMemoryTimeSeriesStorage._arrays self) = Some ts →
           dir_files w dst !! k = None ∨ dir_files w dst !! k = Some (payload ts)) →
  ∃ w',
    InMemoryTimeSeriesStorage.serialize self data dst src w
    = (Ok (<["time_series_storage_type" := PyStr "ArrowTimeSeriesStorage"]> data), w')
    ∧ (∃ files, disk w' !! dst = Some (Dir files))
    ∧ (∀ k ts, dict_get k (InMemoryTimeSeriesStorage._arrays self) = Some ts →
               dir_files w' dst !! k = Some (payload ts))
    ∧ (∀ k, dict_contains k (InMemoryTimeSeriesStorage._arrays self) = false →
            dir_files w' dst !! k = dir_files w dst !! k)
    ∧ (∀ p, p ≠ dst → disk w' !! p = disk w !! p).
Proof.
  intros Hdst Hwf Hfree.
  unfold InMemoryTimeSeriesStorage.serialize.
  unfold bind at 1. unfold ArrowTimeSeriesStorage.create_with_permanent_directory.
  unfold bind at 1, get_st at 1.
  assert (∃ w0, (match disk w !! dst with
                 | Some (Dir _) => ret (ArrowTimeSeriesStorage.mk dst)
                 | Some (DbFile _) => raise ValueError
                 | None => write_node dst (Dir ∅) ;; ret (ArrowTimeSeriesStorage.mk dst)
                 end) w = (Ok (ArrowTimeSeriesStorage.mk dst), w0)
                ∧ dir_files w0 dst = dir_files w dst
                ∧ (∃ files, disk w0 !! dst = Some (Dir files))
                ∧ (∀ p, p ≠ dst → disk w0 !! p = disk w !! p))
    as (w0 & -> & Hfiles0 & Hdir0 & Hdisk0).
  { destruct (disk w !! dst) as [[rows|files]|] eqn:Hnode.
    - by destruct (Hdst rows).
    - exists w. unfold ret. repeat split; eauto.
    - eexists. unfold bind, write_node, modify, ret. split; [done|]. simpl.
      split; [|split].
      + unfold dir_files. simpl. by rewrite lookup_insert_eq, Hnode.
      + rewrite lookup_insert_eq. eauto.
      + intros p Hp. by rewrite lookup_insert_ne. }
  destruct (serialize_loop (ArrowTimeSeriesStorage.mk dst)
              (InMemoryTimeSeriesStorage._arrays self) Hwf w0)
    as (w' & Hrun & Hfiles & Hdisk).
  simpl in Hfiles, Hdisk.
  exists w'. unfold bind at 1. rewrite Hrun. unfold ret. split; [done|].
  split; [|split; [|split]].
  - destruct (decide (InMemoryTimeSeriesStorage._arrays self = [])) as [Hnil|Hnil].
    + rewrite Hnil in Hrun. simpl in Hrun. unfold ret in Hrun.
      by injection Hrun as <-.
    + destruct (InMemoryTimeSeriesStorage._arrays self) as [|[k0 ts0] arrays] eqn:Harr;
        [done|].
      specialize (Hfiles k0). simpl in Hfiles. rewrite Z.eqb_refl in Hfiles.
      unfold dir_files in Hfiles at 1.
      destruct (disk w' !! dst) as [[rows|files]|]; eauto.
      * by destruct (dir_files w0 dst !! k0).
      * by destruct (dir_files w0 dst !! k0).
  - intros k ts Hget. rewrite Hfiles, Hfiles0.
    destruct (Hfree k ts Hget) as [-> | ->]; [by rewrite Hget|done].
  - intros k Hk. rewrite Hfiles, Hfiles0. unfold dict_contains in Hk.
    destruct (dict_get k _); [done|]. by destruct (dir_files w dst !! k).
  - intros p Hp. rewrite Hdisk, Hdisk0; done.
Qed.

(** Two held series, an empty disk: the destination receives the two files. *)
Lemma in_memory_serialize_transcodes_witness :
  let run := InMemoryTimeSeriesStorage.serialize two_series ∅ "out" None empty_world in
  fst run = Ok (<["time_series_storage_type" := PyStr "ArrowTimeSeriesStorage"]> ∅)
  ∧ dir_files (snd run) "out" !! 1 = Some [10; 20; 30]
  ∧ dir_files (snd run) "out" !! 2 = Some [1; 2].
Proof.
  intros run.
  destruct (in_memory_serialize_transcodes two_series ∅ "out" None empty_world)
    as (w' & Hrun & _ & Hheld & _).
  - intros rows. discriminate.
  - intros k ts Hin. simpl in Hin.
    repeat (apply elem_of_cons in Hin as [[= -> ->]|Hin]; [eauto|]).
    by apply elem_of_nil in Hin.
  - intros k ts _. left. reflexivity.
  - subst run. rewrite Hrun. split; [reflexivity|].
    split; [exact (Hheld 1 _ eq_refl)|exact (Hheld 2 _ eq_refl)].
Defined.

(** ** The association index *)

Lemma collect_flat_map {A B} (f : A → result (list B)) (g : A → list B) (l : list A) :
  (∀ x, x ∈ l → f x = Ok (g x)) →
  ComponentAssociations.collect f l = Ok (flat_map g l).
Proof.
  induction l as [|x l IH]; intros Hf; [done|]. simpl.
  rewrite Hf by apply list_elem_of_here.
  rewrite IH; [done|]. intros y Hy. apply Hf. by apply elem_of_cons; right.
Qed.

(** A loop whose body either gives rows or raises [e], by a test on the
    element: it gives all the rows, or raises [e]. *)
Lemma collect_total {A B} (f : A → result (list B)) (g : A → list B)
    (p : A → bool) e (l : list A) :
  (∀ x, f x = if p x then Ok (g x) else Raise e) →
  ComponentAssociations.collect f l
  = if forallb p l then Ok (flat_map g l) else Raise e.
Proof.
  intros Hf. induction l as [|x l IH]; [done|]. simpl.
  rewrite Hf. destruct (p x); [|done]. simpl. rewrite IH. by destruct (forallb p l).
Qed.

Lemma collect_append_row owner (items : list value) :
  forallb ComponentAssociations.is_component items = true →
  ComponentAssociations.collect (ComponentAssociations.append_row owner) items
  = Ok (map (edge_row owner) (omap as_component items)).
Proof.
  induction items as [|[a| | | | |] items IH]; simpl; try done.
  intros Hall. by rewrite IH.
Qed.

Lemma collect_append_row_total owner (items : list value) :
  ComponentAssociations.collect (ComponentAssociations.append_row owner) items
  = if forallb has_id items
    then Ok (map (attached_row owner) (omap attachment items))
    else Raise AttributeError.
Proof.
  induction items as [|[a| | | | |] items IH]; simpl; try done;
    rewrite IH; by destruct (forallb has_id items).
Qed.

(** On a uniform field the rows the code builds are the edges of the field. *)
Lemma field_rows_edges owner (v : value) :
  uniform v = true →
  ComponentAssociations.field_rows owner v = Ok (map (edge_row owner) (field_edges v)).
Proof.
  destruct v as [a|[|first rest]| | | |]; try done. simpl.
  destruct (ComponentAssociations.is_component first) eqn:Hfirst; [|done].
  intros Hrest. rewrite Hrest.
  destruct first as [a| | | | |]; try discriminate Hfirst. simpl.
  by rewrite collect_append_row.
Qed.

(** On any field: the rows of the objects it attaches, or [AttributeError]
    when a list that starts with a component holds an object without [id]. *)
Lemma field_rows_total owner (v : value) :
  ComponentAssociations.field_rows owner v
  = if attachable v then Ok (map (attached_row owner) (field_attachments v))
    else Raise AttributeError.
Proof.
  destruct v as [a|[|first rest]| | | |]; try done.
  cbn [ComponentAssociations.field_rows attachable field_attachments].
  destruct (ComponentAssociations.is_component first) eqn:Hfirst; [|done].
  rewrite collect_append_row_total.
  destruct first as [a| | | | |]; try discriminate Hfirst. done.
Qed.

(** The whole collection loop of [add]. *)
Lemma add_collects components :
  ComponentAssociations.collect
    (fun component =>
       ComponentAssociations.collect
         (fun field => ComponentAssociations.field_rows component (snd field))
         (model_fields component))
    components
  = if all_attachable components then Ok (built_rows components)
    else Raise AttributeError.
Proof.
  apply (collect_total _
           (fun c => flat_map (fun field => map (attached_row c)
                                              (field_attachments (snd field)))
                              (model_fields c))
           (fun c => forallb (fun field => attachable (snd field)) (model_fields c))).
  intros c.
  apply (collect_total _
           (fun field => map (attached_row c) (field_attachments (snd field)))
           (fun field => attachable (snd field))).
  intros field. apply field_rows_total.
Qed.

Lemma bindable_prefix_all rows :
  forallb bindable_row rows = true → bindable_prefix rows = rows.
Proof.
  induction rows as [|row rows IH]; [done|]. simpl.
  intros [-> Hrows]%andb_prop. by rewrite IH.
Qed.

(** [executemany]: the rows up to the first one that cannot be bound are
    inserted, in order, after the rows of the table. *)
Lemma insert_all_run rows table :
  ∃ table',
    ComponentAssociations.insert_all rows table
    = (if forallb bindable_row rows then Ok tt else Raise OverflowError, table')
    ∧ map edge_of table' = (map edge_of table ++ bindable_prefix rows)%list.
Proof.
  revert table. induction rows as [|[[[cid cty] aid] aty] rows IH]; intros table.
  - exists table. split; [done|]. by rewrite app_nil_r.
  - cbn [ComponentAssociations.insert_all forallb bindable_prefix bindable_row].
    destruct (bindable cid && bindable aid).
    + unfold bind, modify.
      destruct (IH (table ++ [ComponentAssociations.mkRow
                                (ComponentAssociations.next_key table) cid cty aid aty])%list)
        as (table' & -> & Hedges).
      exists table'. split; [done|]. rewrite Hedges, map_app. simpl.
      by rewrite <- app_assoc.
    + exists table. split; [done|]. by rewrite app_nil_r.
Qed.

(** [add], in full: [AttributeError] from the collection loop, before
    anything is inserted, or the outcome of the insertion of the rows. *)
Lemma association_add_run components self :
  ComponentAssociations.add components self
  = if all_attachable components
    then (let '(r, table) :=
            ComponentAssociations.insert_all (built_rows components)
              (ComponentAssociations._con self) in
          (r, ComponentAssociations.mk table))
    else (Raise AttributeError, self).
Proof.
  unfold ComponentAssociations.add, bind, lift_result. rewrite add_collects.
  destruct (all_attachable components); [|done].
  destruct (built_rows components) as [|row rows]; [by destruct self|done].
Qed.

(** A uniform field is attachable, and what it attaches are its edges. *)
Lemma uniform_attachable owner (v : value) :
  uniform v = true →
  attachable v = true
  ∧ map (attached_row owner) (field_attachments v) = map (edge_row owner) (field_edges v).
Proof.
  intros Hu. pose proof (field_rows_edges owner v Hu) as Hedges.
  rewrite field_rows_total in Hedges. destruct (attachable v); [|done].
  by injection Hedges as ->.
Qed.

Lemma uniform_components components :
  (∀ c field, c ∈ components → field ∈ model_fields c → uniform (snd field) = true) →
  all_attachable components = true ∧ built_rows components = expected_rows components.
Proof.
  induction components as [|c components IH]; intros Hu; [done|].
  destruct IH as [Hall Hrows].
  { intros c' field Hc. apply Hu. by apply elem_of_cons; right. }
  assert (forallb (fun field => attachable (snd field)) (model_fields c) = true
          ∧ flat_map (fun field => map (attached_row c) (field_attachments (snd field)))
                     (model_fields c)
            = flat_map (fun field => map (edge_row c) (field_edges (snd field)))
                       (model_fields c)) as [Hc Hcrows].
  { assert (∀ field, field ∈ model_fields c → uniform (snd field) = true) as Hfields.
    { intros field. apply Hu, list_elem_of_here. }
    induction (model_fields c) as [|field fields IHf]; [done|].
    destruct (uniform_attachable c (snd field)) as [Ha Hr];
      [apply Hfields, list_elem_of_here|].
    destruct IHf as [Hfs Hrs].
    { intros f Hf. apply Hfields. by apply elem_of_cons; right. }
    simpl. by rewrite Ha, Hfs, Hr, Hrs. }
  unfold all_attachable, built_rows, expected_rows in *. simpl.
  by rewrite Hc, Hall, Hcrows, Hrows.
Qed.

Lemma child_query_edges cid component_type (table : list ComponentAssociations.AssociationRow) :
  map ComponentAssociations.attached_component_id
      (List.filter
         (fun row =>
            sql_eq (ComponentAssociations.component_id row) cid
            && match component_type with
               | Some ty => String.eqb (ComponentAssociations.attached_component_type row) ty
               | None => true
               end) table)
  = map attached_id (List.filter (is_child_edge cid component_type) (map edge_of table)).
Proof.
  induction table as [|row table IH]; [done|]. simpl.
  destruct (sql_eq _ _ && _); simpl; by rewrite IH.
Qed.

(** What [field_edges] holds: the value of a single-sub-entity field, and the
    items of a list made of sub-entities only. Nothing comes from a dictionary,
    a tuple, a plain value, an empty list or a list holding anything else. *)
Lemma field_edges_spec (v : value) (a : Component) :
  a ∈ field_edges v
  ↔ v = VComponent a
    ∨ ∃ items, v = VList items
               ∧ (∀ item, item ∈ items → ComponentAssociations.is_component item = true)
               ∧ VComponent a ∈ items.
Proof.
  destruct v as [c|items|entries|items|plain|id type_name]; simpl.
  - rewrite list_elem_of_singleton. split.
    + intros ->. by left.
    + intros [[= ->]|(items & [=] & _)]. done.
  - destruct (forallb ComponentAssociations.is_component items) eqn:Hall.
    + rewrite list_elem_of_omap. split.
      * intros (item & Hitem & Has). right. exists items. split; [done|]. split.
        -- intros item' Hin.
           rewrite forallb_forall in Hall. by apply Hall, list_elem_of_In.
        -- destruct item; simpl in Has; try done. by injection Has as ->.
      * intros [[=]|(items' & [= <-] & _ & Hin)]. by exists (VComponent a).
    + split; [by intros ?%elem_of_nil|].
      intros [[=]|(items' & [= <-] & Hcomp & _)].
      assert (forallb ComponentAssociations.is_component items = true) as Htrue.
      { apply forallb_forall. intros item Hin. by apply Hcomp, list_elem_of_In. }
      congruence.
  - split; [by intros ?%elem_of_nil|]. by intros [[=]|(items & [=] & _)].
  - split; [by intros ?%elem_of_nil|]. by intros [[=]|(items' & [=] & _)].
  - split; [by intros ?%elem_of_nil|]. by intros [[=]|(items & [=] & _)].
  - split; [by intros ?%elem_of_nil|]. by intros [[=]|(items & [=] & _)].
Qed.

(** C9, counterexample: a generator whose field holds its bus is added
    together with a depot whose list holds a bus and a number. The list starts
    with a sub-entity, so the code reads the [id] of each of its items: [add]
    raises [AttributeError] and inserts no edge at all, not even the edge from
    the generator to its bus. *)
Lemma add_of_a_mixed_list_inserts_no_edge :
  let run := ComponentAssociations.add [gen3; depot5] ComponentAssociations.__init__ in
  field_edges (VComponent bus1) = [bus1]
  ∧ ("bus", VComponent bus1) ∈ model_fields gen3
  ∧ run = (Raise AttributeError, ComponentAssociations.__init__)
  ∧ ComponentAssociations.list_child_components gen3 None (snd run)
    = (Ok [], ComponentAssociations.__init__).
Proof.
  split; [reflexivity|]. split; [|split; reflexivity].
  apply elem_of_cons. right. apply list_elem_of_here.
Qed.

(** C9, amended: for components whose list fields are uniform (a list that
    starts with a sub-entity holds sub-entities only) and whose ids SQLite can
    hold (64 bits, signed), [add] succeeds and appends exactly the rows of
    [expected_rows]: one row for a field that is a single sub-entity, one row
    per item for a field that is a non-empty list of sub-entities, and nothing
    for fields of any other shape or for empty lists ([field_edges_spec]).
    [list_child_components] then returns, up to the order of the rows, what it
    returned before together with the attached ids of the new edges of that
    owner that pass the type filter. *)
Theorem add_inserts_direct_edges components self :
  (∀ c field, c ∈ components → field ∈ model_fields c → uniform (snd field) = true) →
  forallb bindable_row (expected_rows components) = true →
  ∃ self',
    ComponentAssociations.add components self = (Ok tt, self')
    ∧ map edge_of (ComponentAssociations._con self')
      = (map edge_of (ComponentAssociations._con self) ++ expected_rows components)%list
    ∧ ∀ owner cid component_type,
        id_of owner = Some cid →
        sqlite_integer cid = true →
        ∃ before after,
          ComponentAssociations.list_child_components owner component_type self
          = (Ok before, self)
          ∧ ComponentAssociations.list_child_components owner component_type self'
            = (Ok after, self')
          ∧ after ≡ₚ (before
                      ++ map attached_id
                           (List.filter (is_child_edge cid component_type)
                                        (expected_rows components)))%list.
Proof.
  intros Huniform Hrange.
  destruct (uniform_components components Huniform) as [Hall Hrows].
  rewrite association_add_run, Hall, Hrows.
  destruct (insert_all_run (expected_rows components) (ComponentAssociations._con self))
    as (table' & -> & Hedges).
  rewrite Hrange, bindable_prefix_all in * by done.
  exists (ComponentAssociations.mk table'). split; [done|]. split; [done|].
  intros owner cid component_type Hid Hcid.
  unfold ComponentAssociations.list_child_components. rewrite Hid, Hcid.
  unfold bind, get_st, ret. cbn [negb]. do 2 eexists. split; [done|]. split; [done|].
  cbn [ComponentAssociations._con].
  rewrite !child_query_edges, Hedges, List.filter_app, map_app. done.
Qed.

Lemma forallb_false {A} (f : A → bool) (l : list A) :
  forallb f l = false ↔ ∃ x, x ∈ l ∧ f x = false.
Proof.
  induction l as [|x l IH]; simpl.
  - split; [done|]. by intros (x & ?%elem_of_nil & _).
  - rewrite andb_false_iff, IH. split.
    + intros [Hx|(y & Hy & Hfy)]; [exists x|exists y]; (split; [|done]).
      * apply list_elem_of_here.
      * by apply elem_of_cons; right.
    + intros (y & [->|Hy]%elem_of_cons & Hfy); [by left|right; by exists y].
Qed.

(** Outside that case: a list that starts with a sub-entity and holds an
    object without [id] makes [add] raise [AttributeError], and no row is
    inserted, not even for the other fields. *)
Lemma add_rejects_mixed_lists components self c field :
  c ∈ components → field ∈ model_fields c → attachable (snd field) = false →
  ComponentAssociations.add components self = (Raise AttributeError, self).
Proof.
  intros Hc Hfield Ha. rewrite association_add_run.
  assert (all_attachable components = false) as ->; [|done].
  apply forallb_false. exists c. split; [done|].
  apply forallb_false. by exists field.
Qed.

(** The graph of the examples: the generator's child is its bus; the
    substation's children are the two buses of its list and its generator, not
    the buses it holds in a dictionary, a tuple or a nested list. *)
Lemma add_inserts_direct_edges_witness :
  let run := ComponentAssociations.add [gen3; substation4] ComponentAssociations.__init__ in
  fst run = Ok tt
  ∧ fst (ComponentAssociations.list_child_components gen3 None (snd run))
    = Ok [Some 1]
  ∧ fst (ComponentAssociations.list_child_components substation4 None (snd run))
    = Ok [Some 1; Some 2; Some 3]
  ∧ fst (ComponentAssociations.list_child_components substation4 (Some "Bus") (snd run))
    = Ok [Some 1; Some 2].
Proof.
  intros run.
  destruct (add_inserts_direct_edges [gen3; substation4] ComponentAssociations.__init__)
    as (self' & Hrun & _).
  - intros c field Hc Hfield.
    repeat (apply elem_of_cons in Hc as [->|Hc];
            [simpl in Hfield;
             repeat (apply elem_of_cons in Hfield as [->|Hfield]; [reflexivity|]);
             by apply elem_of_nil in Hfield|]).
    by apply elem_of_nil in Hc.
  - reflexivity.
  - subst run. rewrite Hrun. split; [reflexivity|].
    assert (self' = snd (ComponentAssociations.add [gen3; substation4]
                           ComponentAssociations.__init__)) as -> by (by rewrite Hrun).
    repeat split; reflexivity.
Defined.


(** ** Consistency of the index with the backend *)

Lemma to_dataframe_rows (s : SingleTimeSeries) k :
  sts_id s = Some k → magnitude (sts_data s) ≠ [] →
  existsb (row_has_id k) (ChronifyTimeSeriesStorage._to_dataframe s) = true.
Proof.
  intros Hid Hdata.
  unfold ChronifyTimeSeriesStorage._to_dataframe, make_timestamps, len.
  destruct (magnitude (sts_data s)) as [|v vs]; [done|]. simpl.
  unfold row_has_id. simpl. by rewrite Hid, Z.eqb_refl.
Qed.

(** One backend add, for the three backends at once: nothing that was stored
    is lost, and after a successful add of a series with at least one sample
    the array is stored under the id of the metadata. *)
Lemma storage_add_spec `{Externals} metadata time_series s w :
  ∃ r s' w',
    TimeSeriesStorageBase.add_time_series metadata time_series (s, w) = (r, (s', w'))
    ∧ (∀ j, TimeSeriesStorageBase.stored s w j = true →
            TimeSeriesStorageBase.stored s' w' j = true)
    ∧ (r = Ok tt →
       ts_id time_series = Some (time_series_id metadata) →
       payload time_series ≠ [] →
       TimeSeriesStorageBase.stored s' w' (time_series_id metadata) = true).
Proof.
  unfold TimeSeriesStorageBase.add_time_series, TimeSeriesStorageBase.dispatch.
  destruct s as [s|s|s]; simpl.
  - (* in memory *)
    unfold InMemoryTimeSeriesStorage.add_time_series, bind, get_st, put_st, ret.
    destruct (dict_contains (time_series_id metadata) _) eqn:Hin; simpl.
    + do 3 eexists. split; [done|]. simpl. split; [done|]. by intros _ _ _.
    + do 3 eexists. split; [done|]. simpl. split.
      * intros j Hj. rewrite dict_contains_set, Hj. apply orb_true_r.
      * intros _ _ _. by rewrite dict_contains_set, Z.eqb_refl.
  - (* chronify *)
    set (path := Store.file_path (ChronifyTimeSeriesStorage._store s)).
    destruct time_series as [s0|oid]; simpl.
    2:{ do 3 eexists. split; [done|]. simpl. split; [done|]. done. }
    unfold Store.ingest_table, bind, get_st. fold path.
    destruct (strict && _).
    + do 3 eexists. split; [done|]. simpl. split; [done|]. done.
    + do 3 eexists. split; [unfold write_node, modify; simpl; done|]. simpl. fold path.
      pose proof (db_rows_write path
        (db_rows w path ++ ChronifyTimeSeriesStorage._to_dataframe s0) w) as Hw.
      unfold write_node, modify in Hw. simpl in Hw. rewrite Hw.
      split.
      * intros j Hj. by rewrite existsb_app, Hj.
      * intros _ Hid Hdata. rewrite existsb_app, to_dataframe_rows by done.
        apply orb_true_r.
  - (* arrow *)
    set (dir := ArrowTimeSeriesStorage._ts_directory s).
    unfold ArrowTimeSeriesStorage.add_time_series.
    destruct time_series as [s0|oid]; simpl.
    2:{ do 3 eexists. split; [done|]. simpl. split; [done|]. done. }
    unfold bind, get_st. fold dir.
    destruct (dir_files w dir !! time_series_id metadata) as [v|] eqn:Hk.
    + do 3 eexists. split; [done|]. simpl. fold dir. split; [done|].
      intros _ _ _. rewrite Hk. by apply bool_decide_eq_true.
    + do 3 eexists. split; [unfold write_node, modify; simpl; done|]. simpl. fold dir.
      pose proof (dir_files_write dir
        (<[time_series_id metadata := magnitude (sts_data s0)]> (dir_files w dir)) w) as Hw.
      unfold write_node, modify in Hw. simpl in Hw. rewrite Hw.
      split.
      * intros j Hj. apply bool_decide_eq_true in Hj. apply bool_decide_eq_true.
        destruct (decide (time_series_id metadata = j)) as [->|Hne].
        -- rewrite lookup_insert_eq. done.
        -- by rewrite lookup_insert_ne.
      * intros _ _ _. apply bool_decide_eq_true. by rewrite lookup_insert_eq.
Qed.

(** [remove] keeps the index consistent with the backend, whatever its
    outcome: rows only disappear, and an id that is still referenced is not
    handed to the backend. *)
Lemma remove_preserves_consistency `{Externals}
    components variable_name time_series_type user_attributes m w r m' w' :
  consistent m w →
  TimeSeriesManager.remove components variable_name time_series_type
    user_attributes (m, w) = (r, (m', w')) →
  consistent m' w'.
Proof.
  intros Hcons.
  unfold TimeSeriesManager.remove. unfold bind at 1.
  rewrite handle_read_only_run.
  destruct (read_only m); [by intros [= <- <- <-]|].
  unfold bind at 1, TimeSeriesManager.with_metadata_store at 1. cbn [fst snd].
  pose proof (metadata_remove_spec components variable_name (Some time_series_type)
                user_attributes (TimeSeriesManager._metadata_store m)) as Hmd.
  destruct (TimeSeriesMetadataStore.remove _ _ _ _ _) as [[ids|e] md1].
  2:{ destruct Hmd as (_ & -> & _). intros [= <- <- <-]. by destruct m. }
  destruct Hmd as (Hcon & Hnd & _).
  unfold bind at 1, get_st at 1. cbn [fst snd].
  set (m1 := TimeSeriesManager.mk _ _ _ md1).
  destruct (remove_loop_spec _ (list_missing_NoDup md1 ids Hnd) m1 w)
    as (r2 & m2 & w2 & Hloop & Hmd2 & _ & _ & Hout & _).
  change (TimeSeriesManager._metadata_store m1) with md1 in *.
  rewrite Hloop. intros [= <- <- <-].
  intros k Hk. unfold referenced in Hk. rewrite Hmd2 in Hk.
  rewrite Hout.
  - apply Hcons. apply has_time_series_true in Hk as (row & Hrow & Hid).
    apply has_time_series_true. exists row. split; [|done].
    rewrite Hcon in Hrow. by apply list_elem_of_In, filter_In in Hrow as [?%list_elem_of_In _].
  - intros Hin. apply list_missing_spec in Hin as [_ Hin]. congruence.
Qed.

(** [add] of a series with at least one sample keeps the index consistent with
    the backend, whatever its outcome. *)
Lemma add_preserves_consistency `{Externals}
    components attrs time_series m w r obj' m' w' :
  consistent m w →
  payload time_series ≠ [] →
  TimeSeriesManager.add components attrs (TimeSeries time_series, (m, w))
  = (r, (obj', (m', w'))) →
  consistent m' w'.
Proof.
  intros Hcons Hdata Hrun.
  destruct (read_only m) eqn:Hro.
  { rewrite add_read_only in Hrun by done. by injection Hrun as <- <- <- <-. }
  destruct components as [|c components].
  { rewrite add_no_components in Hrun by done. by injection Hrun as <- <- <- <-. }
  rewrite add_run in Hrun by done. cbv zeta in Hrun.
  assert (∃ ts1 ids1, match ts_id time_series with
                      | Some _ => (time_series, TimeSeriesManager._id_manager m)
                      | None => (set_id time_series
                                   (IDManager._next_id (TimeSeriesManager._id_manager m)),
                                 IDManager.mk
                                   (IDManager._next_id (TimeSeriesManager._id_manager m) + 1))
                      end = (ts1, ids1) ∧ payload ts1 ≠ [])
    as (ts1 & ids1 & Heq & Hdata1).
  { destruct (ts_id time_series); do 2 eexists; (split; [done|]); [done|].
    by destruct time_series. }
  rewrite Heq in Hrun. clear Heq.
  destruct (from_data ts1 attrs) as [metadata|e] eqn:Hmd.
  2:{ injection Hrun as <- <- <- <-. exact Hcons. }
  apply from_data_id in Hmd.
  set (id := time_series_id metadata) in *.
  destruct (storage_add_spec metadata ts1 (TimeSeriesManager._storage m) w)
    as (ra & sa & wa & Hadd & Hkeep & Hstored).
  assert (∃ s2 w2 r2,
            (if negb (TimeSeriesMetadataStore.has_time_series
                        (TimeSeriesManager._metadata_store m) id)
             then TimeSeriesStorageBase.add_time_series metadata ts1
                    (TimeSeriesManager._storage m, w)
             else (Ok tt, (TimeSeriesManager._storage m, w))) = (r2, (s2, w2))
            ∧ (∀ j, TimeSeriesStorageBase.stored (TimeSeriesManager._storage m) w j = true →
                    TimeSeriesStorageBase.stored s2 w2 j = true)
            ∧ (r2 = Ok tt → TimeSeriesStorageBase.stored s2 w2 id = true))
    as (s2 & w2 & r2 & Heq & Hkeep2 & Hstored2).
  { destruct (TimeSeriesMetadataStore.has_time_series _ id) eqn:Hhas; simpl.
    - do 3 eexists. split; [done|]. split; [done|]. intros _. by apply Hcons.
    - rewrite Hadd. do 3 eexists. split; [done|]. split; [done|].
      intros ->. by apply Hstored. }
  rewrite Heq in Hrun. clear Heq.
  destruct r2 as [[]|e].
  2:{ injection Hrun as <- <- <- <-. intros k Hk. apply Hkeep2, Hcons, Hk. }
  unfold TimeSeriesMetadataStore.add, bind, get_st, put_st, raise in Hrun.
  destruct (existsb _ _).
  { injection Hrun as <- <- <- <-. intros k Hk. apply Hkeep2, Hcons, Hk. }
  injection Hrun as <- <- <- <-.
  intros k Hk. apply has_time_series_true in Hk as (row & Hrow & Hid).
  simpl in Hrow. apply elem_of_app in Hrow as [Hrow|Hrow].
  - apply Hkeep2, Hcons. apply has_time_series_true. by exists row.
  - change (row ∈ map (fun c => TimeSeriesMetadataStore.mkRow (id_of c) (type_name_of c)
                                 metadata) (c :: components)) in Hrow.
    apply list_elem_of_In, in_map_iff in Hrow as (c' & <- & _). simpl in Hid. subst k.
    by apply Hstored2.
Qed.

(** ** Labels *)

Lemma split_once_no_sep sep s : occurs sep s = false → split_once sep s = [s].
Proof.
  induction s as [|a s IH]; [done|]. simpl.
  destruct (Ascii.eqb a sep); [done|]. simpl. intros Hs. by rewrite IH.
Qed.

Lemma split_once_append sep c rest :
  occurs sep c = false → split_once sep (c +:+ String sep rest) = [c; rest].
Proof.
  induction c as [|a c IH]; simpl.
  - by rewrite Ascii.eqb_refl.
  - destruct (Ascii.eqb a sep); [done|]. simpl. intros Hc. by rewrite IH.
Qed.

Lemma split_once_sep sep s :
  occurs sep s = true →
  ∃ c rest, split_once sep s = [c; rest] ∧ s = c +:+ String sep rest
            ∧ occurs sep c = false.
Proof.
  induction s as [|a s IH]; [done|]. simpl.
  destruct (Ascii.eqb_spec a sep) as [->|Hne]; simpl.
  - intros _. by exists EmptyString, s.
  - intros (c & rest & -> & -> & Hc)%IH. exists (String a c), rest.
    split; [done|]. split; [done|]. simpl.
    destruct (Ascii.eqb_spec a sep); done.
Qed.

(** X1: a label made of a class name without a dot and a name is read back as
    that class name and that name, the name as an integer when [int] reads it
    as one. *)
Theorem make_label_round_trip (int : string → option Z) class_name name :
  occurs "." class_name = false →
  get_class_and_name_from_label int (make_label class_name (PyStr name))
  = Ok (class_name, match int name with Some k => inr k | None => inl name end).
Proof.
  intros Hclass. unfold get_class_and_name_from_label, make_label.
  change (class_name +:+ "." +:+ py_str (PyStr name))
    with (class_name +:+ String "." name).
  by rewrite split_once_append.
Qed.

Lemma make_label_round_trip_witness :
  get_class_and_name_from_label int_of_decimal (make_label "Generator" (PyStr "gen.1"))
  = Ok ("Generator", inl "gen.1")
  ∧ get_class_and_name_from_label int_of_decimal (make_label "Bus" (PyStr "42"))
    = Ok ("Bus", inr 42).
Proof.
  split.
  - apply (make_label_round_trip int_of_decimal "Generator" "gen.1"). reflexivity.
  - apply (make_label_round_trip int_of_decimal "Bus" "42"). reflexivity.
Defined.

(** X2: what [get_class_and_name_from_label] makes of any string. A label
    without a dot raises [ValueError] (the unpacking of a one-element list);
    any other label is cut at its first dot, so the class name returned has no
    dot, and class name and rest make the label again. *)
Theorem get_class_and_name_from_label_cuts_at_first_dot (int : string → option Z) label :
  match get_class_and_name_from_label int label with
  | Ok (class_name, name_or_id) =>
      occurs "." label = true
      ∧ occurs "." class_name = false
      ∧ ∃ name, label = make_label class_name (PyStr name)
                ∧ name_or_id = match int name with Some k => inr k | None => inl name end
  | Raise e => e = ValueError ∧ occurs "." label = false
  end.
Proof.
  unfold get_class_and_name_from_label.
  destruct (occurs "." label) eqn:Hdot.
  - destruct (split_once_sep _ _ Hdot) as (c & rest & -> & -> & Hc).
    split; [done|]. split; [done|]. by exists rest.
  - by rewrite split_once_no_sep.
Qed.

(** X3: the label of an object is read back as its class and its name, or as
    its class and its id when it has no name (or an empty one). *)
Theorem label_round_trip (int : string → option Z) self :
  occurs "." (InfraSysBaseModelWithIdentifers.__class__ self) = false →
  let read := get_class_and_name_from_label int (InfraSysBaseModelWithIdentifers.label self) in
  let class_name := InfraSysBaseModelWithIdentifers.__class__ self in
  (∀ name, InfraSysBaseModelWithIdentifers.name self = Some (PyStr name) →
           name ≠ EmptyString → int name = None →
           read = Ok (class_name, inl name))
  ∧ (∀ k, truthy (default (PyStr EmptyString) (InfraSysBaseModelWithIdentifers.name self)) = false →
          InfraSysBaseModelWithIdentifers.id self = Some k →
          int (pretty k) = Some k →
          read = Ok (class_name, inr k)).
Proof.
  intros Hclass read class_name. subst read class_name.
  assert (∀ name,
            get_class_and_name_from_label int
              (make_label (InfraSysBaseModelWithIdentifers.__class__ self) (PyStr name))
            = Ok (InfraSysBaseModelWithIdentifers.__class__ self,
                  match int name with Some k => inr k | None => inl name end)) as Hread.
  { intros name. unfold get_class_and_name_from_label, make_label.
    change (?c +:+ "." +:+ py_str (PyStr name)) with (c +:+ String "." name).
    by rewrite split_once_append. }
  unfold InfraSysBaseModelWithIdentifers.label. split.
  - intros name -> Hname Hint. simpl.
    destruct (String.eqb_spec name EmptyString) as [|_]; [done|]. simpl.
    by rewrite Hread, Hint.
  - intros k -> -> Hint. simpl. by rewrite Hread, Hint.
Qed.

Lemma label_round_trip_witness :
  get_class_and_name_from_label int_of_decimal
    (InfraSysBaseModelWithIdentifers.label
       (InfraSysBaseModelWithIdentifers.mk "Generator" (Some (PyStr "gen1")) (Some 7)))
  = Ok ("Generator", inl "gen1")
  ∧ get_class_and_name_from_label int_of_decimal
      (InfraSysBaseModelWithIdentifers.label
         (InfraSysBaseModelWithIdentifers.mk "Bus" None (Some 7)))
    = Ok ("Bus", inr 7).
Proof.
  split.
  - apply (label_round_trip int_of_decimal
             (InfraSysBaseModelWithIdentifers.mk "Generator" (Some (PyStr "gen1")) (Some 7)));
      [reflexivity|reflexivity|discriminate|reflexivity].
  - apply (label_round_trip int_of_decimal
             (InfraSysBaseModelWithIdentifers.mk "Bus" None (Some 7)));
      [reflexivity|reflexivity|reflexivity|reflexivity].
Defined.

(** ** The in-memory backend: reads, and removal after add *)

Lemma dict_del_set_absent {V} k (v : V) d :
  dict_get k d = None → dict_del k (dict_set k v d) = d.
Proof.
  induction d as [|[j u] d IH]; simpl.
  - by rewrite Z.eqb_refl.
  - destruct (j =? k) eqn:Hj; [done|]. intros Hd. simpl. rewrite Hj. simpl.
    f_equal. by apply IH.
Qed.

(** X4: the in-memory backend returns the object that was first stored under a
    physical id. After an add under a fresh id a read without a range returns
    the very series that was added; after an add under an id that is already
    held the store is as it was and a read returns the series held before. *)
Theorem in_memory_get_after_add `{Externals} metadata s self :
  md_single metadata = true →
  let self' := snd (InMemoryTimeSeriesStorage.add_time_series metadata (Single s) self) in
  (dict_get (time_series_id metadata) (InMemoryTimeSeriesStorage._arrays self) = None →
   InMemoryTimeSeriesStorage.get_time_series metadata None None self'
   = (Ok (Single s), self'))
  ∧ (∀ held,
       dict_get (time_series_id metadata) (InMemoryTimeSeriesStorage._arrays self)
       = Some (Single held) →
       self' = self
       ∧ InMemoryTimeSeriesStorage.get_time_series metadata None None self'
         = (Ok (Single held), self)).
Proof.
  intros Hsingle self'. subst self'.
  unfold InMemoryTimeSeriesStorage.add_time_series, dict_contains, bind, get_st, put_st, ret.
  split.
  - intros Hget. rewrite Hget. simpl.
    unfold InMemoryTimeSeriesStorage.get_time_series,
      InMemoryTimeSeriesStorage._get_single_time_series, bind, get_st, ret.
    simpl. rewrite dict_get_set_eq, Hsingle. simpl. by rewrite dict_get_set_eq.
  - intros held Hget. rewrite Hget. simpl. split; [done|].
    unfold InMemoryTimeSeriesStorage.get_time_series,
      InMemoryTimeSeriesStorage._get_single_time_series, bind, get_st, ret.
    rewrite Hget, Hsingle. simpl. by rewrite Hget.
Qed.

Lemma in_memory_get_after_add_witness :
  let added := mkSingleTimeSeries (Some 1) "load" 60 0 (NDArray [7; 8; 9]) None in
  let first := snd (InMemoryTimeSeriesStorage.add_time_series load_metadata
                      (Single load_series) InMemoryTimeSeriesStorage.__init__) in
  let second := snd (InMemoryTimeSeriesStorage.add_time_series load_metadata
                       (Single added) first) in
  InMemoryTimeSeriesStorage.get_time_series (H := lenient) load_metadata None None first
  = (Ok (Single load_series), first)
  ∧ second = first
  ∧ InMemoryTimeSeriesStorage.get_time_series (H := lenient) load_metadata None None second
    = (Ok (Single load_series), first).
Proof.
  intros added first second.
  split.
  - apply (in_memory_get_after_add (H := lenient) load_metadata load_series
             InMemoryTimeSeriesStorage.__init__); reflexivity.
  - apply (in_memory_get_after_add (H := lenient) load_metadata added first);
      reflexivity.
Defined.

(** X5: how a read of the in-memory backend fails, and that it never changes
    the store. An id that is not held raises [ISNotStored], whatever the
    metadata and the range; a held object that is not a single series, read
    through single-series metadata, fails the assertion. *)
Theorem in_memory_get_failures `{Externals} metadata start_time length self :
  let run := InMemoryTimeSeriesStorage.get_time_series metadata start_time length self in
  let held := dict_get (time_series_id metadata) (InMemoryTimeSeriesStorage._arrays self) in
  snd run = self
  ∧ (held = None → fst run = Raise ISNotStored)
  ∧ (∀ oid, held = Some (OtherTimeSeries oid) → md_single metadata = true →
            fst run = Raise AssertionError).
Proof.
  intros run held. subst run held.
  unfold InMemoryTimeSeriesStorage.get_time_series,
    InMemoryTimeSeriesStorage._get_single_time_series, bind, get_st, ret, raise, lift_result.
  destruct (dict_get _ _) as [[base|oid]|] eqn:Hget; simpl.
  - destruct (md_single metadata); simpl.
    + rewrite Hget. split; [|by repeat split].
      destruct start_time, length; simpl; try done;
        by destruct (get_range _ _ _) as [[? ?]|?].
    + by repeat split.
  - destruct (md_single metadata); simpl.
    + rewrite Hget. by repeat split.
    + by repeat split.
  - by repeat split.
Qed.

Lemma in_memory_get_failures_witness :
  let opaque := InMemoryTimeSeriesStorage.mk [(1, OtherTimeSeries (Some 1))] in
  InMemoryTimeSeriesStorage.get_time_series (H := lenient) load_metadata None None
    InMemoryTimeSeriesStorage.__init__
  = (Raise ISNotStored, InMemoryTimeSeriesStorage.__init__)
  ∧ InMemoryTimeSeriesStorage.get_time_series (H := lenient) load_metadata None None opaque
    = (Raise AssertionError, opaque).
Proof.
  intros opaque.
  destruct (in_memory_get_failures (H := lenient) load_metadata None None
              InMemoryTimeSeriesStorage.__init__) as (Hsame1 & Habsent & _).
  destruct (in_memory_get_failures (H := lenient) load_metadata None None opaque)
    as (Hsame2 & _ & Hopaque).
  split; apply injective_projections; try assumption.
  - by apply Habsent.
  - by apply (Hopaque (Some 1)).
Defined.

(** X6: removing an id right after it was added under a fresh id gives back
    the store as it was before the add. *)
Theorem in_memory_remove_undoes_add metadata time_series self :
  dict_get (time_series_id metadata) (InMemoryTimeSeriesStorage._arrays self) = None →
  InMemoryTimeSeriesStorage.remove_time_series (time_series_id metadata)
    (snd (InMemoryTimeSeriesStorage.add_time_series metadata time_series self))
  = (Ok tt, self).
Proof.
  intros Hget.
  unfold InMemoryTimeSeriesStorage.add_time_series, dict_contains, bind, get_st, put_st, ret.
  rewrite Hget. simpl.
  unfold InMemoryTimeSeriesStorage.remove_time_series, bind, get_st, put_st, ret.
  simpl. rewrite dict_get_set_eq, dict_del_set_absent by done. by destruct self.
Qed.

Lemma in_memory_remove_undoes_add_witness :
  InMemoryTimeSeriesStorage.remove_time_series 1
    (snd (InMemoryTimeSeriesStorage.add_time_series load_metadata (Single load_series)
            InMemoryTimeSeriesStorage.__init__))
  = (Ok tt, InMemoryTimeSeriesStorage.__init__).
Proof.
  apply (in_memory_remove_undoes_add load_metadata (Single load_series)
           InMemoryTimeSeriesStorage.__init__).
  reflexivity.
Defined.

(** ** The chronify backend: what is added is what is read *)

Section time_axis.
Context (k t0 res : Z) (Hres : 0 < res).
Implicit Types (vs : list Z) (j i : nat).

Lemma frame_cons j v vs :
  frame k t0 res j (v :: vs)
  = mkRow (Some k) (t0 + Z.of_nat j * res) v :: frame k t0 res (S j) vs.
Proof. reflexivity. Qed.

Lemma frame_values j vs : map row_value (frame k t0 res j vs) = vs.
Proof.
  revert j. induction vs as [|v vs IH]; intros j; [done|].
  rewrite frame_cons. simpl. by rewrite IH.
Qed.

Lemma frame_drop m j vs :
  drop m (frame k t0 res j vs) = frame k t0 res (j + m) (drop m vs).
Proof.
  revert j vs. induction m as [|m IH]; intros j vs.
  - by rewrite Nat.add_0_r.
  - destruct vs as [|v vs]; [done|]. rewrite frame_cons. simpl.
    rewrite IH. by rewrite Nat.add_succ_r.
Qed.

Lemma frame_ordered j vs :
  order_by_timestamp (frame k t0 res j vs) = frame k t0 res j vs.
Proof.
  revert j. induction vs as [|v vs IH]; intros j; [done|].
  rewrite frame_cons. unfold order_by_timestamp in *. simpl. rewrite IH.
  destruct vs as [|v' vs]; [done|]. rewrite frame_cons. simpl.
  destruct (Z.ltb_spec (t0 + Z.of_nat j * res) (t0 + Z.of_nat (S j) * res))
    as [_|Hge]; [done|]. nia.
Qed.

Lemma frame_from i j vs :
  List.filter (fun r => row_has_id k r && (t0 + Z.of_nat i * res <=? row_timestamp r))
              (frame k t0 res j vs)
  = drop (i - j) (frame k t0 res j vs).
Proof.
  revert j. induction vs as [|v vs IH]; intros j.
  - simpl. by destruct (i - j)%nat.
  - rewrite frame_cons. simpl. unfold row_has_id at 1. simpl. rewrite Z.eqb_refl. simpl.
    rewrite IH.
    destruct (Z.leb_spec (t0 + Z.of_nat i * res) (t0 + Z.of_nat j * res)) as [Hle|Hlt].
    + assert (i ≤ j)%nat as Hij by nia.
      replace (i - j)%nat with 0%nat by lia. replace (i - S j)%nat with 0%nat by lia.
      done.
    + assert (j < i)%nat as Hij by nia.
      replace (i - j)%nat with (S (i - S j)) by lia. done.
Qed.

Lemma frame_all j vs :
  List.filter (fun r => row_has_id k r && true) (frame k t0 res j vs)
  = frame k t0 res j vs.
Proof.
  revert j. induction vs as [|v vs IH]; intros j; [done|].
  rewrite frame_cons. simpl. unfold row_has_id at 1. simpl. rewrite Z.eqb_refl. simpl.
  by rewrite IH.
Qed.

Lemma frame_fresh (r : Row) (table : list Row) :
  row_id r = Some k →
  existsb (row_has_id k) table = false →
  existsb (same_point r) table = false.
Proof.
  intros Hr. induction table as [|r' table IH]; [done|]. simpl.
  intros [Hr' Htable]%orb_false_elim. rewrite IH by done.
  unfold same_point, row_has_id in *. rewrite Hr.
  destruct (row_id r') as [k'|]; [|done]. rewrite Z.eqb_sym, Hr'. done.
Qed.

Lemma frame_ingest j vs (table : list Row) :
  existsb (row_has_id k) table = false →
  existsb (fun r => existsb (same_point r) table) (frame k t0 res j vs) = false.
Proof.
  intros Htable. revert j. induction vs as [|v vs IH]; intros j; [done|].
  rewrite frame_cons. simpl. rewrite IH. by rewrite frame_fresh.
Qed.
End time_axis.

Lemma to_dataframe_frame s k :
  sts_id s = Some k →
  ChronifyTimeSeriesStorage._to_dataframe s
  = frame k (sts_initial_time s) (sts_resolution s) 0 (magnitude (sts_data s)).
Proof.
  intros Hid. unfold ChronifyTimeSeriesStorage._to_dataframe, make_timestamps, len, frame.
  by rewrite Hid.
Qed.

Lemma filter_absent_id k (f : Row → bool) (table : list Row) :
  existsb (row_has_id k) table = false →
  List.filter (fun r => row_has_id k r && f r) table = [].
Proof.
  induction table as [|r table IH]; [done|]. simpl.
  intros [-> Htable]%orb_false_elim. simpl. by apply IH.
Qed.

Lemma slice_magnitude a i n : magnitude (slice a i n) = take n (drop i (magnitude a)).
Proof. by destruct a. Qed.

Lemma ndarray_eq a b : magnitude a = magnitude b → units_of a = units_of b → a = b.
Proof. destruct a, b; simpl; congruence. Qed.

(** A series added to a chronify store that holds no row under its id is read
    back sample for sample. For a resolution above zero and a range that lies
    within the series ([n] samples from position [i], the start given as the
    timestamp of position [i] or left out to mean the beginning, the length
    given or left out to mean the rest), the add succeeds in either engine and
    the read returns exactly the slice of the added data, with the units of
    the metadata, under the id of the metadata. *)
Lemma chronify_read_back `{Externals} self metadata s w k i n start_time length index :
  sts_id s = Some k →
  time_series_id metadata = k →
  md_single metadata = true →
  quantity_metadata metadata = units_of (sts_data s) →
  0 < sts_resolution s →
  existsb (row_has_id k)
    (db_rows w (Store.file_path (ChronifyTimeSeriesStorage._store self))) = false →
  (start_time = None ∧ i = 0%nat
   ∨ start_time = Some (sts_initial_time s + Z.of_nat i * sts_resolution s)) →
  get_range metadata start_time length = Ok (index, n) →
  (length = None → n = (len (sts_data s) - i)%nat) →
  (i + n ≤ len (sts_data s))%nat →
  ∃ w1 s',
    ChronifyTimeSeriesStorage.add_time_series self metadata (Single s) w = (Ok tt, w1)
    ∧ ChronifyTimeSeriesStorage.get_time_series self metadata start_time length w1
      = (Ok (Single s'), w1)
    ∧ sts_data s' = slice (sts_data s) i n
    ∧ sts_id s' = Some k
    ∧ sts_initial_time s' = default (md_initial_time metadata) start_time.
Proof.
  intros Hid Hmd Hsingle Hunits Hres Hfresh Hstart Hrange Hrest Hin.
  set (path := Store.file_path (ChronifyTimeSeriesStorage._store self)) in *.
  set (table := db_rows w path) in *.
  set (df := ChronifyTimeSeriesStorage._to_dataframe s).
  assert (Hdf : df = frame k (sts_initial_time s) (sts_resolution s) 0
                       (magnitude (sts_data s))) by by apply to_dataframe_frame.
  (* the add *)
  assert (Hadd : ChronifyTimeSeriesStorage.add_time_series self metadata (Single s) w
                 = (Ok tt, mkWorld (<[path := DbFile (table ++ df)]> (disk w))
                             (tmp_seq w) (atexit w))).
  { unfold ChronifyTimeSeriesStorage.add_time_series, Store.ingest_table, bind, get_st.
    fold path table df. rewrite Hdf, frame_ingest by done.
    by rewrite andb_false_r. }
  eexists. rewrite Hadd.
  set (w1 := mkWorld _ _ _).
  assert (Hrows : db_rows w1 path = (table ++ df)%list).
  { unfold db_rows, w1. simpl. by rewrite lookup_insert_eq. }
  (* the read *)
  unfold ChronifyTimeSeriesStorage.get_time_series,
    ChronifyTimeSeriesStorage._get_single_time_series, Store.read_raw_query,
    bind, get_st, lift_result, ret, raise.
  rewrite Hsingle, Hrange. fold path. rewrite Hrows, Hmd.
  rewrite List.filter_app, filter_absent_id by done. rewrite app_nil_l.
  assert (Hselected :
            List.filter (fun r => row_has_id k r
                                  && match start_time with
                                     | Some t => t <=? row_timestamp r
                                     | None => true
                                     end) df
            = drop i df).
  { rewrite Hdf. destruct Hstart as [[-> ->]| ->].
    - apply frame_all.
    - rewrite frame_from by done. by rewrite Nat.sub_0_r. }
  rewrite Hselected.
  assert (Hordered : order_by_timestamp (drop i df) = drop i df).
  { rewrite Hdf, frame_drop. by apply frame_ordered. }
  rewrite Hordered.
  assert (Hvalues :
            map row_value
              (match match length with None => None | Some _ => Some n end with
               | Some n0 => take n0 (drop i df)
               | None => drop i df
               end)
            = take n (drop i (magnitude (sts_data s)))).
  { assert (map row_value (drop i df) = drop i (magnitude (sts_data s))) as Hmap.
    { rewrite Hdf, frame_drop. apply frame_values. }
    destruct length as [m|].
    - by rewrite <- firstn_map, Hmap.
    - rewrite Hmap. rewrite firstn_all2; [done|].
      rewrite length_drop. unfold len in Hrest. rewrite Hrest by done. lia. }
  rewrite Hvalues.
  assert (Hlen : List.length (take n (drop i (magnitude (sts_data s)))) = n).
  { rewrite length_take, length_drop. unfold len in Hin. lia. }
  rewrite Hlen, Nat.eqb_refl. simpl.
  eexists. split; [done|]. split; [done|]. simpl. split; [|split; [done|]].
  - apply ndarray_eq.
    + rewrite slice_magnitude. by destruct (quantity_metadata metadata).
    + rewrite Hunits. by destruct (sts_data s).
  - by destruct start_time.
Qed.

Lemma slice_all a : slice a 0 (len a) = a.
Proof. destruct a; unfold len; simpl; by rewrite firstn_all. Qed.

(** X7: the chronify backend and the in-memory backend read back the same
    samples. The same series is added to a chronify store that holds no row
    under its id, where the engine accepts it, and to an in-memory store that
    does not hold the id. For a resolution above zero and a range of at least
    two samples that lies within the series ([n] samples from position [i],
    the start given as the timestamp of position [i] or left out to mean the
    beginning, the length given or left out to mean the rest), both reads
    return the slice of the added data at that range, under the same id. *)
Theorem backends_read_back_the_same `{Externals}
    self memory metadata s w w1 k i n start_time length :
  sts_id s = Some k →
  time_series_id metadata = k →
  md_single metadata = true →
  quantity_metadata metadata = units_of (sts_data s) →
  0 < sts_resolution s →
  existsb (row_has_id k)
    (db_rows w (Store.file_path (ChronifyTimeSeriesStorage._store self))) = false →
  dict_get k (InMemoryTimeSeriesStorage._arrays memory) = None →
  ChronifyTimeSeriesStorage.add_time_series self metadata (Single s) w = (Ok tt, w1) →
  (start_time = None ∧ i = 0%nat
   ∨ start_time = Some (sts_initial_time s + Z.of_nat i * sts_resolution s)) →
  get_range metadata start_time length = Ok (i, n) →
  (length = None → n = (len (sts_data s) - i)%nat) →
  (2 ≤ n)%nat →
  (i + n ≤ len (sts_data s))%nat →
  ∃ memory1 from_chronify from_memory,
    InMemoryTimeSeriesStorage.add_time_series metadata (Single s) memory
    = (Ok tt, memory1)
    ∧ ChronifyTimeSeriesStorage.get_time_series self metadata start_time length w1
      = (Ok (Single from_chronify), w1)
    ∧ InMemoryTimeSeriesStorage.get_time_series metadata start_time length memory1
      = (Ok (Single from_memory), memory1)
    ∧ sts_data from_chronify = slice (sts_data s) i n
    ∧ sts_data from_memory = sts_data from_chronify
    ∧ sts_id from_memory = sts_id from_chronify.
Proof.
  intros Hid Hmd Hsingle Hunits Hres Hfresh Habsent Haccepted Hstart Hrange Hrest _ Hin.
  destruct (chronify_read_back self metadata s w k i n start_time length i
              Hid Hmd Hsingle Hunits Hres Hfresh Hstart Hrange Hrest Hin)
    as (w1' & from_chronify & Hadd & Hget & Hdata & Hkey & _).
  rewrite Haccepted in Hadd. injection Hadd as <-.
  set (memory1 := InMemoryTimeSeriesStorage.mk
                    (dict_set k (Single s) (InMemoryTimeSeriesStorage._arrays memory))).
  assert (Hmem_add : InMemoryTimeSeriesStorage.add_time_series metadata (Single s) memory
                     = (Ok tt, memory1)).
  { unfold InMemoryTimeSeriesStorage.add_time_series, dict_contains, bind, get_st, put_st, ret.
    by rewrite Hmd, Habsent. }
  assert (Hmem_get : ∃ from_memory,
            InMemoryTimeSeriesStorage.get_time_series metadata start_time length memory1
            = (Ok (Single from_memory), memory1)
            ∧ sts_data from_memory = slice (sts_data s) i n
            ∧ sts_id from_memory = Some k).
  { unfold InMemoryTimeSeriesStorage.get_time_series,
      InMemoryTimeSeriesStorage._get_single_time_series, bind, get_st, ret, lift_result.
    cbn [InMemoryTimeSeriesStorage._arrays memory1].
    rewrite Hmd, dict_get_set_eq, Hsingle.
    destruct start_time as [t|], length as [m|]; rewrite ?Hrange;
      unfold memory1; cbn [InMemoryTimeSeriesStorage._arrays];
      rewrite dict_get_set_eq;
      (eexists; split; [done|]); cbn [sts_data sts_id]; try done.
    destruct Hstart as [[_ ->]|[=]]. rewrite Hrest by done.
    by rewrite Nat.sub_0_r, slice_all. }
  destruct Hmem_get as (from_memory & Hmem_get & Hmem_data & Hmem_key).
  exists memory1, from_chronify, from_memory.
  rewrite Hmem_data, Hmem_key, Hdata, Hkey. done.
Qed.

Lemma backends_read_back_the_same_witness :
  let w1 := snd (ChronifyTimeSeriesStorage.add_time_series (H := rejecting) sample_store
                   load_metadata (Single load_series) wind_world) in
  ∃ memory1 from_chronify from_memory,
    InMemoryTimeSeriesStorage.add_time_series load_metadata (Single load_series)
      InMemoryTimeSeriesStorage.__init__ = (Ok tt, memory1)
    ∧ ChronifyTimeSeriesStorage.get_time_series (H := rejecting) sample_store load_metadata
        (Some 60) (Some 2%nat) w1 = (Ok (Single from_chronify), w1)
    ∧ InMemoryTimeSeriesStorage.get_time_series (H := rejecting) load_metadata
        (Some 60) (Some 2%nat) memory1 = (Ok (Single from_memory), memory1)
    ∧ sts_data from_chronify = NDArray [20; 30]
    ∧ sts_data from_memory = sts_data from_chronify
    ∧ sts_id from_memory = sts_id from_chronify.
Proof.
  intros w1.
  apply (backends_read_back_the_same (H := rejecting) sample_store
           InMemoryTimeSeriesStorage.__init__ load_metadata load_series
           wind_world w1 1 1%nat 2%nat (Some 60) (Some 2%nat));
    try reflexivity.
  right. reflexivity.
Defined.

(** X8: a read of an id under which the chronify store holds no row, while
    its table holds rows of other series. The query returns no row, so the
    row-count check decides: for a required length above zero the backend
    raises the bare [Exception], not [ISNotStored]. The store is left as it
    was. *)
Theorem chronify_get_of_absent_id `{Externals} self metadata start_time length w index n :
  md_single metadata = true →
  db_rows w (Store.file_path (ChronifyTimeSeriesStorage._store self)) ≠ [] →
  existsb (row_has_id (time_series_id metadata))
    (db_rows w (Store.file_path (ChronifyTimeSeriesStorage._store self))) = false →
  get_range metadata start_time length = Ok (index, n) →
  n ≠ 0%nat →
  ChronifyTimeSeriesStorage.get_time_series self metadata start_time length w
  = (Raise Exception, w).
Proof.
  intros Hsingle _ Habsent Hrange Hn.
  unfold ChronifyTimeSeriesStorage.get_time_series,
    ChronifyTimeSeriesStorage._get_single_time_series, Store.read_raw_query,
    bind, get_st, lift_result, ret, raise.
  rewrite Hsingle, Hrange, filter_absent_id by done.
  assert (map row_value
            (match match length with None => None | Some _ => Some n end with
             | Some n0 => take n0 (order_by_timestamp [])
             | None => order_by_timestamp []
             end) = []) as ->.
  { destruct length; [|done]. by destruct n. }
  simpl. by destruct n.
Qed.

Lemma chronify_get_of_absent_id_witness :
  ChronifyTimeSeriesStorage.get_time_series (H := lenient) sample_store load_metadata
    None None wind_world
  = (Raise Exception, wind_world).
Proof.
  apply (chronify_get_of_absent_id (H := lenient) sample_store load_metadata
           None None wind_world 0%nat 3%nat);
    [reflexivity|discriminate|reflexivity|reflexivity|discriminate].
Defined.

(** X9: what [serialize] of the chronify backend leaves when it returns. The
    descriptor gets the path of the snapshot, the storage kind and the engine
    name, and keeps its other keys; the file at that path holds the rows of
    the live database; the live database keeps its rows and no other path of
    the disk changes; the snapshot is not registered for deletion at exit.
    The [src] argument plays no part. *)
Theorem chronify_serialize_takes_a_snapshot self data dst src w data' w' :
  ChronifyTimeSeriesStorage.serialize self data dst src w = (Ok data', w') →
  let live := Store.file_path (ChronifyTimeSeriesStorage._store self) in
  ∃ path,
    data' !! "filename" = Some (PyStr path)
    ∧ data' !! "time_series_storage_type" = Some (PyStr "ChronifyTimeSeriesStorage")
    ∧ data' !! "engine_name"
      = Some (PyStr (Store.engine_name (ChronifyTimeSeriesStorage._store self)))
    ∧ (∀ key, key ≠ "filename" → key ≠ "time_series_storage_type" →
              key ≠ "engine_name" → data' !! key = data !! key)
    ∧ db_rows w' path = db_rows w live
    ∧ db_rows w' live = db_rows w live
    ∧ (∀ p, p ≠ path → disk w' !! p = disk w !! p)
    ∧ atexit w' = atexit w.
Proof.
  intros Hrun live.
  set (path := dst +:+ "/tmp" +:+ pretty (tmp_seq w) +:+ ".db").
  assert (ChronifyTimeSeriesStorage.serialize self data dst src w
          = (Ok (<["engine_name" :=
                     PyStr (Store.engine_name (ChronifyTimeSeriesStorage._store self))]>
                   (<["time_series_storage_type" := PyStr "ChronifyTimeSeriesStorage"]>
                      (<["filename" := PyStr path]> data))),
             mkWorld (<[path := DbFile (db_rows w live)]> (disk w))
               (S (tmp_seq w)) (atexit w))) as Hcomputed by reflexivity.
  rewrite Hcomputed in Hrun. injection Hrun as <- <-.
  exists path.
  split; [|split; [|split; [|split; [|split; [|split; [|split]]]]]].
  - do 2 (rewrite lookup_insert_ne by done). by rewrite lookup_insert_eq.
  - rewrite lookup_insert_ne by done. by rewrite lookup_insert_eq.
  - by rewrite lookup_insert_eq.
  - intros key H1 H2 H3. by do 3 (rewrite lookup_insert_ne by done).
  - unfold db_rows at 1. cbn [disk]. by rewrite lookup_insert_eq.
  - unfold db_rows at 1. cbn [disk]. destruct (decide (path = live)) as [Heq|Hne].
    + rewrite Heq. by rewrite lookup_insert_eq.
    + by rewrite lookup_insert_ne.
  - intros p Hp. cbn [disk]. by rewrite lookup_insert_ne.
  - done.
Qed.

Lemma chronify_serialize_takes_a_snapshot_witness :
  let store := ChronifyTimeSeriesStorage.mk (Store.mk "duckdb" "snapshot.db") in
  let run := ChronifyTimeSeriesStorage.serialize store ∅ "out" None export_world in
  is_ok (fst run) = true
  ∧ ∃ path,
      (match fst run with Ok data' => data' | Raise _ => ∅ end) !! "filename"
      = Some (PyStr path)
      ∧ path = "out/tmp0.db"
      ∧ db_rows (snd run) path = ChronifyTimeSeriesStorage._to_dataframe load_series
      ∧ db_rows (snd run) "snapshot.db" = ChronifyTimeSeriesStorage._to_dataframe load_series.
Proof.
  intros store run. split; [reflexivity|].
  destruct (chronify_serialize_takes_a_snapshot store ∅ "out" None export_world
              (match fst run with Ok data' => data' | Raise _ => ∅ end) (snd run) eq_refl)
    as (path & Hfile & _ & _ & _ & Hcopy & Hlive & _).
  exists path. split; [exact Hfile|].
  assert (path = "out/tmp0.db") as Hpath.
  { vm_compute in Hfile. by injection Hfile as <-. }
  split; [exact Hpath|]. split; [exact Hcopy|exact Hlive].
Defined.

(** ** The chronify backend: removal after add, copies and snapshots *)

Lemma filter_keeps_other_ids k (table : list Row) :
  existsb (row_has_id k) table = false →
  List.filter (fun r => negb (row_has_id k r)) table = table.
Proof.
  induction table as [|r table IH]; [done|]. simpl.
  intros [-> Htable]%orb_false_elim. simpl. by rewrite IH.
Qed.

Lemma filter_drops_frame k t0 res j vs :
  List.filter (fun r => negb (row_has_id k r)) (frame k t0 res j vs) = [].
Proof.
  revert j. induction vs as [|v vs IH]; intros j; [done|].
  rewrite frame_cons. simpl. unfold row_has_id at 1. simpl. rewrite Z.eqb_refl. simpl.
  apply IH.
Qed.

(** X10: on a chronify store that holds no row under the id of a series with
    at least one sample, an add that the engine accepts, followed by the
    removal of that id, leaves the table with the rows it had, in their order;
    the removal returns in either engine, and no other path of the disk
    changes. *)
Theorem chronify_remove_undoes_add `{Externals} self metadata s w w1 k :
  let path := Store.file_path (ChronifyTimeSeriesStorage._store self) in
  sts_id s = Some k →
  magnitude (sts_data s) ≠ [] →
  existsb (row_has_id k) (db_rows w path) = false →
  ChronifyTimeSeriesStorage.add_time_series self metadata (Single s) w = (Ok tt, w1) →
  ∃ w2,
    ChronifyTimeSeriesStorage.remove_time_series self k w1 = (Ok tt, w2)
    ∧ db_rows w2 path = db_rows w path
    ∧ (∀ p, p ≠ path → disk w2 !! p = disk w !! p).
Proof.
  intros path Hid Hdata Hfresh Haccepted.
  set (table := db_rows w path) in *.
  set (df := ChronifyTimeSeriesStorage._to_dataframe s).
  pose proof (to_dataframe_frame s k Hid) as Hdf. fold df in Hdf.
  assert (Hadd : ChronifyTimeSeriesStorage.add_time_series self metadata (Single s) w
                 = (Ok tt, mkWorld (<[path := DbFile (table ++ df)]> (disk w))
                             (tmp_seq w) (atexit w))).
  { unfold ChronifyTimeSeriesStorage.add_time_series, Store.ingest_table, bind, get_st.
    fold path table df. rewrite Hdf, frame_ingest by done.
    by rewrite andb_false_r. }
  rewrite Haccepted in Hadd. injection Hadd as ->.
  set (w1 := mkWorld _ _ _).
  assert (Hrows : db_rows w1 path = (table ++ df)%list).
  { unfold db_rows, w1. cbn [disk]. by rewrite lookup_insert_eq. }
  unfold ChronifyTimeSeriesStorage.remove_time_series, Store.delete_rows, bind, get_st.
  fold path. rewrite Hrows.
  assert (existsb (row_has_id k) (table ++ df) = true) as ->.
  { rewrite existsb_app. unfold df. rewrite to_dataframe_rows by done. apply orb_true_r. }
  rewrite andb_false_r.
  rewrite List.filter_app, filter_keeps_other_ids by done.
  rewrite Hdf, filter_drops_frame, app_nil_r.
  eexists. split; [reflexivity|].
  unfold write_node, modify. cbn [snd]. split.
  - unfold db_rows at 1. cbn [disk]. by rewrite lookup_insert_eq.
  - intros p Hp. cbn [disk w1]. by rewrite !lookup_insert_ne.
Qed.

Lemma chronify_remove_undoes_add_witness :
  let w1 := snd (ChronifyTimeSeriesStorage.add_time_series (H := rejecting) sample_store
                   load_metadata (Single load_series) wind_world) in
  ∃ w2,
    ChronifyTimeSeriesStorage.remove_time_series (H := rejecting) sample_store 1 w1
    = (Ok tt, w2)
    ∧ db_rows w2 "series.db" = db_rows wind_world "series.db"
    ∧ (∀ p, p ≠ "series.db" → disk w2 !! p = disk wind_world !! p).
Proof.
  intros w1.
  apply (chronify_remove_undoes_add (H := rejecting) sample_store load_metadata load_series
           wind_world w1 1); [reflexivity|discriminate|reflexivity|reflexivity].
Defined.

Lemma store_open_existing engine path rows w :
  disk w !! path = Some (DbFile rows) →
  Store.open engine path w = (Ok (Store.mk engine path), w).
Proof. intros Hfile. unfold Store.open, bind, get_st. by rewrite Hfile. Qed.

Lemma from_file_existing path engine rows w :
  disk w !! path = Some (DbFile rows) →
  ChronifyTimeSeriesStorage.from_file path engine w
  = (Ok (ChronifyTimeSeriesStorage.mk (Store.mk engine path)), w).
Proof.
  intros Hfile. unfold ChronifyTimeSeriesStorage.from_file, bind.
  by rewrite (store_open_existing _ _ rows).
Qed.

(** The outcome of [from_file_to_tmp_file], case by case on what the source
    path holds. *)
Lemma from_file_to_tmp_file_run src_file dst_dir engine w :
  let dst_file := default "/tmp" dst_dir +:+ "/tmp" +:+ pretty (tmp_seq w) +:+ ".db" in
  let named := mkWorld (disk w) (S (tmp_seq w)) (atexit w) in
  let opened :=
    match disk w !! src_file with
    | None => mkWorld (<[src_file := DbFile []]> (disk w)) (S (tmp_seq w)) (atexit w)
    | Some _ => named
    end in
  ChronifyTimeSeriesStorage.from_file_to_tmp_file src_file dst_dir engine w
  = match disk w !! src_file with
    | Some (Dir _) => (Raise EngineError, named)
    | _ =>
        (Ok (ChronifyTimeSeriesStorage.mk (Store.mk engine dst_file)),
         mkWorld (<[dst_file := DbFile (db_rows w src_file)]> (disk opened))
           (S (tmp_seq w)) (atexit w ++ [dst_file]))
    end.
Proof.
  intros dst_file named opened. subst opened.
  unfold ChronifyTimeSeriesStorage.from_file_to_tmp_file.
  unfold bind at 1, temp_name at 1. fold dst_file named.
  unfold bind at 1, Store.open at 1, bind at 1, get_st at 1.
  change (disk named) with (disk w).
  unfold db_rows.
  destruct (disk w !! src_file) as [[rows|files]|] eqn:Hsrc.
  - unfold ret at 1, bind at 1, Store.backup, bind at 1, get_st at 1, write_node at 1,
      modify at 1, db_rows. cbn [Store.file_path]. change (disk named) with (disk w).
    rewrite Hsrc. cbn [disk tmp_seq atexit named].
    unfold bind at 1.
    rewrite (store_open_existing _ _ rows) by (cbn [disk]; apply lookup_insert_eq).
    done.
  - done.
  - unfold bind at 1, write_node at 1, modify at 1, ret at 1.
    unfold bind at 1, Store.backup, bind at 1, get_st at 1, write_node at 1,
      modify at 1, db_rows. cbn [Store.file_path disk tmp_seq atexit named].
    rewrite lookup_insert_eq.
    unfold bind at 1.
    rewrite (store_open_existing _ _ []) by (cbn [disk]; apply lookup_insert_eq).
    done.
Qed.

(** X11: [from_file_to_tmp_file] builds a store on a private copy. When it
    returns a store, that store's file is a new temporary file, registered for
    deletion at exit, that holds the rows of the source file; and whatever is
    then added to or removed from the store, the rows of the source file stay
    as they were. *)
Theorem from_file_to_tmp_file_works_on_a_copy `{Externals}
    src_file dst_dir engine w self w1 :
  ChronifyTimeSeriesStorage.from_file_to_tmp_file src_file dst_dir engine w = (Ok self, w1) →
  let path := Store.file_path (ChronifyTimeSeriesStorage._store self) in
  path ≠ src_file →
  db_rows w1 path = db_rows w src_file
  ∧ db_rows w1 src_file = db_rows w src_file
  ∧ path ∈ atexit w1
  ∧ ∀ metadata time_series k,
      db_rows (snd (ChronifyTimeSeriesStorage.add_time_series self metadata time_series w1))
        src_file = db_rows w src_file
      ∧ db_rows (snd (ChronifyTimeSeriesStorage.remove_time_series self k w1)) src_file
        = db_rows w src_file.
Proof.
  rewrite from_file_to_tmp_file_run.
  set (dst_file := default "/tmp" dst_dir +:+ "/tmp" +:+ pretty (tmp_seq w) +:+ ".db").
  intros Hrun path Hne.
  assert (self = ChronifyTimeSeriesStorage.mk (Store.mk engine dst_file)
          ∧ db_rows w1 dst_file = db_rows w src_file
          ∧ db_rows w1 src_file = db_rows w src_file
          ∧ dst_file ∈ atexit w1) as (-> & Hcopy & Hsrc & Hexit).
  { subst path. unfold db_rows in *.
    destruct (disk w !! src_file) as [[rows|files]|] eqn:Hfile;
      [| discriminate Hrun |]; injection Hrun as <- <-; cbn [disk atexit] in *;
      cbn [ChronifyTimeSeriesStorage._store Store.file_path] in Hne.
    - rewrite lookup_insert_eq, lookup_insert_ne, Hfile by done.
      repeat split; try done. apply elem_of_app. right. apply list_elem_of_here.
    - rewrite lookup_insert_eq, lookup_insert_ne, lookup_insert_eq by done.
      repeat split; try done. apply elem_of_app. right. apply list_elem_of_here. }
  subst path. cbn [ChronifyTimeSeriesStorage._store Store.file_path] in *.
  split; [done|]. split; [done|]. split; [done|].
  intros metadata time_series k. split.
  - unfold ChronifyTimeSeriesStorage.add_time_series.
    destruct time_series as [s|oid]; [|done].
    unfold Store.ingest_table, bind, get_st, raise, write_node, modify.
    cbn [ChronifyTimeSeriesStorage._store Store.file_path].
    destruct (strict && _); [done|]. cbn [snd].
    unfold db_rows at 1. cbn [disk]. rewrite lookup_insert_ne by done. exact Hsrc.
  - unfold ChronifyTimeSeriesStorage.remove_time_series, Store.delete_rows,
      bind, get_st, raise, write_node, modify.
    cbn [ChronifyTimeSeriesStorage._store Store.file_path].
    destruct (strict && _); [done|]. cbn [snd].
    unfold db_rows at 1. cbn [disk]. rewrite lookup_insert_ne by done. exact Hsrc.
Qed.

Lemma from_file_to_tmp_file_works_on_a_copy_witness :
  let run := ChronifyTimeSeriesStorage.from_file_to_tmp_file "snapshot.db" (Some "sys")
               "duckdb" snapshot_world in
  let copy := "sys/tmp0.db" in
  fst run = Ok (ChronifyTimeSeriesStorage.mk (Store.mk "duckdb" copy))
  ∧ db_rows (snd run) copy = db_rows snapshot_world "snapshot.db"
  ∧ db_rows (snd run) "snapshot.db" = db_rows snapshot_world "snapshot.db"
  ∧ copy ∈ atexit (snd run)
  ∧ ∀ metadata time_series k,
      db_rows (snd (ChronifyTimeSeriesStorage.add_time_series (H := lenient)
                      (ChronifyTimeSeriesStorage.mk (Store.mk "duckdb" copy))
                      metadata time_series (snd run)))
        "snapshot.db" = db_rows snapshot_world "snapshot.db"
      ∧ db_rows (snd (ChronifyTimeSeriesStorage.remove_time_series (H := lenient)
                        (ChronifyTimeSeriesStorage.mk (Store.mk "duckdb" copy))
                        k (snd run)))
          "snapshot.db" = db_rows snapshot_world "snapshot.db".
Proof.
  intros run copy. split; [reflexivity|].
  apply (from_file_to_tmp_file_works_on_a_copy (H := lenient) "snapshot.db" (Some "sys")
           "duckdb" snapshot_world
           (ChronifyTimeSeriesStorage.mk (Store.mk "duckdb" copy)) (snd run));
    [reflexivity|discriminate].
Defined.

(** ** The storage manager: snapshots and reads *)

(** What a chronify read returns depends on the rows of the store's file and
    on nothing else of the store or the disk. *)
Lemma chronify_get_rows `{Externals} self self' metadata start_time length w w' :
  db_rows w' (Store.file_path (ChronifyTimeSeriesStorage._store self'))
  = db_rows w (Store.file_path (ChronifyTimeSeriesStorage._store self)) →
  fst (ChronifyTimeSeriesStorage.get_time_series self' metadata start_time length w')
  = fst (ChronifyTimeSeriesStorage.get_time_series self metadata start_time length w).
Proof.
  intros Hrows.
  unfold ChronifyTimeSeriesStorage.get_time_series,
    ChronifyTimeSeriesStorage._get_single_time_series, Store.read_raw_query,
    bind, get_st, lift_result, ret, raise.
  destruct (md_single metadata); [|done].
  destruct (get_range _ _ _) as [[index n]|e]; [|done].
  cbv beta zeta. rewrite Hrows. by destruct (negb _).
Qed.

Lemma chronify_get_pure `{Externals} self metadata start_time length w :
  snd (ChronifyTimeSeriesStorage.get_time_series self metadata start_time length w) = w.
Proof.
  unfold ChronifyTimeSeriesStorage.get_time_series,
    ChronifyTimeSeriesStorage._get_single_time_series, Store.read_raw_query,
    bind, get_st, lift_result, ret, raise.
  destruct (md_single metadata); [|done].
  destruct (get_range _ _ _) as [[index n]|e]; [|done].
  by destruct (negb _).
Qed.

Lemma in_memory_get_pure `{Externals} metadata start_time length self :
  snd (InMemoryTimeSeriesStorage.get_time_series metadata start_time length self) = self.
Proof.
  unfold InMemoryTimeSeriesStorage.get_time_series,
    InMemoryTimeSeriesStorage._get_single_time_series, bind, get_st, ret, raise, lift_result.
  destruct (dict_get _ _) as [[base|oid]|] eqn:Hget; [| |done];
    (destruct (md_single metadata); [|done]); rewrite Hget; [|done].
  destruct start_time, length; try done; by destruct (get_range _ _ _) as [[? ?]|?].
Qed.

Lemma arrow_get_pure `{Externals} self metadata start_time length w :
  snd (ArrowTimeSeriesStorage.get_time_series self metadata start_time length w) = w.
Proof.
  unfold ArrowTimeSeriesStorage.get_time_series, bind, get_st, ret, raise, lift_result.
  destruct (_ !! _); [|done]. destruct (md_single metadata); [|done].
  by destruct (get_range _ _ _) as [[? ?]|?].
Qed.

Lemma get_by_metadata_pure `{Externals} metadata start_time length m w :
  snd (TimeSeriesManager._get_by_metadata metadata start_time length (m, w)) = (m, w).
Proof.
  unfold TimeSeriesManager._get_by_metadata, TimeSeriesManager.with_storage,
    TimeSeriesStorageBase.get_time_series, TimeSeriesStorageBase.dispatch.
  cbn [fst snd]. destruct m as [ids ro [s|s|s] md]; cbn [TimeSeriesManager._storage].
  - pose proof (in_memory_get_pure metadata start_time length s) as Hpure.
    destruct (InMemoryTimeSeriesStorage.get_time_series _ _ _ s) as [r s'].
    simpl in *. by subst.
  - pose proof (chronify_get_pure s metadata start_time length w) as Hpure.
    destruct (ChronifyTimeSeriesStorage.get_time_series s _ _ _ w) as [r w'].
    simpl in *. by subst.
  - pose proof (arrow_get_pure s metadata start_time length w) as Hpure.
    destruct (ArrowTimeSeriesStorage.get_time_series s _ _ _ w) as [r w'].
    simpl in *. by subst.
Qed.

Lemma get_each_pure `{Externals} (l : list TimeSeriesMetadata) start_time length m w :
  snd (TimeSeriesManager.get_each l start_time length (m, w)) = (m, w)
  ∧ ∀ tss, fst (TimeSeriesManager.get_each l start_time length (m, w)) = Ok tss →
           List.length tss = List.length l.
Proof.
  induction l as [|x l [IHst IHlen]]; [split; [done|by intros ? [= <-]]|].
  cbn [TimeSeriesManager.get_each]. unfold bind.
  pose proof (get_by_metadata_pure x start_time length m w) as Hpure.
  destruct (TimeSeriesManager._get_by_metadata x start_time length (m, w)) as [[ts|e] st].
  2:{ simpl in *. by split. }
  simpl in Hpure. subst st.
  destruct (TimeSeriesManager.get_each l start_time length (m, w)) as [[tss|e] st].
  2:{ simpl in *. by split. }
  simpl in *. subst st. split; [done|]. intros ? [= <-]. simpl. f_equal. by apply IHlen.
Qed.

(** X12: the reads of the manager change nothing: whatever [get] and
    [list_time_series] return or raise, the manager, its backend and the disk
    are as before. [list_time_series], when it returns, returns one series per
    metadata record that [list_time_series_metadata] lists. What [get] returns
    does not depend on the read-only flag. *)
Theorem manager_reads_change_nothing `{Externals}
    component variable_name time_series_type start_time length user_attributes m w :
  let get := TimeSeriesManager.get component variable_name time_series_type
               start_time length user_attributes (m, w) in
  let list := TimeSeriesManager.list_time_series component variable_name time_series_type
                start_time length user_attributes (m, w) in
  snd get = (m, w)
  ∧ snd list = (m, w)
  ∧ (∀ tss, fst list = Ok tss →
            List.length tss
            = List.length (TimeSeriesManager.list_time_series_metadata m component
                             variable_name time_series_type user_attributes))
  ∧ ∀ flag,
      fst (TimeSeriesManager.get component variable_name time_series_type
             start_time length user_attributes
             (TimeSeriesManager.mk (TimeSeriesManager._id_manager m) flag
                (TimeSeriesManager._storage m) (TimeSeriesManager._metadata_store m), w))
      = fst get.
Proof.
  intros get list. subst get list. split; [|split; [|split]].
  - unfold TimeSeriesManager.get, bind, get_st, lift_result. cbn [fst].
    destruct (TimeSeriesMetadataStore.get_metadata _ _ _ _ _) as [metadata|e]; [|done].
    apply get_by_metadata_pure.
  - unfold TimeSeriesManager.list_time_series, bind, get_st. cbn [fst].
    apply get_each_pure.
  - unfold TimeSeriesManager.list_time_series, bind, get_st. cbn [fst].
    apply get_each_pure.
  - intros flag.
    unfold TimeSeriesManager.get, bind, get_st, lift_result.
    cbn [fst TimeSeriesManager._metadata_store].
    destruct (TimeSeriesMetadataStore.get_metadata _ _ _ _ _) as [metadata|e]; [|done].
    unfold TimeSeriesManager._get_by_metadata, TimeSeriesManager.with_storage.
    cbn [fst snd TimeSeriesManager._storage].
    by destruct (TimeSeriesStorageBase.get_time_series metadata start_time length _)
      as [r [s' w']].
Qed.

(** X13: [copy] is not implemented. It raises in every state and changes
    nothing: [ISOperationNotAllowed] on a read-only manager, where the guard
    comes first, and [NotImplementedError] on a writable one. *)
Theorem copy_never_succeeds m w :
  TimeSeriesManager.copy (m, w)
  = (Raise (if read_only m then ISOperationNotAllowed else NotImplementedError), (m, w)).
Proof.
  unfold TimeSeriesManager.copy, bind. rewrite handle_read_only_run.
  by destruct (read_only m).
Qed.



Lemma deserialize_chronify con id_manager data parent_dir kwargs w
    directory filename engine :
  truthy (_process_time_series_kwarg "time_series_in_memory" kwargs) = false →
  data !! "directory" = Some (PyStr directory) →
  data !! "time_series_storage_type" = Some (PyStr "ChronifyTimeSeriesStorage") →
  data !! "filename" = Some (PyStr filename) →
  data !! "engine_name" = Some (PyStr engine) →
  TimeSeriesManager.deserialize con id_manager data parent_dir kwargs w
  = built TimeSeriesStorageBase.Chronify con id_manager kwargs
      (if truthy (_process_time_series_kwarg "time_series_read_only" kwargs)
       then ChronifyTimeSeriesStorage.from_file filename engine w
       else ChronifyTimeSeriesStorage.from_file_to_tmp_file
              filename (Some (path_join parent_dir directory)) engine w).
Proof.
  intros Hmem Hdir Hkind Hfile Hengine.
  unfold TimeSeriesManager.deserialize. rewrite Hmem.
  unfold bind at 1, lift_result at 1, getitem at 1. rewrite Hdir.
  unfold bind at 1, lift_result at 1. cbn [as_str].
  unfold bind at 1, lift_result at 1, getitem at 1. rewrite Hkind.
  rewrite bool_decide_eq_true_2 by done.
  unfold bind at 1. unfold bind at 1, lift_result at 1, getitem at 1. rewrite Hfile.
  unfold bind at 1, lift_result at 1, getitem at 1. rewrite Hengine.
  unfold bind at 1, lift_result at 1. cbn [as_str].
  unfold bind at 1, lift_result at 1. cbn [as_str].
  unfold bind at 1.
  destruct (truthy (_process_time_series_kwarg "time_series_read_only" kwargs)).
  - by destruct (ChronifyTimeSeriesStorage.from_file filename engine w) as [[s|e] w'].
  - by destruct (ChronifyTimeSeriesStorage.from_file_to_tmp_file _ _ _ w) as [[s|e] w'].
Qed.

Lemma get_by_metadata_chronify `{Externals} metadata start_time length m s w :
  TimeSeriesManager._storage m = TimeSeriesStorageBase.Chronify s →
  fst (TimeSeriesManager._get_by_metadata metadata start_time length (m, w))
  = fst (ChronifyTimeSeriesStorage.get_time_series s metadata start_time length w).
Proof.
  intros Hs.
  unfold TimeSeriesManager._get_by_metadata, TimeSeriesManager.with_storage,
    TimeSeriesStorageBase.get_time_series, TimeSeriesStorageBase.dispatch.
  cbn [fst snd]. rewrite Hs.
  by destruct (ChronifyTimeSeriesStorage.get_time_series s _ _ _ w).
Qed.

(** When [deserialize] returns, the in-memory mode was not requested and the
    descriptor names its directory. *)
Lemma deserialize_returns con id_manager data parent_dir kwargs w m' w' :
  TimeSeriesManager.deserialize con id_manager data parent_dir kwargs w = (Ok m', w') →
  truthy (_process_time_series_kwarg "time_series_in_memory" kwargs) = false
  ∧ ∃ directory, data !! "directory" = Some (PyStr directory).
Proof.
  unfold TimeSeriesManager.deserialize.
  destruct (truthy (_process_time_series_kwarg "time_series_in_memory" kwargs));
    [by intros [=]|].
  unfold bind at 1, lift_result at 1, getitem at 1.
  destruct (data !! "directory") as [[| | |directory]|]; try by intros [=].
  intros _. split; [done|]. by exists directory.
Qed.

(** X15: a manager over a chronify backend is serialized, and a manager is
    deserialized from the resulting descriptor, read-only or writable.
    Whenever both calls return: the first has left the manager as it was; the
    new manager is over a chronify backend with the same engine, has the
    read-only flag of the keyword arguments and the connection it was given,
    and every read through it returns what the same read returned through the
    original manager before the snapshot. *)
Theorem chronify_snapshot_round_trip `{Externals}
    m self data dst src w con id_manager parent_dir kwargs data' m1 w1 m2 w2 :
  TimeSeriesManager._storage m = TimeSeriesStorageBase.Chronify self →
  TimeSeriesManager.serialize data dst src (m, w) = (Ok data', (m1, w1)) →
  TimeSeriesManager.deserialize con id_manager data' parent_dir kwargs w1 = (Ok m2, w2) →
  m1 = m
  ∧ TimeSeriesManager.uses_chronify m2 = true
  ∧ TimeSeriesManager.get_engine_name m2 = TimeSeriesManager.get_engine_name m
  ∧ TimeSeriesManager._read_only m2
    = _process_time_series_kwarg "time_series_read_only" kwargs
  ∧ metadata_rows m2 = con
  ∧ ∀ metadata start_time length,
      fst (TimeSeriesManager._get_by_metadata metadata start_time length (m2, w2))
      = fst (TimeSeriesManager._get_by_metadata metadata start_time length (m, w)).
Proof.
  intros Hstorage Hserialized Hdeserialized.
  destruct (deserialize_returns _ _ _ _ _ _ _ _ Hdeserialized) as (Hmem & directory & Hdir').
  set (live := Store.file_path (ChronifyTimeSeriesStorage._store self)).
  set (engine := Store.engine_name (ChronifyTimeSeriesStorage._store self)).
  set (snapshot := dst +:+ "/tmp" +:+ pretty (tmp_seq w) +:+ ".db").
  assert (Hserialize : TimeSeriesManager.serialize data dst src (m, w)
            = (Ok (<["engine_name" := PyStr engine]>
                     (<["time_series_storage_type" := PyStr "ChronifyTimeSeriesStorage"]>
                        (<["filename" := PyStr snapshot]> data))),
               (m, mkWorld (<[snapshot := DbFile (db_rows w live)]> (disk w))
                     (S (tmp_seq w)) (atexit w)))).
  { unfold TimeSeriesManager.serialize, TimeSeriesManager.with_storage,
      TimeSeriesStorageBase.serialize. cbn [fst snd]. rewrite Hstorage.
    destruct m as [ids ro storage md]. cbn [TimeSeriesManager._storage] in Hstorage.
    subst storage. reflexivity. }
  rewrite Hserialize in Hserialized. injection Hserialized as <- <- <-.
  set (data' := <["engine_name" := PyStr engine]> _) in *.
  set (w1 := mkWorld _ _ _) in *.
  assert (Hsnapshot : disk w1 !! snapshot = Some (DbFile (db_rows w live))).
  { unfold w1. cbn [disk]. apply lookup_insert_eq. }
  assert (Hrun : TimeSeriesManager.deserialize con id_manager data' parent_dir kwargs w1
                 = built TimeSeriesStorageBase.Chronify con id_manager kwargs
                     (if truthy (_process_time_series_kwarg "time_series_read_only" kwargs)
                      then ChronifyTimeSeriesStorage.from_file snapshot engine w1
                      else ChronifyTimeSeriesStorage.from_file_to_tmp_file
                             snapshot (Some (path_join parent_dir directory)) engine w1)).
  { apply deserialize_chronify; [done|done| | |]; unfold data'.
    - rewrite lookup_insert_ne by done. by rewrite lookup_insert_eq.
    - do 2 (rewrite lookup_insert_ne by done). by rewrite lookup_insert_eq.
    - by rewrite lookup_insert_eq. }
  assert (Hengine : TimeSeriesManager.get_engine_name m = Some engine).
  { unfold TimeSeriesManager.get_engine_name. by rewrite Hstorage. }
  assert (Hreads : ∀ s2 w2 kw,
            db_rows w2 (Store.file_path (ChronifyTimeSeriesStorage._store s2))
            = db_rows w live →
            ∀ metadata start_time length,
              fst (TimeSeriesManager._get_by_metadata metadata start_time length
                     (manager_over con id_manager kw (TimeSeriesStorageBase.Chronify s2), w2))
              = fst (TimeSeriesManager._get_by_metadata metadata start_time length (m, w))).
  { intros s2 w2' kw Hrows metadata start_time length.
    rewrite (get_by_metadata_chronify _ _ _ _ s2) by done.
    rewrite (get_by_metadata_chronify _ _ _ _ self) by done.
    by apply chronify_get_rows. }
  rewrite Hrun in Hdeserialized. split; [done|].
  destruct (truthy (_process_time_series_kwarg "time_series_read_only" kwargs)).
  - rewrite (from_file_existing _ _ _ _ Hsnapshot) in Hdeserialized.
    cbn [built] in Hdeserialized. injection Hdeserialized as <- <-.
    split; [done|]. split; [done|]. split; [done|]. split; [done|].
    apply Hreads. cbn [ChronifyTimeSeriesStorage._store Store.file_path].
    unfold db_rows at 1. by rewrite Hsnapshot.
  - rewrite from_file_to_tmp_file_run, Hsnapshot in Hdeserialized.
    cbn [built] in Hdeserialized. injection Hdeserialized as <- <-.
    split; [done|]. split; [done|]. split; [done|]. split; [done|].
    apply Hreads. cbn [ChronifyTimeSeriesStorage._store Store.file_path].
    unfold db_rows at 1. cbn [disk]. rewrite lookup_insert_eq.
    unfold db_rows at 1. by rewrite Hsnapshot.
Qed.

Lemma chronify_snapshot_round_trip_witness :
  let m := TimeSeriesManager.mk (IDManager.mk 2) (PyBool false)
             (TimeSeriesStorageBase.Chronify
                (ChronifyTimeSeriesStorage.mk (Store.mk "duckdb" "snapshot.db")))
             (TimeSeriesMetadataStore.mk []) in
  let data := <["directory" := PyStr "time_series"]> ∅ in
  let saved := TimeSeriesManager.serialize data "out" None (m, export_world) in
  let data' := match fst saved with Ok data' => data' | Raise _ => ∅ end in
  let loaded := TimeSeriesManager.deserialize [] (IDManager.mk 2) data' "sys" ∅
                  (snd (snd saved)) in
  let m2 := TimeSeriesManager.mk (IDManager.mk 2) (PyBool false)
              (TimeSeriesStorageBase.Chronify
                 (ChronifyTimeSeriesStorage.mk
                    (Store.mk "duckdb" "sys/time_series/tmp1.db")))
              (TimeSeriesMetadataStore.mk []) in
  fst saved = Ok data'
  ∧ fst loaded = Ok m2
  ∧ TimeSeriesManager.uses_chronify m2 = true
  ∧ TimeSeriesManager.get_engine_name m2 = Some "duckdb"
  ∧ ∀ metadata start_time length,
      fst (TimeSeriesManager._get_by_metadata (H := lenient) metadata start_time length
             (m2, snd loaded))
      = fst (TimeSeriesManager._get_by_metadata (H := lenient) metadata start_time length
               (m, export_world)).
Proof.
  intros m data saved data' loaded m2.
  split; [reflexivity|]. split; [reflexivity|].
  assert (Hsaved : saved = (Ok data', (m, snd (snd saved)))) by (vm_compute; reflexivity).
  assert (Hloaded : loaded = (Ok m2, snd loaded)) by (vm_compute; reflexivity).
  destruct (chronify_snapshot_round_trip (H := lenient) m
              (ChronifyTimeSeriesStorage.mk (Store.mk "duckdb" "snapshot.db"))
              data "out" None export_world [] (IDManager.mk 2) "sys" ∅
              data' m (snd (snd saved)) m2 (snd loaded) eq_refl Hsaved Hloaded)
    as (_ & Huses & Hengine & _ & _ & Hreads).
  split; [exact Huses|]. split; [exact Hengine|exact Hreads].
Defined.



(** ** The association index: removal, the two queries, repeated adds *)

Lemma insert_all_app rows1 rows2 table :
  forallb bindable_row rows1 = true →
  ComponentAssociations.insert_all (rows1 ++ rows2) table
  = ComponentAssociations.insert_all rows2
      (snd (ComponentAssociations.insert_all rows1 table)).
Proof.
  revert table. induction rows1 as [|[[[cid cty] aid] aty] rows1 IH]; intros table; [done|].
  cbn [forallb bindable_row app ComponentAssociations.insert_all].
  intros [-> Hrows]%andb_prop. unfold bind, modify. by apply IH.
Qed.

(** X17: adds compose. For components whose list fields are uniform (a list
    that starts with a component holds components only) and whose ids SQLite
    can hold, one add of two groups leaves the index exactly as an add of the
    first group followed by an add of the second, primary keys included; the
    rows are those the index had, then the edges of the first group, then
    those of the second. Nothing is deduplicated: the same group added twice
    has its edges twice. *)
Theorem add_composes components1 components2 self :
  (∀ c field, c ∈ (components1 ++ components2)%list → field ∈ model_fields c →
              uniform (snd field) = true) →
  forallb bindable_row (expected_rows (components1 ++ components2)) = true →
  let first := ComponentAssociations.add components1 self in
  let second := ComponentAssociations.add components2 (snd first) in
  fst first = Ok tt
  ∧ fst second = Ok tt
  ∧ ComponentAssociations.add (components1 ++ components2)%list self = (Ok tt, snd second)
  ∧ map edge_of (ComponentAssociations._con (snd second))
    = (map edge_of (ComponentAssociations._con self)
       ++ expected_rows components1 ++ expected_rows components2)%list.
Proof.
  intros Huniform Hrange first second. subst first second.
  assert (expected_rows (components1 ++ components2)
          = (expected_rows components1 ++ expected_rows components2)%list) as Happ.
  { unfold expected_rows. by rewrite flat_map_app. }
  rewrite Happ, forallb_app in Hrange. apply andb_prop in Hrange as [Hrange1 Hrange2].
  destruct (uniform_components components1) as [Hall1 Hrows1].
  { intros c f Hc. apply Huniform, elem_of_app. by left. }
  destruct (uniform_components components2) as [Hall2 Hrows2].
  { intros c f Hc. apply Huniform, elem_of_app. by right. }
  destruct (uniform_components (components1 ++ components2) Huniform) as [Hall Hrows].
  destruct (insert_all_run (expected_rows components1) (ComponentAssociations._con self))
    as (table1 & Hrun1 & Hedges1).
  rewrite Hrange1, bindable_prefix_all in * by done.
  destruct (insert_all_run (expected_rows components2) table1) as (table2 & Hrun2 & Hedges2).
  rewrite Hrange2, bindable_prefix_all in * by done.
  rewrite (association_add_run components1), Hall1, Hrows1, Hrun1. cbn [fst snd].
  rewrite (association_add_run components2), Hall2, Hrows2.
  cbn [ComponentAssociations._con]. rewrite Hrun2. cbn [fst snd].
  rewrite (association_add_run (components1 ++ components2)), Hall, Hrows, Happ.
  rewrite (insert_all_app _ _ _ Hrange1), Hrun1. cbn [snd]. rewrite Hrun2.
  split; [done|]. split; [done|]. split; [done|].
  cbn [ComponentAssociations._con]. by rewrite Hedges2, Hedges1, <- app_assoc.
Qed.

Lemma add_composes_witness :
  let first := ComponentAssociations.add [gen3] ComponentAssociations.__init__ in
  let second := ComponentAssociations.add [gen3; substation4] (snd first) in
  fst first = Ok tt
  ∧ fst second = Ok tt
  ∧ ComponentAssociations.add ([gen3] ++ [gen3; substation4])%list ComponentAssociations.__init__
    = (Ok tt, snd second)
  ∧ map edge_of (ComponentAssociations._con (snd second))
    = [(Some 3, "Generator", Some 1, "Bus");
       (Some 3, "Generator", Some 1, "Bus");
       (Some 4, "Substation", Some 1, "Bus");
       (Some 4, "Substation", Some 2, "Bus");
       (Some 4, "Substation", Some 3, "Generator")].
Proof.
  apply (add_composes [gen3] [gen3; substation4] ComponentAssociations.__init__);
    [|reflexivity].
  intros c field Hc Hfield.
  repeat (apply elem_of_cons in Hc as [->|Hc];
          [simpl in Hfield;
           repeat (apply elem_of_cons in Hfield as [->|Hfield]; [reflexivity|]);
           by apply elem_of_nil in Hfield|]).
  by apply elem_of_nil in Hc.
Defined.

(** X18: [remove] detaches a component. Without an id it deletes nothing
    ([component_id = NULL] matches no row), while both queries on such a
    component fail their assertion. With an id that SQLite can hold, it
    deletes exactly the rows that have the id as owner or as attachee:
    afterwards the component has no children and no parents, under any type
    filter, and every other row is still there, in its place. With an id that
    SQLite cannot hold, [remove] and both queries raise [OverflowError] and
    change nothing. *)
Theorem remove_detaches_the_component component self :
  let run := ComponentAssociations.remove component self in
  let self' := snd run in
  (id_of component = None →
   run = (Ok tt, self)
   ∧ ∀ component_type,
       ComponentAssociations.list_child_components component component_type self
       = (Raise AssertionError, self)
       ∧ ComponentAssociations.list_parent_components component component_type self
         = (Raise AssertionError, self))
  ∧ (∀ cid, id_of component = Some cid → sqlite_integer cid = true →
     fst run = Ok tt
     ∧ (∀ component_type,
          ComponentAssociations.list_child_components component component_type self'
          = (Ok [], self')
          ∧ ComponentAssociations.list_parent_components component component_type self'
            = (Ok [], self'))
     ∧ ComponentAssociations._con self'
       = List.filter
           (fun row => negb (sql_eq (ComponentAssociations.component_id row) cid)
                       && negb (sql_eq (ComponentAssociations.attached_component_id row) cid))
           (ComponentAssociations._con self))
  ∧ (∀ cid, id_of component = Some cid → sqlite_integer cid = false →
     run = (Raise OverflowError, self)
     ∧ ∀ component_type,
         ComponentAssociations.list_child_components component component_type self
         = (Raise OverflowError, self)
         ∧ ComponentAssociations.list_parent_components component component_type self
           = (Raise OverflowError, self)).
Proof.
  intros run self'. subst run self'.
  unfold ComponentAssociations.remove, ComponentAssociations.list_child_components,
    ComponentAssociations.list_parent_components.
  split; [|split].
  - intros Hid. rewrite Hid. cbn [bindable negb]. unfold bind, get_st, put_st. split; [|done].
    destruct self as [rows]. do 2 f_equal. cbn [ComponentAssociations._con].
    induction rows as [|row rows IH]; [done|]. simpl in *. by rewrite IH.
  - intros cid Hid Hcid. rewrite Hid. cbn [bindable]. rewrite Hcid. cbn [negb].
    unfold bind, get_st, put_st, ret. cbn [fst snd ComponentAssociations._con].
    assert (Hfilter :
              List.filter
                (fun row => negb (sql_eq (ComponentAssociations.component_id row) cid
                                  || sql_eq (ComponentAssociations.attached_component_id row) cid))
                (ComponentAssociations._con self)
              = List.filter
                  (fun row => negb (sql_eq (ComponentAssociations.component_id row) cid)
                              && negb (sql_eq (ComponentAssociations.attached_component_id row) cid))
                  (ComponentAssociations._con self)).
    { apply List.filter_ext. intros row. apply negb_orb. }
    rewrite Hfilter. clear Hfilter. split; [done|]. split; [|done].
    intros component_type. split; f_equal; f_equal.
    + induction (ComponentAssociations._con self) as [|row rows IH]; [done|]. simpl.
      destruct (sql_eq (ComponentAssociations.component_id row) cid) eqn:Hrow; simpl;
        [done|].
      destruct (sql_eq (ComponentAssociations.attached_component_id row) cid); simpl;
        [done|]. by rewrite Hrow.
    + induction (ComponentAssociations._con self) as [|row rows IH]; [done|]. simpl.
      destruct (sql_eq (ComponentAssociations.component_id row) cid) eqn:Hrow; simpl;
        [done|].
      destruct (sql_eq (ComponentAssociations.attached_component_id row) cid) eqn:Hrow';
        simpl; [done|]. by rewrite Hrow'.
  - intros cid Hid Hcid. rewrite Hid. cbn [bindable]. by rewrite Hcid.
Qed.

Lemma remove_detaches_the_component_witness :
  let index := snd (ComponentAssociations.add [gen3; substation4]
                      ComponentAssociations.__init__) in
  let index' := snd (ComponentAssociations.remove bus1 index) in
  let huge := mkComponent (Some (2 ^ 63)) "Bus" [] in
  ComponentAssociations.list_child_components bus1 None index' = (Ok [], index')
  ∧ ComponentAssociations.list_parent_components bus1 None index' = (Ok [], index')
  ∧ map edge_of (ComponentAssociations._con index')
    = [(Some 4, "Substation", Some 2, "Bus");
       (Some 4, "Substation", Some 3, "Generator")]
  ∧ ComponentAssociations.remove huge index = (Raise OverflowError, index).
Proof.
  intros index index' huge.
  destruct (remove_detaches_the_component bus1 index) as (_ & Hid & _).
  destruct (Hid 1 eq_refl eq_refl) as (_ & Hqueries & Hrows).
  destruct (remove_detaches_the_component huge index) as (_ & _ & Hhuge).
  split; [apply (Hqueries None)|]. split; [apply (Hqueries None)|].
  split; [|by apply (Hhuge (2 ^ 63))].
  fold index' in Hrows. rewrite Hrows. reflexivity.
Defined.

(** X19: the two queries read the same edges from their two ends: for ids
    that SQLite can hold and with no type filter, both queries return, and a
    component is among the children of another exactly when that other is
    among its parents. *)
Theorem child_and_parent_queries_agree owner attached oid aid self :
  id_of owner = Some oid →
  id_of attached = Some aid →
  sqlite_integer oid = true →
  sqlite_integer aid = true →
  ∃ children parents,
    ComponentAssociations.list_child_components owner None self = (Ok children, self)
    ∧ ComponentAssociations.list_parent_components attached None self = (Ok parents, self)
    ∧ (Some aid ∈ children ↔ Some oid ∈ parents).
Proof.
  intros Howner Hattached Hoid Haid.
  unfold ComponentAssociations.list_child_components,
    ComponentAssociations.list_parent_components, bind, get_st, ret.
  rewrite Howner, Hattached, Hoid, Haid. cbn [negb].
  do 2 eexists. split; [done|]. split; [done|].
  rewrite !list_elem_of_In, !in_map_iff.
  assert (∀ column k, column = Some k ↔ sql_eq column k = true) as Hsql.
  { intros [v|] k; simpl; [|done]. rewrite Z.eqb_eq. split; congruence. }
  split.
  - intros (row & Hchild & [Hin [Hown _]%andb_prop]%filter_In).
    exists row. split; [by apply Hsql|]. apply filter_In. split; [done|].
    apply Hsql in Hchild. by rewrite Hchild.
  - intros (row & Hparent & [Hin [Hatt _]%andb_prop]%filter_In).
    exists row. split; [by apply Hsql|]. apply filter_In. split; [done|].
    apply Hsql in Hparent. by rewrite Hparent.
Qed.

Lemma child_and_parent_queries_agree_witness :
  let index := snd (ComponentAssociations.add [gen3; substation4]
                      ComponentAssociations.__init__) in
  ∃ children parents,
    ComponentAssociations.list_child_components substation4 None index = (Ok children, index)
    ∧ ComponentAssociations.list_parent_components bus2 None index = (Ok parents, index)
    ∧ (Some 2 ∈ children ↔ Some 4 ∈ parents).
Proof.
  intros index.
  apply (child_and_parent_queries_agree substation4 bus2 4 2 index); reflexivity.
Defined.

(** X20: the outcomes of [add], for components whose fields hold components,
    lists, dictionaries, tuples, plain values and other objects with an
    integer [id]. If some list that starts with a component holds an object
    without [id], [add] raises [AttributeError] from the loop that collects
    the rows, and nothing is inserted. Otherwise the rows are inserted in
    order up to the first one with an id that SQLite cannot hold: [add]
    returns when there is none, and raises [OverflowError] when there is one,
    the rows before it having been inserted and committed. So [add] returns
    exactly when every such list holds objects with an [id] only and every id
    fits, and then all the rows are in the table. *)
Theorem add_outcomes components self :
  let run := ComponentAssociations.add components self in
  let rows := built_rows components in
  (all_attachable components = false → run = (Raise AttributeError, self))
  ∧ (all_attachable components = true →
     fst run = (if forallb bindable_row rows then Ok tt else Raise OverflowError)
     ∧ map edge_of (ComponentAssociations._con (snd run))
       = (map edge_of (ComponentAssociations._con self) ++ bindable_prefix rows)%list)
  ∧ (fst run = Ok tt
     ↔ all_attachable components = true ∧ forallb bindable_row rows = true)
  ∧ (fst run = Ok tt →
     map edge_of (ComponentAssociations._con (snd run))
     = (map edge_of (ComponentAssociations._con self) ++ rows)%list).
Proof.
  intros run rows. subst run rows. rewrite association_add_run.
  destruct (all_attachable components).
  - destruct (insert_all_run (built_rows components) (ComponentAssociations._con self))
      as (table' & -> & Hedges).
    cbn [fst snd ComponentAssociations._con].
    split; [done|]. split; [by intros _|].
    destruct (forallb bindable_row (built_rows components)) eqn:Hrange.
    + rewrite bindable_prefix_all in Hedges by done. by repeat split.
    + split; [|done]. split; [done|]. by intros [_ [=]].
  - split; [done|]. split; [done|]. split; [|done]. split; [done|]. by intros [[=] _].
Qed.

Lemma add_outcomes_witness :
  let huge := mkComponent (Some 8) "Feeder"
                [("first", VComponent bus1);
                 ("far", VComponent (mkComponent (Some (2 ^ 63)) "Bus" []));
                 ("last", VComponent bus2)] in
  let tagged := mkComponent (Some 9) "Region"
                  [("members", VList [VComponent bus1; VIdentified (Some 70) "Forecast"])] in
  ComponentAssociations.add [gen3; depot5] ComponentAssociations.__init__
  = (Raise AttributeError, ComponentAssociations.__init__)
  ∧ (fst (ComponentAssociations.add [huge] ComponentAssociations.__init__)
     = Raise OverflowError
     ∧ map edge_of (ComponentAssociations._con
                      (snd (ComponentAssociations.add [huge] ComponentAssociations.__init__)))
       = [(Some 8, "Feeder", Some 1, "Bus")])
  ∧ (fst (ComponentAssociations.add [tagged] ComponentAssociations.__init__) = Ok tt
     ∧ map edge_of (ComponentAssociations._con
                      (snd (ComponentAssociations.add [tagged] ComponentAssociations.__init__)))
       = [(Some 9, "Region", Some 1, "Bus"); (Some 9, "Region", Some 70, "Forecast")]).
Proof.
  intros huge tagged.
  destruct (add_outcomes [gen3; depot5] ComponentAssociations.__init__) as (Hraise & _).
  destruct (add_outcomes [huge] ComponentAssociations.__init__) as (_ & Hpartial & _).
  destruct (add_outcomes [tagged] ComponentAssociations.__init__) as (_ & Hall & _).
  split; [by apply Hraise|]. split; [by apply Hpartial|by apply Hall].
Defined.


(** ** Consistency along sequences of calls *)

(** X21: every sequence of [add] and [remove] calls, successful or not, takes
    a manager whose referenced arrays are all stored to a manager whose
    referenced arrays are all stored, as long as no series without samples is
    added. *)
Theorem calls_preserve_consistency `{Externals} ops m w :
  consistent m w →
  existsb adds_no_samples ops = false →
  consistent (fst (perform_all ops (m, w))) (snd (perform_all ops (m, w))).
Proof.
  revert m w. induction ops as [|op ops IH]; intros m w Hcons; [done|].
  simpl. intros [Hop Hops]%orb_false_elim.
  unfold perform_all in *. simpl.
  destruct (perform (m, w) op) as [m1 w1] eqn:Hstep.
  apply IH; [|done].
  destruct op as [time_series components attrs|components variable_name ty attrs];
    simpl in Hstep, Hop.
  - destruct (TimeSeriesManager.add components attrs (TimeSeries time_series, (m, w)))
      as [r [obj' [m' w']]] eqn:Hrun.
    simpl in Hstep. injection Hstep as -> ->.
    apply (add_preserves_consistency _ _ _ _ _ _ _ _ _ Hcons) in Hrun; [done|].
    by destruct (payload time_series).
  - destruct (TimeSeriesManager.remove components variable_name ty attrs (m, w))
      as [r [m' w']] eqn:Hrun.
    simpl in Hstep. injection Hstep as -> ->.
    by apply (remove_preserves_consistency _ _ _ _ _ _ _ _ _ Hcons) in Hrun.
Qed.

Lemma calls_preserve_consistency_witness :
  let final := perform_all (H := lenient)
                 [Add fresh_series [generator] [];
                  Remove [generator] (Some "load") "SingleTimeSeries" [];
                  Remove [bus] (Some "load") "SingleTimeSeries" []]
                 (shared_manager, empty_world) in
  physically_stored (fst final) (snd final) 1 = false
  ∧ physically_stored (fst final) (snd final) 2 = true
  ∧ consistent (fst final) (snd final).
Proof.
  intros final. split; [reflexivity|]. split; [reflexivity|].
  apply (calls_preserve_consistency (H := lenient)); [|reflexivity].
  intros k Hk. apply has_time_series_true in Hk as (row & Hrow & <-).
  simpl in Hrow. repeat (apply elem_of_cons in Hrow as [->|Hrow]; [reflexivity|]).
  by apply elem_of_nil in Hrow.
Defined.
